(** * Aqueduct: webhook intake and queue drain

    A shallow embedding of the event intake-and-drain pipeline:

    - [src/lib/notion.ts]: signature helpers, upstream client, rate limiter;
    - [src/lib/verificationToken.ts]: the one-time verification token channel;
    - [src/app/api/admin/notion/verification-token/route.ts]: the admin route;
    - the webhook route ([POST]): verification handshake, signature check,
      dedup, enqueue;
    - [scripts/events-queue-worker.mjs]: the queue drain worker.

    JavaScript strings are sequences of UTF-16 code units, so they are lists of
    [N] here: [length], [slice] and [trim] then count what the source counts.

    The upstream store, the Redis service and the rate-limit counter are not
    code of the repository. They are modelled as explicit state ([World]), as
    far as the calls of the source reach them: the store filters, sorts, pages,
    creates and patches rows; Redis holds strings with an expiry time; the
    counter answers as a given list says. Which fetches fail is an input too.
    Computations pass the world along and may throw. *)

From Stdlib Require Import ZArith NArith Lia String Ascii List.
From Stdlib Require QArith Qround.
From stdpp Require Import base option list gmap pretty.

Local Open Scope N_scope.

(* ===================================================================== *)
(** ** JavaScript values *)
(* ===================================================================== *)

Module JS.

(** A JavaScript string: its UTF-16 code units. *)
Abbreviation jsstring := (list N).

(** An ASCII literal of the source, as code units. *)
Definition lit (s : string) : jsstring :=
  N_of_ascii <$> list_ascii_of_string s.

(** [!!s] for a string: the empty string is the only falsy one. *)
Definition truthy_string (s : jsstring) : bool :=
  match s with [] => false | _ :: _ => true end.

(** [!!v] for [string | undefined]. *)
Definition truthy_opt (o : option jsstring) : bool :=
  match o with Some s => truthy_string s | None => false end.

(** [s.slice(0, n)] for [0 <= n]. *)
Definition slice_to (n : nat) (s : jsstring) : jsstring := take n s.

(** [s.slice(-n)] for [0 < n]: the last [n] code units (all of [s] when it is shorter). *)
Definition slice_last (n : nat) (s : jsstring) : jsstring :=
  drop (length s - n) s.

(** White space and line terminators, as [String.prototype.trim] removes them. *)
Definition is_space (c : N) : bool :=
  (9 <=? c) && (c <=? 13) || (c =? 32) || (c =? 160) || (c =? 5760)
  || (8192 <=? c) && (c <=? 8202) || (c =? 8232) || (c =? 8233)
  || (c =? 8239) || (c =? 8287) || (c =? 12288) || (c =? 65279).

Fixpoint trim_start (s : jsstring) : jsstring :=
  match s with
  | c :: s' => if is_space c then trim_start s' else s
  | [] => []
  end.

Definition trim (s : jsstring) : jsstring :=
  rev (trim_start (rev (trim_start s))).

(** [l.join("")] *)
Definition join_empty (l : list jsstring) : jsstring := concat l.

(** [a.localeCompare(b)] on the values it is applied to in the source:
    ISO-8601 timestamps of one format, where collation order is the order of
    the code units. *)
Fixpoint localeCompare (a b : jsstring) : comparison :=
  match a, b with
  | [], [] => Eq
  | [], _ :: _ => Lt
  | _ :: _, [] => Gt
  | x :: a', y :: b' =>
      match N.compare x y with
      | Eq => localeCompare a' b'
      | c => c
      end
  end.

(** [Array.prototype.sort(cmp)]: a stable sort; [cmp a b <= 0] keeps [a] first. *)
Section Sort.
Context {A : Type} (cmp : A -> A -> comparison).

Fixpoint sort_insert (x : A) (l : list A) : list A :=
  match l with
  | [] => [x]
  | y :: l' =>
      match cmp x y with
      | Gt => y :: sort_insert x l'
      | _ => x :: l
      end
  end.

Definition sort (l : list A) : list A := foldr sort_insert [] l.
End Sort.

(** The values [JSON.parse] produces. Numbers are the integer-valued ones. *)
#[warnings="-register-all"]
Inductive JSON : Type :=
| JNull
| JBool (b : bool)
| JNum (n : Z)
| JStr (s : jsstring)
| JArr (items : list JSON)
| JObj (fields : list (jsstring * JSON)).

(** [!!v] *)
Definition truthy (v : JSON) : bool :=
  match v with
  | JNull => false
  | JBool b => b
  | JNum n => negb (n =? 0)%Z
  | JStr s => truthy_string s
  | JArr _ | JObj _ => true
  end.

(** [!!v] for a value that may be [null] ([None]). *)
Definition truthy_value (o : option JSON) : bool :=
  match o with Some v => truthy v | None => false end.

Fixpoint assoc (k : jsstring) (fields : list (jsstring * JSON)) : option JSON :=
  match fields with
  | [] => None
  | (k', v) :: rest => if bool_decide (k' = k) then Some v else assoc k rest
  end.

(** [v?.k]: [undefined] (here [None]) on anything but an object holding [k]. *)
Definition get (k : jsstring) (v : JSON) : option JSON :=
  match v with
  | JObj fields => assoc k fields
  | _ => None
  end.

(** [String(v)]. A number is printed in decimal digits, as [String] prints
    the integers below [1e21]. *)
Fixpoint String_ (v : JSON) : jsstring :=
  match v with
  | JNull => lit "null"
  | JBool true => lit "true"
  | JBool false => lit "false"
  | JNum n => lit (pretty n)
  | JStr s => s
  | JArr items =>
      (fix join (l : list JSON) : jsstring :=
         match l with
         | [] => []
         | x :: l' =>
             match x with JNull => [] | _ => String_ x end
             ++ match l' with [] => [] | _ :: _ => lit "," ++ join l' end
         end) items
  | JObj _ => lit "[object Object]"
  end.

(** A thrown value: an [Error] (or a subclass) with its name and message. *)
Record exn : Type := Exn { ename : jsstring; emessage : jsstring }.

Definition Error (msg : jsstring) : exn := Exn (lit "Error") msg.
Definition TypeError (msg : jsstring) : exn := Exn (lit "TypeError") msg.

(** [String(err)]: [Error.prototype.toString]. *)
Definition String_exn (e : exn) : jsstring :=
  match ename e, emessage e with
  | [], m => m
  | n, [] => n
  | n, m => n ++ lit ": " ++ m
  end.

(** Built-ins of the platform the source calls and the model leaves open. *)
Class Platform : Type := {
  JSON_parse : jsstring -> option JSON;      (* [None]: a SyntaxError is thrown *)
  JSON_stringify : JSON -> jsstring;
  toISOString : Z -> jsstring                (* [new Date(ms).toISOString()] *)
}.

End JS.

(* ===================================================================== *)
(** ** [node:crypto] and [Buffer], as far as the source uses them *)
(* ===================================================================== *)

Module Crypto.
Import JS.

(** The UTF-8 bytes of a string: what [createHmac(alg, secret)] and
    [update(payload)] hash when they are given strings. *)
Fixpoint utf8 (s : jsstring) : list N :=
  match s with
  | [] => []
  | c :: s' =>
      if c <? 128 then c :: utf8 s'
      else if c <? 2048 then (192 + c / 64) :: (128 + c mod 64) :: utf8 s'
      else if (55296 <=? c) && (c <? 56320) then
        match s' with
        | d :: s'' =>
            if (56320 <=? d) && (d <? 57344) then
              let cp := 65536 + (c - 55296) * 1024 + (d - 56320) in
              (240 + cp / 262144) :: (128 + (cp / 4096) mod 64)
                :: (128 + (cp / 64) mod 64) :: (128 + cp mod 64) :: utf8 s''
            else 239 :: 191 :: 189 :: utf8 s'
        | [] => [239; 191; 189]
        end
      else if (56320 <=? c) && (c <? 57344) then 239 :: 191 :: 189 :: utf8 s'
      else (224 + c / 4096) :: (128 + (c / 64) mod 64) :: (128 + c mod 64) :: utf8 s'
  end.

(** *** SHA-256 (FIPS 180-4) on 32-bit words held in [N] *)

Definition w32 (x : N) : N := x mod 2 ^ 32.
Definition add32 (a b : N) : N := w32 (a + b).
Definition rotr (n x : N) : N := N.lor (N.shiftr x n) (w32 (N.shiftl x (32 - n))).

Definition Ch (x y z : N) : N :=
  N.lxor (N.land x y) (N.land (N.lxor x (2 ^ 32 - 1)) z).
Definition Maj (x y z : N) : N :=
  N.lxor (N.lxor (N.land x y) (N.land x z)) (N.land y z).
Definition Sigma0 (x : N) : N := N.lxor (N.lxor (rotr 2 x) (rotr 13 x)) (rotr 22 x).
Definition Sigma1 (x : N) : N := N.lxor (N.lxor (rotr 6 x) (rotr 11 x)) (rotr 25 x).
Definition sigma0 (x : N) : N := N.lxor (N.lxor (rotr 7 x) (rotr 18 x)) (N.shiftr x 3).
Definition sigma1 (x : N) : N := N.lxor (N.lxor (rotr 17 x) (rotr 19 x)) (N.shiftr x 10).

(** The constants are the leading fractional bits of the square and cube
    roots of the first primes. *)
Definition is_prime (n : N) : bool :=
  forallb (fun d => negb (n mod d =? 0)) (N.of_nat <$> seq 2 (N.to_nat n - 2)).

Definition primes64 : list N :=
  Eval vm_compute in take 64 (List.filter is_prime (N.of_nat <$> seq 2 310)).

Fixpoint cbrt_bits (bits : nat) (n r : N) : N :=
  match bits with
  | O => r
  | S b =>
      let c := r + 2 ^ N.of_nat b in
      cbrt_bits b n (if c * c * c <=? n then c else r)
  end.

Definition K256 : list N :=
  Eval vm_compute in (fun p => w32 (cbrt_bits 40 (p * 2 ^ 96) 0)) <$> primes64.

Definition H256 : list N :=
  Eval vm_compute in (fun p => w32 (N.sqrt (p * 2 ^ 64))) <$> take 8 primes64.

Fixpoint schedule (n : nat) (w : list N) : list N :=
  match n with
  | O => w
  | S n' =>
      let g i := nth (length w - i) w 0 in
      schedule n' (w ++ [add32 (add32 (sigma1 (g 2%nat)) (g 7%nat))
                               (add32 (sigma0 (g 15%nat)) (g 16%nat))])
  end.

Definition sha_round (st : list N) (kw : N * N) : list N :=
  match st with
  | [a; b; c; d; e; f; g; h] =>
      let t1 := add32 (add32 (add32 h (Sigma1 e)) (add32 (Ch e f g) kw.1)) kw.2 in
      let t2 := add32 (Sigma0 a) (Maj a b c) in
      [add32 t1 t2; a; b; c; add32 d t1; e; f; g]
  | _ => st
  end.

Definition compress (hs : list N) (block : list N) : list N :=
  zip_with add32 hs (fold_left sha_round (zip K256 (schedule 48 block)) hs).

Fixpoint chunks {A} (fuel n : nat) (l : list A) : list (list A) :=
  match fuel, l with
  | S fuel', _ :: _ => take n l :: chunks fuel' n (drop n l)
  | _, _ => []
  end.

Definition be_bytes (width : nat) (x : N) : list N :=
  (fun i => (x / 256 ^ N.of_nat i) mod 256) <$> rev (seq 0 width).

Definition be_word (bytes : list N) : N :=
  fold_left (fun acc b => acc * 256 + b) bytes 0.

Definition pad (msg : list N) : list N :=
  let len := N.of_nat (length msg) in
  msg ++ [128] ++ replicate (N.to_nat ((119 - len mod 64) mod 64)) 0
      ++ be_bytes 8 (8 * len).

Definition sha256 (msg : list N) : list N :=
  let bytes := pad msg in
  let words := be_word <$> chunks (length bytes) 4 bytes in
  let blocks := chunks (length words) 16 words in
  concat (be_bytes 4 <$> fold_left compress blocks H256).

(** *** HMAC (RFC 2104) *)

Definition hmac_sha256 (key msg : list N) : list N :=
  let k0 := if (64 <? length key)%nat then sha256 key else key in
  let k := k0 ++ replicate (64 - length k0) 0 in
  sha256 ((N.lxor 92 <$> k) ++ sha256 ((N.lxor 54 <$> k) ++ msg)).

Definition hex_digit (x : N) : N := if x <? 10 then 48 + x else 87 + x.

(** [digest("hex")] *)
Definition hex (bytes : list N) : jsstring :=
  bytes ≫= (fun b => [hex_digit (b / 16); hex_digit (b mod 16)]).

(** *** src/lib/notion.ts *)

Definition hmacSha256Hex (secret payload : jsstring) : jsstring :=
  hex (hmac_sha256 (utf8 secret) (utf8 payload)).

(** The value of a hex digit, as the decoder of [Buffer.from(s, "hex")] reads
    it: a code unit is looked up by its low eight bits, so that [U+0131]
    counts as the digit [1] and [U+0141] as the digit [A]. *)
Definition unhex (c : N) : option N :=
  let c := c mod 256 in
  if (48 <=? c) && (c <=? 57) then Some (c - 48)
  else if (97 <=? c) && (c <=? 102) then Some (c - 87)
  else if (65 <=? c) && (c <=? 70) then Some (c - 55)
  else None.

(** [Buffer.from(s, "hex")]: two digits a byte; decoding stops (it does not
    throw) at the first pair that is not two hex digits, and a trailing single
    character is dropped. *)
Fixpoint Buffer_from_hex (s : jsstring) : list N :=
  match s with
  | a :: b :: s' =>
      match unhex a, unhex b with
      | Some x, Some y => (16 * x + y) :: Buffer_from_hex s'
      | _, _ => []
      end
  | _ => []
  end.

(** [crypto.timingSafeEqual(a, b)]: throws ([None]) on buffers of different
    lengths; otherwise every byte pair is combined, whatever the position of a
    difference. *)
Definition timingSafeEqual (a b : list N) : option bool :=
  if bool_decide (length a = length b)
  then Some (fold_left N.lor (zip_with N.lxor a b) 0 =? 0)
  else None.

Definition timingSafeEqualHex (a b : jsstring) : bool :=
  let ab := Buffer_from_hex a in
  let bb := Buffer_from_hex b in
  if negb (bool_decide (length ab = length bb)) then false
  else match timingSafeEqual ab bb with
       | Some r => r
       | None => false               (* catch { return false } *)
       end.

End Crypto.


(* ===================================================================== *)
(** ** The world the processes run in *)
(* ===================================================================== *)

Module Model.
Import JS.

(** *** Configuration ([process.env]); [None] is [undefined] *)

Record Env : Type := {
  NOTION_API_KEY : option jsstring;
  NOTION_EVENTS_QUEUE_DB_ID : option jsstring;
  NOTION_WEBHOOK_VERIFICATION_TOKEN : option jsstring;
  NOTION_WEBHOOK_SECRET : option jsstring;
  UPSTASH_REDIS_REST_URL : option jsstring;
  UPSTASH_REDIS_REST_TOKEN : option jsstring;
  AQUEDUCT_ADMIN_SECRET : option jsstring
}.

(** *** The upstream store: one database of pages (the queue) *)

Inductive PropValue : Type :=
| PTitle (content : jsstring)
| PRichText (segments : list jsstring)   (* the [plain_text] of each segment *)
| PSelect (name : jsstring)
| PUrl (url : jsstring)
| PCheckbox (checkbox : bool)
| PDate (start : jsstring).

Record Page : Type := {
  page_id : jsstring;
  created_time : jsstring;
  properties : gmap jsstring PropValue
}.

Inductive Filter : Type :=
| RichTextEquals (property : jsstring) (equals : jsstring)
| SelectEquals (property : jsstring) (equals : jsstring).

(** The calls the source sends through [notionFetch], by path and method:
    - [GET /databases/{id}]
    - [POST /data_sources/{id}/query] with [page_size], [filter] and, when
      [sorts] is given, [created_time] ascending
    - [POST /pages] with [parent.database_id] and [properties]
    - [PATCH /pages/{id}] with [properties].
    A property of a [POST /pages] body is a JavaScript value that may be
    [undefined] ([None]). *)
Inductive Call : Type :=
| GetDatabase (databaseId : jsstring)
| QueryDataSource (dataSourceId : jsstring) (page_size : nat)
    (filter : Filter) (sorts_created_ascending : bool)
| CreatePage (database_id : jsstring) (props : list (jsstring * option PropValue))
| UpdatePage (pageId : jsstring) (props : list (jsstring * PropValue)).

(** The parsed JSON of a 2xx answer. *)
Inductive Reply : Type :=
| RDatabase (data_sources : list jsstring)   (* [data_sources[i].id] *)
| RResults (results : list Page)
| RPage (page : Page).

(** A fetch that does not go well: a non-2xx answer, or no answer at all. *)
Inductive Fault : Type :=
| HttpError (status : N) (text : jsstring)
| NetworkError.

(** *** The Upstash services *)

(** What [Ratelimit.limit] answers. *)
Record RatelimitResponse : Type := {
  success : bool;
  reset : Z;
  remaining : Z
}.

Inductive ConsoleLine : Type :=
| ConsoleLog (line : jsstring)
| ConsoleError (line : jsstring) (err : exn).

(** The queue database of the store. *)
Record Store : Type := {
  database : jsstring;                     (* the id of the database *)
  data_sources : list jsstring;            (* the ids of its data sources *)
  rows : list Page;                        (* its pages, in the store's order *)
  next_row : N                             (* names the next page created *)
}.

Record World : Type := {
  now : Z;                                 (* [Date.now()], milliseconds *)
  store : Store;                           (* the upstream store *)
  faults : list (option Fault);            (* how the next fetches will go *)
  calls : list Call;                       (* every call fetched, oldest first *)
  redis : gmap jsstring (jsstring * Z);    (* key -> value, expiry time *)
  counter : list RatelimitResponse;        (* the next answers of the limiter *)
  sleeps : list Z;                         (* every [setTimeout] delay, oldest first *)
  console : list ConsoleLine               (* oldest first *)
}.

Definition with_now (x : Z) (w : World) : World :=
  {| now := x; store := store w; faults := faults w; calls := calls w;
     redis := redis w; counter := counter w; sleeps := sleeps w;
     console := console w |}.

Definition with_store (x : Store) (w : World) : World :=
  {| now := now w; store := x; faults := faults w; calls := calls w;
     redis := redis w; counter := counter w; sleeps := sleeps w;
     console := console w |}.

Definition with_faults (x : list (option Fault)) (w : World) : World :=
  {| now := now w; store := store w; faults := x; calls := calls w;
     redis := redis w; counter := counter w; sleeps := sleeps w;
     console := console w |}.

Definition with_calls (x : list Call) (w : World) : World :=
  {| now := now w; store := store w; faults := faults w; calls := x;
     redis := redis w; counter := counter w; sleeps := sleeps w;
     console := console w |}.

Definition with_redis (x : gmap jsstring (jsstring * Z)) (w : World) : World :=
  {| now := now w; store := store w; faults := faults w; calls := calls w;
     redis := x; counter := counter w; sleeps := sleeps w;
     console := console w |}.

Definition with_counter (x : list RatelimitResponse) (w : World) : World :=
  {| now := now w; store := store w; faults := faults w; calls := calls w;
     redis := redis w; counter := x; sleeps := sleeps w;
     console := console w |}.

Definition with_sleeps (x : list Z) (w : World) : World :=
  {| now := now w; store := store w; faults := faults w; calls := calls w;
     redis := redis w; counter := counter w; sleeps := x;
     console := console w |}.

Definition with_console (x : list ConsoleLine) (w : World) : World :=
  {| now := now w; store := store w; faults := faults w; calls := calls w;
     redis := redis w; counter := counter w; sleeps := sleeps w;
     console := x |}.

(** *** Computations: state passing with exceptions

    A computation that throws keeps the effects it had before. *)

Inductive Result (A : Type) : Type :=
| Ok (a : A)
| Throw (e : exn).
Arguments Ok {A} a.
Arguments Throw {A} e.

Definition M (A : Type) : Type := World -> Result A * World.

#[export] Instance M_ret : MRet M := fun A a w => (Ok a, w).

#[export] Instance M_bind : MBind M := fun A B f m w =>
  match m w with
  | (Ok a, w') => f a w'
  | (Throw e, w') => (Throw e, w')
  end.

Definition throw {A} (e : exn) : M A := fun w => (Throw e, w).

(** [try { body } catch (err) { handler(err) }] *)
Definition try_catch {A} (body : M A) (handler : exn -> M A) : M A := fun w =>
  match body w with
  | (Ok a, w') => (Ok a, w')
  | (Throw e, w') => handler e w'
  end.

Definition modify (f : World -> World) : M () := fun w => (Ok (), f w).
Definition gets {A} (f : World -> A) : M A := fun w => (Ok (f w), w).

Definition console_log (line : jsstring) : M () :=
  modify (fun w => with_console (console w ++ [ConsoleLog line]) w).

Definition console_error (line : jsstring) (err : exn) : M () :=
  modify (fun w => with_console (console w ++ [ConsoleError line err]) w).

(** [await new Promise((r) => setTimeout(r, ms))]: the clock moves on by [ms]. *)
Definition sleep (ms : Z) : M () :=
  modify (fun w => with_now (now w + ms)%Z (with_sleeps (sleeps w ++ [ms]) w)).

(** *** Redis commands, through the Upstash client

    The service holds the string written; a key past its expiry time is not
    found.

    The client does not hand out the string it reads. With its default
    settings it gives every reply to [JSON.parse] and returns the value
    parsed: the text [12345] comes back as a number, [0], [false] and [null]
    as falsy values, a quoted text without its quotes. The reply itself is
    returned when [JSON.parse] throws, as it does on the empty text, and when
    the text parses to a number that does not print back as the text
    ([parsed.toString() !== result]; for a number [toString()] gives what
    [JSON.stringify] gives). *)

Definition parseResponse `{Platform} (result : jsstring) : JSON :=
  match result with
  | [] => JStr []
  | _ :: _ =>
      match JSON_parse result with
      | Some (JNum n) =>
          if bool_decide (JSON_stringify (JNum n) = result) then JNum n else JStr result
      | Some parsed => parsed
      | None => JStr result
      end
  end.

(** [redis.set(key, value, { ex })] for a string [value]: strings are sent as
    they are. *)
Definition redis_set (key value : jsstring) (ex_seconds : Z) : M () :=
  modify (fun w => with_redis (<[key := (value, (now w + ex_seconds * 1000)%Z)]> (redis w)) w).

(** [redis.get(key)]: [null] ([None]) when the key is not found. *)
Definition redis_get `{Platform} (key : jsstring) : M (option JSON) :=
  gets (fun w =>
    match redis w !! key with
    | Some (value, expiry) =>
        if (now w <? expiry)%Z then Some (parseResponse value) else None
    | None => None
    end).

Definition redis_del (key : jsstring) : M () :=
  modify (fun w => with_redis (delete key (redis w)) w).

(** [rl.limit(key)]: the next answer of the counter service. The answers
    foreseen are finite, and the service grants once they are used up (the
    window of a fixed-window counter passes). *)
Definition Ratelimit_limit (key : jsstring) : M RatelimitResponse := fun w =>
  match counter w with
  | r :: rest => (Ok r, with_counter rest w)
  | [] => (Ok {| success := true; reset := now w; remaining := 0 |}, w)
  end.

(** *** The store's side of a call *)

Definition page_matches (f : Filter) (p : Page) : bool :=
  match f with
  | RichTextEquals property v =>
      match properties p !! property with
      | Some (PRichText segments) => bool_decide (join_empty segments = v)
      | _ => false
      end
  | SelectEquals property v =>
      match properties p !! property with
      | Some (PSelect name) => bool_decide (name = v)
      | _ => false
      end
  end.

Definition by_created_time (a b : Page) : comparison :=
  localeCompare (created_time a) (created_time b).

Definition run_query (page_size : nat) (f : Filter) (sorted : bool)
    (pages : list Page) : list Page :=
  let found := List.filter (page_matches f) pages in
  take page_size (if sorted then sort by_created_time found else found).

Definition defined_props (props : list (jsstring * option PropValue))
  : list (jsstring * PropValue) :=
  omap (fun kv => match kv.2 with Some v => Some (kv.1, v) | None => None end) props.

(** [PATCH]: the properties named in the body take the values given; the
    others are kept. *)
Definition patch_page (props : list (jsstring * PropValue)) (p : Page) : Page :=
  {| page_id := page_id p; created_time := created_time p;
     properties := list_to_map props ∪ properties p |}.

Definition not_found : Fault := HttpError 404 (lit "object_not_found").

Definition serve `{Platform} (c : Call) (now_ : Z) (st : Store)
  : (Fault + Reply) * Store :=
  match c with
  | GetDatabase databaseId =>
      if bool_decide (databaseId = database st)
      then (inr (RDatabase (data_sources st)), st)
      else (inl not_found, st)
  | QueryDataSource dataSourceId page_size f sorted =>
      if bool_decide (head (data_sources st) = Some dataSourceId)
      then (inr (RResults (run_query page_size f sorted (rows st))), st)
      else (inl not_found, st)
  | CreatePage database_id props =>
      if bool_decide (database_id = database st)
      then
        let p := {| page_id := lit "page-" ++ lit (pretty (next_row st));
                    created_time := toISOString now_;
                    properties := list_to_map (defined_props props) |} in
        (inr (RPage p),
         {| database := database st; data_sources := data_sources st;
            rows := rows st ++ [p]; next_row := next_row st + 1 |})
      else (inl not_found, st)
  | UpdatePage pageId props =>
      match list_find (fun p => page_id p = pageId) (rows st) with
      | Some (i, p) =>
          let p' := patch_page props p in
          (inr (RPage p'),
           {| database := database st; data_sources := data_sources st;
              rows := <[i := p']> (rows st); next_row := next_row st |})
      | None => (inl not_found, st)
      end
  end.

(** [fetch]: the call is sent; the network may fail it, else the store serves
    it. A fault stands for a call the store has not acted on: a non-2xx
    answer, or a request that did not get through. A reply lost on its way
    back from a store that has acted is not among the faults. *)
Definition fetch `{Platform} (c : Call) : M (Fault + Reply) := fun w =>
  let w1 := with_faults (tail (faults w)) (with_calls (calls w ++ [c]) w) in
  match head (faults w) with
  | Some (Some fault) => (Ok (inl fault), w1)
  | _ =>
      let (r, st) := serve c (now w) (store w) in
      (Ok r, with_store st w1)
  end.

(** [if (!res.ok) throw new Error(`Notion API error ${res.status}: ${text}`); return res.json()] *)
Definition check_response (r : Fault + Reply) : M Reply :=
  match r with
  | inr reply => mret reply
  | inl (HttpError status text) =>
      throw (Error (lit "Notion API error " ++ lit (pretty status) ++ lit ": " ++ text))
  | inl NetworkError => throw (TypeError (lit "fetch failed"))
  end.

(** [Array.isArray(q?.results) ? q.results : []] *)
Definition results_of (q : Reply) : list Page :=
  match q with RResults l => l | _ => [] end.

End Model.

(* ===================================================================== *)
(** ** src/lib/notion.ts: rate limiter and upstream client *)
(* ===================================================================== *)

Module Notion.
Import JS Model.

Inductive LimiterName : Type := notion | external.

(** [{ ok, resetMs?, remaining? }] *)
Record LimitResult : Type := {
  ok : bool;
  resetMs : option Z;
  remaining : option Z
}.

Record Limiter : Type := { limit : jsstring -> M LimitResult }.

(** A JavaScript number as far as [intEnv] tells numbers apart: [NaN], an
    infinity, or a finite number. A finite double is a rational number, and
    [> 0] and [Math.floor] are exact on it. *)
Inductive JSNumber : Type :=
| NaN
| Infinity (negative : bool)
| Finite (q : QArith_base.Q).

(** [intEnv(name, fallback)], given [raw], the value of [process.env[name]],
    and what [Number] makes of a string. The callers pass the fallbacks 3 and
    60. *)
Definition intEnv (Number : jsstring -> JSNumber) (raw : option jsstring)
    (fallback : Z) : Z :=
  if negb (truthy_opt raw) then fallback
  else
    match Number (default [] raw) with
    | Finite n =>
        if QArith_base.Qlt_le_dec (QArith_base.inject_Z 0) n
        then Qround.Qfloor n else fallback
    | _ => fallback
    end.

(** [getRedis() !== null] *)
Definition getRedis (env : Env) : bool :=
  truthy_opt (UPSTASH_REDIS_REST_URL env) && truthy_opt (UPSTASH_REDIS_REST_TOKEN env).

Definition getLimiter (env : Env) (name : LimiterName) : Limiter :=
  if negb (getRedis env) then
    {| limit := fun _ => mret {| ok := true; resetMs := None; remaining := None |} |}
  else
    match name with
    | notion =>
        {| limit := fun key =>
             res ← Ratelimit_limit (lit "aqueduct:rl:notion" ++ key);
             mret {| ok := success res; resetMs := Some (reset res);
                     remaining := Some (Model.remaining res) |} |}
    | external =>
        {| limit := fun key =>
             res ← Ratelimit_limit (lit "aqueduct:rl:external" ++ key);
             mret {| ok := success res; resetMs := Some (reset res);
                     remaining := Some (Model.remaining res) |} |}
    end.

(** The [while (true)] loop of [throttleOrWait], run for at most [rounds]
    rounds; [None] when it is still waiting after them. *)
Fixpoint throttleOrWait_rounds (rounds : nat) (limiter : Limiter) (key : jsstring)
    (w : World) : option (Result () * World) :=
  match rounds with
  | O => None
  | S rounds' =>
      match limit limiter key w with
      | (Throw e, w1) => Some (Throw e, w1)
      | (Ok res, w1) =>
          if ok res then Some (Ok (), w1)
          else
            let now_ := now w1 in
            let waitMs := Z.max 250 (default (now_ + 1000) (resetMs res) - now_)%Z in
            throttleOrWait_rounds rounds' limiter key (sleep waitMs w1).2
      end
  end.

(** [throttleOrWait]. Each denial uses up one answer of the counter and the
    counter grants when they are used up, so one round more than there are
    answers is enough for a limiter of [getLimiter]; the [default] is not reached
    then (see [throttleOrWait_returns]). *)
Definition throttleOrWait (limiter : Limiter) (key : jsstring) : M () := fun w =>
  default (Ok (), w) (throttleOrWait_rounds (S (length (counter w))) limiter key w).

Definition notionFetch `{Platform} (env : Env) (c : Call) : M Reply :=
  if negb (truthy_opt (NOTION_API_KEY env))
  then throw (Error (lit "Missing NOTION_API_KEY"))
  else
    throttleOrWait (getLimiter env notion) (lit "global");;
    res ← fetch c;
    check_response res.

Definition getDatabaseDataSourceId `{Platform} (env : Env) (databaseId : jsstring)
  : M jsstring :=
  db ← notionFetch env (GetDatabase databaseId);
  match db with
  | RDatabase (ds :: _) =>
      if truthy_string ds then mret ds
      else throw (Error (lit "Database has no data_sources[0].id"))
  | _ => throw (Error (lit "Database has no data_sources[0].id"))
  end.

End Notion.

(* ===================================================================== *)
(** ** src/lib/verificationToken.ts *)
(* ===================================================================== *)

Module VerificationToken.
Import JS Model.

Definition KEY : jsstring := lit "aqueduct:notion:verification_token".
Definition USED_KEY : jsstring := lit "aqueduct:notion:verification_token_used".

Definition getRedis (env : Env) : bool :=
  negb (negb (truthy_opt (UPSTASH_REDIS_REST_URL env))
        || negb (truthy_opt (UPSTASH_REDIS_REST_TOKEN env))).

Definition storeVerificationToken (env : Env) (token : jsstring) : M () :=
  if negb (getRedis env) then mret ()
  else
    redis_set KEY token (10 * 60);;
    redis_del USED_KEY.

(** The result is typed [string | null], but it is the value the client
    makes of the token stored: see [parseResponse]. *)
Definition consumeVerificationToken `{Platform} (env : Env) : M (option JSON) :=
  if negb (getRedis env) then mret None
  else
    alreadyUsed ← redis_get USED_KEY;
    if truthy_value alreadyUsed then mret None
    else
      tok ← redis_get KEY;
      if negb (truthy_value tok) then mret None
      else
        redis_set USED_KEY (lit "1") (10 * 60);;
        redis_del KEY;;
        mret tok.

End VerificationToken.

(* ===================================================================== *)
(** ** HTTP requests and responses of the two routes *)
(* ===================================================================== *)

Module Http.
Import JS.

(** A request as the two routes read it. The body is read through
    [req.text()] only: the routes get the text its bytes decode to, never the
    bytes. *)
Record Request : Type := {
  text : jsstring;                                (* [await req.text()] *)
  x_notion_signature : option jsstring;           (* [req.headers.get(...)] *)
  x_aqueduct_admin_secret : option jsstring
}.

Inductive Body : Type :=
| Text (s : jsstring)
| Json (v : JSON).

Record Response : Type := { status : N; body : Body }.

(** [new Response(text, { status })] *)
Definition respond (s : jsstring) (st : N) : Response := {| status := st; body := Text s |}.

(** [Response.json(v)] *)
Definition Response_json (v : JSON) : Response := {| status := 200; body := Json v |}.

End Http.

(* ===================================================================== *)
(** ** src/app/api/admin/notion/verification-token/route.ts *)
(* ===================================================================== *)

Module AdminRoute.
Import JS Model Http VerificationToken.

Definition GET `{Platform} (env : Env) (req : Request) : M Response :=
  match AQUEDUCT_ADMIN_SECRET env with
  | None => mret (respond (lit "Missing AQUEDUCT_ADMIN_SECRET") 500)
  | Some [] => mret (respond (lit "Missing AQUEDUCT_ADMIN_SECRET") 500)
  | Some expected =>
      let provided := default [] (x_aqueduct_admin_secret req) in
      if negb (bool_decide (provided = expected))
      then mret (respond (lit "Unauthorized") 401)
      else
        tok ← consumeVerificationToken env;
        match tok with
        | Some t =>
            if truthy t
            then mret (Response_json (JObj [(lit "verification_token", t)]))
            else mret (respond (lit "No token available") 404)
        | None => mret (respond (lit "No token available") 404)
        end
  end.

End AdminRoute.

(* ===================================================================== *)
(** ** The webhook route: [POST] *)
(* ===================================================================== *)

Module Webhook.
Import JS Crypto Model Http Notion.

Definition EVENTS_QUEUE_DB_ID (env : Env) : option jsstring :=
  NOTION_EVENTS_QUEUE_DB_ID env.

(** [process.env.NOTION_WEBHOOK_VERIFICATION_TOKEN ?? process.env.NOTION_WEBHOOK_SECRET] *)
Definition WEBHOOK_VERIFICATION_TOKEN (env : Env) : option jsstring :=
  match NOTION_WEBHOOK_VERIFICATION_TOKEN env with
  | Some t => Some t
  | None => NOTION_WEBHOOK_SECRET env
  end.

Definition eventExists `{Platform} (env : Env) (dataSourceId eventId : jsstring)
  : M bool :=
  q ← notionFetch env
        (QueryDataSource dataSourceId 1 (RichTextEquals (lit "Event ID") eventId) false);
  mret (0 <? length (results_of q))%nat.

Record Params : Type := {
  databaseId : jsstring;
  type : jsstring;
  eventId : jsstring;
  objectType : option jsstring;
  objectId : option jsstring;
  sourceUrl : option jsstring;
  payloadJson : jsstring
}.

(** [`${params.type} • ${params.objectType ?? "object"}:${params.objectId ?? ""}`.trim()] *)
Definition page_name (params : Params) : jsstring :=
  trim (type params ++ lit " " ++ [8226] ++ lit " "
        ++ default (lit "object") (objectType params)
        ++ lit ":" ++ default [] (objectId params)).

(** [page.properties] as the object literal builds it: a value may be [undefined]. *)
Definition page_properties (params : Params) (now_ : jsstring)
  : list (jsstring * option PropValue) :=
  [ (lit "Name", Some (PTitle (slice_to 200 (page_name params))));
    (lit "Event ID", Some (PRichText [eventId params]));
    (lit "Type", Some (PSelect (type params)));
    (lit "Notion object type",
      if truthy_opt (objectType params)
      then Some (PSelect (default [] (objectType params))) else None);
    (lit "Notion object id",
      if truthy_opt (objectId params)
      then Some (PRichText [default [] (objectId params)]) else None);
    (lit "Source URL",
      if truthy_opt (sourceUrl params)
      then Some (PUrl (default [] (sourceUrl params))) else None);
    (lit "Status", Some (PSelect (lit "New")));
    (lit "Needs human review", Some (PCheckbox false));
    (lit "Payload (json)", Some (PRichText [slice_to 1900 (payloadJson params)]));
    (lit "Created", Some (PDate now_));
    (lit "Scipio log",
      Some (PRichText [lit "Aqueduct: queued event " ++ eventId params ++ lit " ("
                       ++ type params ++ lit ") at " ++ now_])) ].

(** [for (const [k, v] of Object.entries(props)) if (v === undefined) delete props[k]] *)
Definition strip_undefined (props : list (jsstring * option PropValue))
  : list (jsstring * option PropValue) :=
  List.filter (fun kv => match kv.2 with Some _ => true | None => false end) props.

Definition writeEventToQueue `{Platform} (env : Env) (params : Params) : M () :=
  now_ ← gets (fun w => toISOString (now w));
  let props := strip_undefined (page_properties params now_) in
  notionFetch env (CreatePage (databaseId params) props);;
  mret ().

(** A field of the event envelope at its declared type, [string | undefined].
    [null] reads as absent under [!x], [??] and [?.] alike. The route is
    modelled on envelopes whose fields have the declared types: a value of
    another kind reads as absent here, where the code would go on with the
    value as it is. *)
Definition str_field (k : jsstring) (v : JSON) : option jsstring :=
  match get k v with
  | Some (JStr s) => Some s
  | _ => None
  end.

(** [tok.length <= 12 ? tok : `${tok.slice(0, 8)}…${tok.slice(-4)}`] *)
Definition redacted (tok : jsstring) : jsstring :=
  if bool_decide (length tok <= 12)%nat then tok
  else slice_to 8 tok ++ [8230] ++ slice_last 4 tok.

(** Steps 2 to 5 of [POST]: what follows the handshake test. *)
Definition POST_event `{Platform} (env : Env) (rawBody signature : jsstring)
  : M Response :=
  (* 2) Validate signature *)
  if negb (truthy_opt (WEBHOOK_VERIFICATION_TOKEN env))
  then mret (respond (lit "Missing NOTION_WEBHOOK_VERIFICATION_TOKEN") 500)
  else
    let computed :=
      hmacSha256Hex (default [] (WEBHOOK_VERIFICATION_TOKEN env)) rawBody in
    if negb (truthy_string signature) || negb (timingSafeEqualHex signature computed)
    then mret (respond (lit "Invalid signature") 401)
    else
      (* 3) Parse event payload *)
      match JSON_parse rawBody with
      | None => mret (respond (lit "Invalid JSON") 400)
      | Some payload =>
          match EVENTS_QUEUE_DB_ID env with
          | None | Some [] =>
              mret (respond (lit "Missing NOTION_EVENTS_QUEUE_DB_ID") 500)
          | Some db =>
              match payload with
              | JNull =>
                  throw (TypeError (lit "Cannot read properties of null (reading 'id')"))
              | _ =>
                  let eventId := str_field (lit "id") payload in
                  let type := default (lit "Other") (str_field (lit "type") payload) in
                  let entity := default JNull (get (lit "entity") payload) in
                  let entityType := str_field (lit "type") entity in
                  let entityId := str_field (lit "id") entity in
                  match eventId with
                  | None | Some [] => mret (respond (lit "Missing event id") 400)
                  | Some eventId =>
                      (* 4) Deduplicate *)
                      dsId ← getDatabaseDataSourceId env db;
                      exists_ ← eventExists env dsId eventId;
                      if (exists_ : bool)
                      then mret (Response_json
                                   (JObj [(lit "ok", JBool true); (lit "deduped", JBool true)]))
                      else
                        (* 5) Write to Events Queue *)
                        writeEventToQueue env
                          {| databaseId := db; type := type; eventId := eventId;
                             objectType := entityType; objectId := entityId;
                             sourceUrl := None;
                             payloadJson := JSON_stringify payload |};;
                        mret (Response_json (JObj [(lit "ok", JBool true)]))
                  end
              end
          end
      end.

Definition POST `{Platform} (env : Env) (req : Request) : M Response :=
  let rawBody := text req in
  let signature := default [] (x_notion_signature req) in
  (* 1) Subscription verification (one-time) *)
  match JSON_parse rawBody with
  | Some parsed =>
      match get (lit "verification_token") parsed with
      | Some verification_token =>
          if truthy verification_token then
            let tok := String_ verification_token in
            console_log (lit "[notion] verification_token received: " ++ redacted tok);;
            mret (Response_json (JObj [(lit "verification_token", verification_token)]))
          else POST_event env rawBody signature
      | None => POST_event env rawBody signature
      end
  | None => POST_event env rawBody signature      (* catch { ignore } *)
  end.

End Webhook.

(* ===================================================================== *)
(** ** scripts/events-queue-worker.mjs *)
(* ===================================================================== *)

Module Worker.
Import JS Model.

(** [Number(process.env.AQUEDUCT_NOTION_RPS ?? "3")], given [raw], the value
    of the variable, and what [Number] makes of a string. *)
Definition notionRps (Number : jsstring -> Notion.JSNumber) (raw : option jsstring)
  : Notion.JSNumber :=
  Number (default (lit "3") raw).

(** The quota given to [Ratelimit.fixedWindow]:
    [Number.isFinite(notionRps) && notionRps > 0 ? notionRps : 3]. *)
Definition quota (Number : jsstring -> Notion.JSNumber) (raw : option jsstring)
  : QArith_base.Q :=
  match notionRps Number raw with
  | Notion.Finite n =>
      if QArith_base.Qlt_le_dec (QArith_base.inject_Z 0) n
      then n else QArith_base.inject_Z 3
  | _ => QArith_base.inject_Z 3
  end.

(** [limiter !== null] *)
Definition limiter_configured (env : Env) : bool :=
  truthy_opt (UPSTASH_REDIS_REST_URL env) && truthy_opt (UPSTASH_REDIS_REST_TOKEN env).

(** The [while (true)] loop of [throttle], for at most [rounds] rounds. *)
Fixpoint throttle_rounds (rounds : nat) (w : World) : option (Result () * World) :=
  match rounds with
  | O => None
  | S rounds' =>
      match Ratelimit_limit (lit "aqueduct:rl:notion" ++ lit "global") w with
      | (Throw e, w1) => Some (Throw e, w1)
      | (Ok res, w1) =>
          if success res then Some (Ok (), w1)
          else
            let waitMs := Z.max 250 (reset res - now w1)%Z in
            throttle_rounds rounds' (sleep waitMs w1).2
      end
  end.

(** [throttle]; as for [Notion.throttleOrWait], the rounds given are enough. *)
Definition throttle (env : Env) : M () := fun w =>
  if negb (limiter_configured env) then (Ok (), w)
  else default (Ok (), w) (throttle_rounds (S (length (counter w))) w).

Definition notionFetch `{Platform} (env : Env) (c : Call) : M Reply :=
  throttle env;;
  res ← fetch c;
  check_response res.

Definition getDataSourceId `{Platform} (env : Env) (databaseId : jsstring) : M jsstring :=
  db ← notionFetch env (GetDatabase databaseId);
  match db with
  | RDatabase (ds :: _) =>
      if truthy_string ds then mret ds
      else throw (Error (lit "Database has no data_sources[0].id"))
  | _ => throw (Error (lit "Database has no data_sources[0].id"))
  end.

Definition queryNewEvents `{Platform} (env : Env) (dataSourceId : jsstring)
    (pageSize : nat) : M Reply :=
  notionFetch env
    (QueryDataSource dataSourceId pageSize (SelectEquals (lit "Status") (lit "New")) true).

Definition findByEventId `{Platform} (env : Env) (dataSourceId eventId : jsstring)
  : M Reply :=
  notionFetch env
    (QueryDataSource dataSourceId 10 (RichTextEquals (lit "Event ID") eventId) false).

Definition updatePage `{Platform} (env : Env) (pageId : jsstring)
    (props : list (jsstring * PropValue)) : M Reply :=
  notionFetch env (UpdatePage pageId props).

Definition getRichText (page : Page) (propName : jsstring) : jsstring :=
  match properties page !! propName with
  | Some (PRichText rt) =>
      match rt with
      | [] => []
      | _ :: _ => trim (join_empty rt)
      end
  | _ => []
  end.

(** The properties of the three patches of [processEvent] and of the one of [main]. *)
Definition in_progress : list (jsstring * PropValue) :=
  [ (lit "Status", PSelect (lit "In Progress")) ].

Definition deduped (keeper eventId : jsstring) : list (jsstring * PropValue) :=
  [ (lit "Status", PSelect (lit "Deduped"));
    (lit "Needs human review", PCheckbox false);
    (lit "Scipio log",
      PRichText [lit "Worker: deduped (keeper=" ++ keeper ++ lit ") for eventId=" ++ eventId]) ].

Definition needs_review (type : jsstring) : list (jsstring * PropValue) :=
  [ (lit "Status", PSelect (lit "Needs human review"));
    (lit "Needs human review", PCheckbox true);
    (lit "Scipio log",
      PRichText [lit "Worker: no handler for type=" ++ type
                 ++ lit ". Marked Needs human review."]) ].

Definition failed (err : exn) : list (jsstring * PropValue) :=
  [ (lit "Status", PSelect (lit "Error"));
    (lit "Needs human review", PCheckbox true);
    (lit "Scipio log",
      PRichText [lit "Worker: error: " ++ slice_to 500 (String_exn err)]) ].

Definition processEvent `{Platform} (env : Env) (page : Page) (dataSourceId : jsstring)
  : M () :=
  let pageId := page_id page in
  let eventId := getRichText page (lit "Event ID") in
  let type :=
    match properties page !! lit "Type" with
    | Some (PSelect name) => name
    | _ => lit "Other"
    end in
  let dispatch : M () := updatePage env pageId (needs_review type);; mret () in
  (* Mark in-progress first *)
  updatePage env pageId in_progress;;
  (* Dedupe *)
  if truthy_string eventId then
    q ← findByEventId env dataSourceId eventId;
    let results := results_of q in
    if (1 <? length results)%nat then
      let results := sort by_created_time results in
      let keeper := default [] (page_id <$> head results) in
      if truthy_string keeper && negb (bool_decide (keeper = pageId)) then
        updatePage env pageId (deduped keeper eventId);;
        mret ()
      else dispatch
    else dispatch
  else dispatch.

(** The body of the [for (const page of results)] loop of [main]. *)
Definition main_row `{Platform} (env : Env) (dsId : jsstring) (page : Page) : M () :=
  try_catch
    (processEvent env page dsId;;
     console_log (lit "Processed " ++ page_id page))
    (fun err =>
       console_error (lit "Error processing " ++ page_id page ++ lit ":") err;;
       (* best-effort: mark failed *)
       try_catch
         (updatePage env (page_id page) (failed err);; mret ())
         (fun _ => mret ())).

Fixpoint for_of {A} (l : list A) (body : A -> M ()) : M () :=
  match l with
  | [] => mret ()
  | x :: l' => body x;; for_of l' body
  end.

Definition main `{Platform} (env : Env) (DB_ID : jsstring) : M () :=
  dsId ← getDataSourceId env DB_ID;
  q ← queryNewEvents env dsId 25;
  let results := results_of q in
  console_log (lit "Found " ++ lit (pretty (length results)) ++ lit " new events");;
  for_of results (main_row env dsId).

(** The script: the two checks at load time, then [main().catch(...)]. The
    result is the exit code. *)
Definition script `{Platform} (env : Env) : M N :=
  if negb (truthy_opt (NOTION_API_KEY env)) then throw (Error (lit "Missing NOTION_API_KEY"))
  else
    match NOTION_EVENTS_QUEUE_DB_ID env with
    | None | Some [] => throw (Error (lit "Missing NOTION_EVENTS_QUEUE_DB_ID"))
    | Some DB_ID =>
        try_catch (main env DB_ID;; mret 0)
                  (fun e => console_error [] e;; mret 1)
    end.

End Worker.

(* ===================================================================== *)
(** ** Vocabulary of the statements *)
(* ===================================================================== *)

Module Spec.
Import JS Model.

(** The clock, the limiter's answers left and the delays slept are what a wait
    for the rate limiter changes. *)
Definition waited (t : Z) (answers : list RatelimitResponse) (delays : list Z)
    (w : World) : World :=
  with_now t (with_counter answers (with_sleeps delays w)).

(** The delays slept on the denials [denials] met from time [t] on:
    [max(250, reset - now)] each, the clock moving on by each delay. *)
Fixpoint waits (t : Z) (denials : list RatelimitResponse) : list Z :=
  match denials with
  | [] => []
  | d :: denials' =>
      let ms := Z.max 250 (reset d - t) in
      ms :: waits (t + ms) denials'
  end.

Definition sumZ (l : list Z) : Z := foldr Z.add 0%Z l.

(** The limiter grants at the head of [answers] (an empty list grants). *)
Definition grants_first (answers : list RatelimitResponse) : Prop :=
  match answers with
  | [] => True
  | r :: _ => success r = true
  end.

(** From [w] to [w'] the calls [cs] were sent and nothing was logged on the
    console or written to Redis. *)
Definition called (cs : list Call) (w w' : World) : Prop :=
  calls w' = calls w ++ cs
  /\ faults w' = drop (length cs) (faults w)
  /\ console w' = console w
  /\ redis w' = redis w.

(** Every fetch to come goes through to the store. *)
Definition no_faults (w : World) : Prop := Forall (fun f => f = None) (faults w).

(** What [notionFetch] throws on a fetch that did not go well. *)
Definition thrown (f : Fault) : exn :=
  match f with
  | HttpError status text =>
      Error (lit "Notion API error " ++ lit (pretty status) ++ lit ": " ++ text)
  | NetworkError => TypeError (lit "fetch failed")
  end.

(** The page of the store that has the id [pageId]. *)
Definition find_row (pageId : jsstring) (pages : list Page) : option Page :=
  snd <$> list_find (fun p => page_id p = pageId) pages.

Definition status_of (p : Page) : option PropValue := properties p !! lit "Status".
Definition review_flag_of (p : Page) : option PropValue :=
  properties p !! lit "Needs human review".
Definition log_of (p : Page) : option PropValue := properties p !! lit "Scipio log".

(** The Event Records of the event [e]: the pages the dedup filter selects. *)
Definition event_rows (e : jsstring) (pages : list Page) : list Page :=
  List.filter (page_matches (RichTextEquals (lit "Event ID") e)) pages.

(** A computation that only waits for the rate limiter. *)
Definition waits_only (m : M ()) : Prop :=
  forall w, exists t k s, m w = (Ok (), waited t k s w).

(** The calls sent are never forgotten. *)
Definition calls_grow (w w' : World) : Prop := exists cs, calls w' = calls w ++ cs.


End Spec.

Module WebhookSpec.
Import JS Crypto Model Http Webhook Spec.

(** The token of a verification handshake: the truthy [verification_token]
    of a body that parses. *)
Definition handshake_token `{Platform} (req : Request) : option JSON :=
  match JSON_parse (text req) with
  | Some parsed =>
      match get (lit "verification_token") parsed with
      | Some v => if truthy v then Some v else None
      | None => None
      end
  | None => None
  end.

(** [a] holds [b] as a substring. *)
Definition contains (a b : jsstring) : Prop :=
  exists before after, a = before ++ b ++ after.

(** [req] is a delivery of the event [e], signed with the secret of [env]. *)
Definition delivers `{Platform} (env : Env) (req : Request) (e : jsstring) : Prop :=
  handshake_token req = None
  /\ (exists secret,
        WEBHOOK_VERIFICATION_TOKEN env = Some secret /\ secret <> []
        /\ x_notion_signature req = Some (hmacSha256Hex secret (text req)))
  /\ (exists payload,
        JSON_parse (text req) = Some payload /\ payload <> JNull
        /\ str_field (lit "id") payload = Some e)
  /\ e <> [].

(** The route is configured for the queue of [w], whose first data source is
    [ds], and the network is up. *)
Definition queue_ready (env : Env) (w : World) (db ds : jsstring) : Prop :=
  truthy_opt (NOTION_API_KEY env) = true
  /\ EVENTS_QUEUE_DB_ID env = Some db /\ db <> []
  /\ database (store w) = db
  /\ head (data_sources (store w)) = Some ds /\ ds <> []
  /\ no_faults w.

End WebhookSpec.

Module WorkerSpec.
Import JS Model Worker Spec.

(** The network does not fail the next fetch. *)
Definition next_fetch_goes_through (w : World) : Prop :=
  match head (faults w) with
  | Some (Some _) => False
  | _ => True
  end.

(** The line [console.error] prints first when a row fails. *)
Definition error_line (page : Page) : jsstring :=
  lit "Error processing " ++ page_id page ++ lit ":".

(** The rows the dedup query of the worker returns for the event [e]. *)
Definition dedup_rows (e : jsstring) (pages : list Page) : list Page :=
  run_query 10 (RichTextEquals (lit "Event ID") e) false pages.

(** The batch of a run: the rows [queryNewEvents] returns. *)
Definition new_batch (pages : list Page) : list Page :=
  run_query 25 (SelectEquals (lit "Status") (lit "New")) true pages.


(** [page?.properties?.Type?.select?.name ?? "Other"] *)
Definition event_type (page : Page) : jsstring :=
  match properties page !! lit "Type" with
  | Some (PSelect name) => name
  | _ => lit "Other"
  end.

(** The worker runs on the queue of [w], whose first data source is [ds], with
    the network up. *)
Definition queue_up (w : World) (DB_ID ds : jsstring) : Prop :=
  database (store w) = DB_ID
  /\ head (data_sources (store w)) = Some ds /\ ds <> []
  /\ no_faults w.

(** The last patch [processEvent] sends for [page] when the store holds [pages]. *)
Definition verdict (pages : list Page) (page : Page) : list (jsstring * PropValue) :=
  let eventId := getRichText page (lit "Event ID") in
  let results := dedup_rows eventId pages in
  let keeper := default [] (page_id <$> head (sort by_created_time results)) in
  if truthy_string eventId && (1 <? length results)%nat
     && truthy_string keeper && negb (bool_decide (keeper = page_id page))
  then deduped keeper eventId
  else needs_review (event_type page).

(** What the dedup query and the sort read of a page. *)
Definition key (p : Page) : jsstring * jsstring * option PropValue :=
  (page_id p, created_time p, properties p !! lit "Event ID").

Definition same_keys (l l' : list Page) : Prop := Forall2 (fun a b => key a = key b) l l'.

End WorkerSpec.


(* ===================================================================== *)
(** ** Vocabulary of the statements on guards, frames and runs *)
(* ===================================================================== *)

Module DigestSpec.
Import JS.

(** [c] is one of [0-9a-f]. *)
Definition lower_hex (c : N) : Prop := 48 <= c <= 57 \/ 97 <= c <= 102.

(** [c] is one of [0-9a-fA-F]. *)
Definition hex_char (c : N) : Prop :=
  48 <= c <= 57 \/ 97 <= c <= 102 \/ 65 <= c <= 70.

End DigestSpec.

Module GuardSpec.
Import JS Crypto Model Http Webhook.

(** [req] carries a signature that decodes to the bytes of the MAC of its
    body under the signing secret of [env]: what step 2 of [POST] lets pass. *)
Definition signed (env : Env) (req : Request) : Prop :=
  exists secret signature,
    WEBHOOK_VERIFICATION_TOKEN env = Some secret /\ secret <> []
    /\ x_notion_signature req = Some signature /\ signature <> []
    /\ Buffer_from_hex signature = Buffer_from_hex (hmacSha256Hex secret (text req)).

(** [!v.k]: the field is absent or holds a falsy value. *)
Definition falsy_field (k : jsstring) (v : JSON) : Prop :=
  match get k v with
  | Some x => truthy x = false
  | None => True
  end.

(** A computation that leaves the upstream store as it is. *)
Definition read_only {A} (m : M A) : Prop := forall w, store (m w).2 = store w.

(** The calls that read the store: [GET /databases/{id}] and the queries. *)
Definition is_read (c : Call) : Prop :=
  match c with
  | GetDatabase _ | QueryDataSource _ _ _ _ => True
  | CreatePage _ _ | UpdatePage _ _ => False
  end.

End GuardSpec.

Module WorkerRunSpec.
Import JS Model Worker Spec WorkerSpec.

(** The properties the worker writes. *)
Definition worker_props : list jsstring :=
  [lit "Status"; lit "Needs human review"; lit "Scipio log"].

(** [q] is the page [p] but for the properties the worker writes. *)
Definition touched_only (p q : Page) : Prop :=
  page_id q = page_id p
  /\ created_time q = created_time p
  /\ forall k, k ∉ worker_props -> properties q !! k = properties p !! k.

(** [st'] is the store [st] with the same rows in the same order, each one
    changed in the properties the worker writes at most. *)
Definition rows_kept (st st' : Store) : Prop :=
  database st' = database st
  /\ data_sources st' = data_sources st
  /\ next_row st' = next_row st
  /\ Forall2 touched_only (rows st) (rows st').

(** [st'] is the store [st] but for the rows whose id is in [ids]. *)
Definition kept_outside (ids : list jsstring) (st st' : Store) : Prop :=
  Forall2 (fun p q => page_id q = page_id p /\ (page_id p ∉ ids -> q = p))
          (rows st) (rows st').

(** A computation that takes the store to one related to it by [R]. *)
Definition keeps {A} (R : Store -> Store -> Prop) (m : M A) : Prop :=
  forall w, R (store w) (store (m w).2).

(** The patches of the worker to the page [pageId]. *)
Definition worker_patch (pageId : jsstring) (c : Call) : Prop :=
  exists props, c = UpdatePage pageId props /\ props.*1 ⊆ worker_props.

(** [k] is the first listed of the earliest created pages of [l]: the pages
    listed before it were created later, the ones after it not earlier. *)
Definition first_earliest (k : Page) (l : list Page) : Prop :=
  exists before after,
    l = before ++ k :: after
    /\ (forall r, r ∈ before -> by_created_time k r = Lt)
    /\ (forall r, r ∈ after -> by_created_time k r <> Gt).

(** [p] is filed as New: what the query for the batch selects. *)
Definition is_new (p : Page) : bool :=
  page_matches (SelectEquals (lit "Status") (lit "New")) p.

(** The line the worker prints for a row: [Processed <id>] on the log, or
    [Error processing <id>:] with the error on the error stream. *)
Definition reported (page : Page) (line : ConsoleLine) : Prop :=
  line = ConsoleLog (lit "Processed " ++ page_id page)
  \/ exists err, line = ConsoleError (error_line page) err.

End WorkerRunSpec.

(* ===================================================================== *)
(** ** Concrete inputs *)
(* ===================================================================== *)

Module Examples.
Import JS Crypto Model Http.

(** A literal that holds double quotes, written here with apostrophes. *)
Definition dq (s : string) : jsstring :=
  (fun c => if c =? 39 then 34 else c) <$> lit s.

Definition body_evt1 : jsstring :=
  dq "{'id':'evt_1','type':'page.updated','entity':{'type':'page','id':'pg_1'}}".

Definition json_evt1 : JSON :=
  JObj [ (lit "id", JStr (lit "evt_1"));
         (lit "type", JStr (lit "page.updated"));
         (lit "entity", JObj [ (lit "type", JStr (lit "page"));
                               (lit "id", JStr (lit "pg_1")) ]) ].

Definition body_token : jsstring :=
  dq "{'verification_token':'secret_tok_0123456789abcdef'}".

Definition body_short_token : jsstring := dq "{'verification_token':'tok_short'}".

(** The platform on the bodies above and on three numerals; any other text
    is taken not to be JSON. The only value printed that is not a number is
    [json_evt1]. *)
Definition platform : Platform := {|
  JSON_parse s :=
    if bool_decide (s = body_evt1) then Some json_evt1
    else if bool_decide (s = body_token)
    then Some (JObj [(lit "verification_token", JStr (lit "secret_tok_0123456789abcdef"))])
    else if bool_decide (s = body_short_token)
    then Some (JObj [(lit "verification_token", JStr (lit "tok_short"))])
    else if bool_decide (s = lit "0") then Some (JNum 0)
    else if bool_decide (s = lit "1") then Some (JNum 1)
    else if bool_decide (s = lit "12345") then Some (JNum 12345)
    else None;
  JSON_stringify v := match v with JNum n => lit (pretty n) | _ => body_evt1 end;
  toISOString ms := lit "t+" ++ lit (pretty ms)
|}.

Definition env : Env := {|
  NOTION_API_KEY := Some (lit "ntn_key");
  NOTION_EVENTS_QUEUE_DB_ID := Some (lit "db1");
  NOTION_WEBHOOK_VERIFICATION_TOKEN := Some (lit "key");
  NOTION_WEBHOOK_SECRET := None;
  UPSTASH_REDIS_REST_URL := Some (lit "https://upstash.example");
  UPSTASH_REDIS_REST_TOKEN := Some (lit "upstash_token");
  AQUEDUCT_ADMIN_SECRET := Some (lit "admin_secret")
|}.

(** The same without the Upstash settings. *)
Definition env_local : Env := {|
  NOTION_API_KEY := Some (lit "ntn_key");
  NOTION_EVENTS_QUEUE_DB_ID := Some (lit "db1");
  NOTION_WEBHOOK_VERIFICATION_TOKEN := Some (lit "key");
  NOTION_WEBHOOK_SECRET := None;
  UPSTASH_REDIS_REST_URL := None;
  UPSTASH_REDIS_REST_TOKEN := None;
  AQUEDUCT_ADMIN_SECRET := Some (lit "admin_secret")
|}.

Definition denied (reset_ : Z) : RatelimitResponse :=
  {| success := false; reset := reset_; remaining := 0 |}.

Definition granted (reset_ : Z) : RatelimitResponse :=
  {| success := true; reset := reset_; remaining := 2 |}.

(** A queue holding [pages], a network that fails as [faults_] says, and a
    limiter that answers [answers]. *)
Definition world_of (pages : list Page) (faults_ : list (option Fault))
    (answers : list RatelimitResponse) : World :=
  {| now := 1000;
     store := {| database := lit "db1"; data_sources := [lit "ds1"];
                 rows := pages; next_row := 0 |};
     faults := faults_; calls := []; redis := ∅; counter := answers;
     sleeps := []; console := [] |}.

Definition world : World := world_of [] [] [].

Definition request (body_ : jsstring) (signature : option jsstring) : Request :=
  {| text := body_; x_notion_signature := signature;
     x_aqueduct_admin_secret := None |}.

Definition admin_request : Request :=
  {| text := []; x_notion_signature := None;
     x_aqueduct_admin_secret := Some (lit "admin_secret") |}.

(** A queued page as the webhook route writes it. *)
Definition queued (id_ created eventId : string) : Page :=
  {| page_id := lit id_;
     created_time := lit created;
     properties := list_to_map
       [ (lit "Event ID", PRichText [lit eventId]);
         (lit "Type", PSelect (lit "page.updated"));
         (lit "Status", PSelect (lit "New"));
         (lit "Needs human review", PCheckbox false);
         (lit "Scipio log", PRichText [lit "Aqueduct: queued event"]) ] |}.

End Examples.

(* ===================================================================== *)
(** ** Facts on JavaScript values *)
(* ===================================================================== *)

Module JSFacts.
Import JS.

Lemma truthy_string_ne (s : jsstring) : s <> [] -> truthy_string s = true.
Proof. destruct s; [congruence|reflexivity]. Qed.

Lemma truthy_string_true (s : jsstring) : truthy_string s = true -> s <> [].
Proof. destruct s; [discriminate|congruence]. Qed.

End JSFacts.

(* ===================================================================== *)
(** ** Order of creation times and sorting *)
(* ===================================================================== *)

Module OrderFacts.
Import JS.

Lemma localeCompare_refl a : localeCompare a a = Eq.
Proof. induction a as [|x a IH]; [reflexivity|]. cbn. rewrite N.compare_refl. exact IH. Qed.

Lemma localeCompare_eq a : forall b, localeCompare a b = Eq -> a = b.
Proof.
  induction a as [|x a IH]; intros [|y b] H; cbn in H; try discriminate; [reflexivity|].
  destruct (N.compare_spec x y); try discriminate. subst. f_equal. auto.
Qed.

Lemma localeCompare_antisym a : forall b, localeCompare b a = CompOpp (localeCompare a b).
Proof.
  induction a as [|x a IH]; intros [|y b]; cbn; try reflexivity.
  rewrite (N.compare_antisym x y). destruct (x ?= y); cbn; auto.
Qed.

Lemma localeCompare_trans a : forall b c,
  localeCompare a b = Lt -> localeCompare b c = Lt -> localeCompare a c = Lt.
Proof.
  induction a as [|x a IH]; intros [|y b] [|z c] H1 H2; cbn in *; try discriminate;
    try reflexivity.
  destruct (N.compare_spec x y), (N.compare_spec y z); try discriminate; subst.
  - rewrite N.compare_refl. eauto.
  - destruct (N.compare_spec y z); try lia. reflexivity.
  - destruct (N.compare_spec x z); try lia. reflexivity.
  - destruct (N.compare_spec x z); try lia. reflexivity.
Qed.

Section Sorting.
Context {A : Type} (cmp : A -> A -> comparison).

Lemma sort_insert_perm x l : sort_insert cmp x l ≡ₚ x :: l.
Proof.
  induction l as [|y l IH]; [reflexivity|]. cbn.
  destruct (cmp x y); try reflexivity.
  rewrite IH. apply Permutation_swap.
Qed.

Lemma sort_perm l : sort cmp l ≡ₚ l.
Proof.
  induction l as [|x l IH]; [reflexivity|]. cbn [sort foldr].
  fold (sort cmp l). rewrite sort_insert_perm, IH. reflexivity.
Qed.

Lemma sort_length l : length (sort cmp l) = length l.
Proof. apply Permutation_length, sort_perm. Qed.

End Sorting.
End OrderFacts.

(* ===================================================================== *)
(** ** The signature helpers *)
(* ===================================================================== *)

Module CryptoProps.
Import JS Crypto.

(** Known answers: SHA-256 of [abc] (FIPS 180-4) and a much quoted HMAC. *)
Example sha256_abc :
  hex (sha256 (utf8 (lit "abc")))
  = lit "ba7816bf8f01cfea414140de5dae2223b00361a396177a9cb410ff61f20015ad".
Proof. vm_compute. reflexivity. Qed.

Example sha256_two_blocks :
  hex (sha256 (utf8 (lit "abcdbcdecdefdefgefghfghighijhijkijkljklmklmnlmnomnopnopq")))
  = lit "248d6a61d20638b8e5c026930c3e6039a33ce45964ff2167f6ecedd419db06c1".
Proof. vm_compute. reflexivity. Qed.

Example hmacSha256Hex_fox :
  hmacSha256Hex (lit "key") (lit "The quick brown fox jumps over the lazy dog")
  = lit "f7bc83f430538424b13298e6aa6fb143ef4d59a14946175997479dbc2d1a3cd8".
Proof. vm_compute. reflexivity. Qed.

Example Buffer_from_hex_truncates :
  Buffer_from_hex (lit "1ag123") = [26]
  /\ Buffer_from_hex (lit "1a7") = [26]
  /\ Buffer_from_hex (lit "1634") = [22; 52]
  /\ Buffer_from_hex (lit "1A") = [26].
Proof. vm_compute. repeat split; reflexivity. Qed.

Lemma xor_fold_zero (a : list N) : forall b acc,
  length a = length b ->
  fold_left N.lor (zip_with N.lxor a b) acc = 0 <-> acc = 0 /\ a = b.
Proof.
  induction a as [|x a IH]; intros [|y b] acc Hlen; cbn in Hlen; try discriminate.
  - cbn. split; [auto | tauto].
  - cbn [zip_with fold_left]. rewrite IH by congruence.
    rewrite N.lor_eq_0_iff. split.
    + intros [[-> Hx] ->]. apply N.lxor_eq in Hx. subst. auto.
    + intros [-> [= -> ->]]. rewrite N.lxor_nilpotent. auto.
Qed.

(** The comparison is the equality of the decoded bytes. *)
Lemma timingSafeEqualHex_spec (a b : jsstring) :
  timingSafeEqualHex a b = bool_decide (Buffer_from_hex a = Buffer_from_hex b).
Proof.
  unfold timingSafeEqualHex, timingSafeEqual.
  destruct (decide (length (Buffer_from_hex a) = length (Buffer_from_hex b))) as [Hlen|Hlen].
  - rewrite (bool_decide_eq_true_2 _ Hlen). cbn [negb].
    destruct (decide (Buffer_from_hex a = Buffer_from_hex b)) as [Heq|Hne].
    + rewrite (bool_decide_eq_true_2 _ Heq). apply N.eqb_eq.
      apply xor_fold_zero; auto.
    + rewrite (bool_decide_eq_false_2 _ Hne). apply N.eqb_neq.
      intros Hz. apply xor_fold_zero in Hz; [tauto | exact Hlen].
  - rewrite (bool_decide_eq_false_2 _ Hlen). cbn [negb].
    symmetry. apply bool_decide_eq_false_2. congruence.
Qed.

Lemma sha_round_length st kw : length st = 8%nat -> length (sha_round st kw) = 8%nat.
Proof.
  intros Hl. do 9 (destruct st as [|? st]; try discriminate). reflexivity.
Qed.

Lemma compress_length hs block : length hs = 8%nat -> length (compress hs block) = 8%nat.
Proof.
  intros Hl. unfold compress. rewrite length_zip_with.
  assert (length (fold_left sha_round (zip K256 (schedule 48 block)) hs) = 8%nat) as ->.
  { generalize (zip K256 (schedule 48 block)). intros l. revert hs Hl.
    induction l as [|kw l IH]; intros hs Hl; [exact Hl|].
    cbn [fold_left]. apply IH, sha_round_length, Hl. }
  rewrite Hl. reflexivity.
Qed.

Lemma sha256_length msg : length (sha256 msg) = 32%nat.
Proof.
  unfold sha256.
  match goal with |- context [fold_left compress ?bl H256] =>
    assert (Hl : length (fold_left compress bl H256) = 8%nat);
    [| generalize dependent (fold_left compress bl H256) ]
  end.
  - match goal with |- context [fold_left compress ?bl H256] => generalize bl end.
    intros l. assert (H8 : length H256 = 8%nat) by reflexivity.
    revert H8. generalize H256. induction l as [|b l IH]; intros hs H8; [exact H8|].
    cbn [fold_left]. apply IH, compress_length, H8.
  - intros l Hl. do 9 (destruct l as [|? l]; try discriminate). reflexivity.
Qed.

Lemma hmacSha256Hex_length secret payload :
  length (hmacSha256Hex secret payload) = 64%nat.
Proof.
  unfold hmacSha256Hex, hmac_sha256.
  match goal with |- context [hex (sha256 ?m)] =>
    pose proof (sha256_length m) as Hl; generalize dependent (sha256 m) end.
  intros l Hl. do 33 (destruct l as [|? l]; try discriminate). reflexivity.
Qed.

End CryptoProps.

(* ===================================================================== *)
(** ** Hex digests and their decoding *)
(* ===================================================================== *)

Module DigestFacts.
Import JS Crypto DigestSpec CryptoProps.

Lemma hex_digit_lower x : x < 16 -> lower_hex (hex_digit x).
Proof.
  intros Hx. unfold lower_hex, hex_digit.
  destruct (N.ltb_spec x 10); lia.
Qed.

Lemma unhex_hex_digit x : x < 16 -> unhex (hex_digit x) = Some x.
Proof.
  intros Hx. unfold unhex. cbn zeta.
  rewrite N.mod_small
    by (unfold hex_digit; destruct (N.ltb_spec x 10); lia).
  unfold hex_digit.
  destruct (N.ltb_spec x 10) as [H10|H10].
  - replace ((48 <=? 48 + x) && (48 + x <=? 57)) with true.
    + f_equal. lia.
    + symmetry. apply andb_true_iff. split; apply N.leb_le; lia.
  - replace ((48 <=? 87 + x) && (87 + x <=? 57)) with false.
    + replace ((97 <=? 87 + x) && (87 + x <=? 102)) with true.
      * f_equal. lia.
      * symmetry. apply andb_true_iff. split; apply N.leb_le; lia.
    + symmetry. apply andb_false_iff. right. apply N.leb_gt. lia.
Qed.

Lemma hex_cons b bytes :
  hex (b :: bytes) = hex_digit (b / 16) :: hex_digit (b mod 16) :: hex bytes.
Proof. reflexivity. Qed.

Lemma Buffer_from_hex_hex bytes :
  Forall (fun b => b < 256) bytes -> Buffer_from_hex (hex bytes) = bytes.
Proof.
  induction 1 as [|b bytes Hb _ IH]; [reflexivity|].
  rewrite hex_cons. cbn [Buffer_from_hex].
  rewrite !unhex_hex_digit.
  - rewrite IH. f_equal. pose proof (N.div_mod b 16). lia.
  - apply N.mod_lt. lia.
  - apply N.Div0.div_lt_upper_bound. lia.
Qed.

Lemma hex_lower bytes : Forall (fun b => b < 256) bytes -> Forall lower_hex (hex bytes).
Proof.
  induction 1 as [|b bytes Hb _ IH]; [constructor|].
  rewrite hex_cons. constructor; [|constructor; [|exact IH]].
  - apply hex_digit_lower, N.Div0.div_lt_upper_bound. lia.
  - apply hex_digit_lower, N.mod_lt. lia.
Qed.

Lemma be_bytes_bytes width x : Forall (fun b => b < 256) (be_bytes width x).
Proof.
  unfold be_bytes. apply Forall_fmap, Forall_forall. intros i _.
  cbn. apply N.mod_lt. lia.
Qed.

Lemma sha256_bytes msg : Forall (fun b => b < 256) (sha256 msg).
Proof.
  unfold sha256. apply Forall_concat, Forall_fmap, Forall_forall.
  intros x _. apply be_bytes_bytes.
Qed.

Lemma hmac_sha256_bytes key msg : Forall (fun b => b < 256) (hmac_sha256 key msg).
Proof. apply sha256_bytes. Qed.

Lemma hmac_sha256_length key msg : length (hmac_sha256 key msg) = 32%nat.
Proof. apply sha256_length. Qed.

(** A buffer decoded from hex has a byte for two characters at most, and the
    characters it was decoded from are hex digits. *)
Lemma Buffer_from_hex_digits s :
  (2 * length (Buffer_from_hex s) <= length s)%nat
  /\ Forall (fun c => is_Some (unhex c)) (take (2 * length (Buffer_from_hex s)) s).
Proof.
  induction s as [s IH] using (induction_ltof1 _ (@length N)). unfold ltof in IH.
  destruct s as [|a [|b s']]; cbn [Buffer_from_hex length].
  - split; [lia | constructor].
  - split; [lia | constructor].
  - destruct (unhex a) as [x|] eqn:Ha; [destruct (unhex b) as [y|] eqn:Hb|];
      cbn [length]; try (split; [lia | constructor]).
    destruct (IH s') as [Hlen Hdig]; [cbn; lia|].
    split; [lia|].
    replace (2 * S (length (Buffer_from_hex s')))%nat
      with (S (S (2 * length (Buffer_from_hex s')))) by lia.
    cbn [take]. constructor; [rewrite Ha; eauto|].
    constructor; [rewrite Hb; eauto | exact Hdig].
Qed.

Lemma unhex_hex_char c : is_Some (unhex c) -> hex_char (c mod 256).
Proof.
  unfold unhex, hex_char. cbn zeta. set (d := c mod 256). clearbody d.
  destruct ((48 <=? d) && (d <=? 57)) eqn:H1.
  { apply andb_true_iff in H1 as [Ha Hb]. apply N.leb_le in Ha, Hb. lia. }
  destruct ((97 <=? d) && (d <=? 102)) eqn:H2.
  { apply andb_true_iff in H2 as [Ha Hb]. apply N.leb_le in Ha, Hb. lia. }
  destruct ((65 <=? d) && (d <=? 70)) eqn:H3.
  { apply andb_true_iff in H3 as [Ha Hb]. apply N.leb_le in Ha, Hb. lia. }
  intros [x Hx]. discriminate.
Qed.

(** The digest decodes to the 32 bytes of the MAC. *)
Lemma Buffer_from_hex_digest secret payload :
  Buffer_from_hex (hmacSha256Hex secret payload)
  = hmac_sha256 (utf8 secret) (utf8 payload).
Proof. unfold hmacSha256Hex. apply Buffer_from_hex_hex, hmac_sha256_bytes. Qed.

End DigestFacts.

(* ===================================================================== *)
(** ** Facts on computations and on calls to the store *)
(* ===================================================================== *)

Module WorldFacts.
Import JS Model Spec JSFacts.

Lemma bind_run {A B} (m : M A) (f : A -> M B) (w : World) :
  (m ≫= f) w
  = match m w with
    | (Ok a, w') => f a w'
    | (Throw e, w') => (Throw e, w')
    end.
Proof. reflexivity. Qed.

Lemma bind_ok {A B} (m : M A) (f : A -> M B) (w w' : World) (a : A) :
  m w = (Ok a, w') -> (m ≫= f) w = f a w'.
Proof. intros Hm. rewrite bind_run, Hm. reflexivity. Qed.

Lemma bind_throw {A B} (m : M A) (f : A -> M B) (w w' : World) (e : exn) :
  m w = (Throw e, w') -> (m ≫= f) w = (Throw e, w').
Proof. intros Hm. rewrite bind_run, Hm. reflexivity. Qed.

Lemma called_refl w : called [] w w.
Proof. unfold called. rewrite app_nil_r. auto. Qed.

Lemma called_trans cs1 cs2 w1 w2 w3 :
  called cs1 w1 w2 -> called cs2 w2 w3 -> called (cs1 ++ cs2) w1 w3.
Proof.
  intros (Hc1 & Hf1 & Ho1 & Hr1) (Hc2 & Hf2 & Ho2 & Hr2). unfold called.
  rewrite Hc2, Hc1, Hf2, Hf1, Ho2, Ho1, Hr2, Hr1, drop_drop, length_app, app_assoc.
  auto.
Qed.

Lemma no_faults_called cs w w' : called cs w w' -> no_faults w -> no_faults w'.
Proof.
  intros (_ & Hf & _) Hn. unfold no_faults in *. rewrite Hf.
  apply Forall_drop, Hn.
Qed.

Lemma no_faults_head w : no_faults w -> head (faults w) = None \/ head (faults w) = Some None.
Proof.
  unfold no_faults. destruct (faults w) as [|f fs]; [auto|].
  intros Hn. inversion Hn; subst. auto.
Qed.

Lemma check_response_thrown (r : Fault + Reply) :
  check_response r
  = match r with inr reply => mret reply | inl f => throw (thrown f) end.
Proof. destruct r as [[|]|]; reflexivity. Qed.

(** An answer of the store that is an error leaves the store as it was. *)
Lemma serve_error `{Platform} c t st f :
  (serve c t st).1 = inl f -> (serve c t st).2 = st.
Proof.
  destruct c; cbn [serve].
  - destruct (bool_decide _); [discriminate|reflexivity].
  - destruct (bool_decide _); [discriminate|reflexivity].
  - destruct (bool_decide _); [discriminate|reflexivity].
  - destruct (list_find _ _) as [[i p]|]; [discriminate|reflexivity].
Qed.

(** A wait followed by a fetch and the check of its answer: the call is sent;
    a fault of the network is thrown and leaves the store alone; otherwise the
    store serves the call at the time the wait ended. *)
Lemma waited_fetch `{Platform} (m : M ()) (c : Call) (w : World) :
  waits_only m ->
  exists t w',
    called [c] w w'
    /\ match head (faults w) with
       | Some (Some f) =>
           store w' = store w
           /\ (m;; res ← fetch c; check_response res) w = (Throw (thrown f), w')
       | _ =>
           store w' = (serve c t (store w)).2
           /\ (m;; res ← fetch c; check_response res) w
              = (match (serve c t (store w)).1 with
                 | inr r => Ok r
                 | inl f => Throw (thrown f)
                 end, w')
       end.
Proof.
  intros Hm. destruct (Hm w) as (t & k & s & Hw).
  exists t. rewrite (bind_ok _ _ _ _ _ Hw). rewrite bind_run.
  unfold fetch. cbn [faults waited with_now with_counter with_sleeps now store calls].
  assert (Hcalled : forall st,
    called [c] w (with_store st (with_faults (tail (faults w))
                   (with_calls (calls w ++ [c]) (waited t k s w))))).
  { intros st. unfold called. cbn [calls faults console redis with_store with_faults
      with_calls waited with_now with_counter with_sleeps length].
    repeat split; try reflexivity; destruct (faults w); reflexivity. }
  destruct (head (faults w)) as [[f|]|].
  - eexists. split; [|split]; [| |rewrite check_response_thrown; reflexivity].
    + specialize (Hcalled (store w)). exact Hcalled.
    + reflexivity.
  - destruct (serve c t (store w)) as [r st] eqn:Hs.
    eexists. split; [apply (Hcalled st)|]. split; [reflexivity|].
    rewrite check_response_thrown. cbn [fst]. destruct r; reflexivity.
  - destruct (serve c t (store w)) as [r st] eqn:Hs.
    eexists. split; [apply (Hcalled st)|]. split; [reflexivity|].
    rewrite check_response_thrown. cbn [fst]. destruct r; reflexivity.
Qed.

(** Looks a literal key up in a map built from a list of properties. *)
Ltac lookup_props :=
  repeat first
    [ rewrite list_to_map_cons
    | rewrite lookup_insert_eq
    | rewrite lookup_insert_ne by (vm_compute; discriminate)
    | rewrite list_to_map_nil
    | rewrite lookup_empty ].

End WorldFacts.

(* ===================================================================== *)
(** ** The rate limiter *)
(* ===================================================================== *)

Module RateLimiterProps.
Import JS Model Notion Spec.

Lemma waited_waited t k s t' k' s' w :
  waited t k s (waited t' k' s' w) = waited t k s w.
Proof. reflexivity. Qed.

Lemma waited_id w : waited (now w) (counter w) (sleeps w) w = w.
Proof. destruct w; reflexivity. Qed.

Lemma getLimiter_unconfigured env name key w :
  getRedis env = false ->
  limit (getLimiter env name) key w
  = (Ok {| ok := true; resetMs := None; remaining := None |}, w).
Proof. intros H. unfold getLimiter. rewrite H. reflexivity. Qed.

Lemma getLimiter_configured env name key w :
  getRedis env = true ->
  limit (getLimiter env name) key w
  = match counter w with
    | r :: rest =>
        (Ok {| ok := success r; resetMs := Some (reset r);
               remaining := Some (Model.remaining r) |}, with_counter rest w)
    | [] => (Ok {| ok := true; resetMs := Some (now w); remaining := Some 0%Z |}, w)
    end.
Proof.
  intros H. unfold getLimiter. rewrite H. cbn [negb].
  destruct name; cbn [limit]; unfold mbind, M_bind, Ratelimit_limit;
    destruct (counter w); reflexivity.
Qed.

Lemma throttleOrWait_rounds_granted env name key denials : forall rest w rounds,
  getRedis env = true ->
  Forall (fun r => success r = false) denials ->
  grants_first rest ->
  counter w = denials ++ rest ->
  (length denials < rounds)%nat ->
  throttleOrWait_rounds rounds (getLimiter env name) key w
  = Some (Ok (), waited (now w + sumZ (waits (now w) denials))%Z (tail rest)
                        (sleeps w ++ waits (now w) denials) w).
Proof.
  induction denials as [|d denials IH]; intros rest w rounds Hcfg Hden Hgr Hc Hr.
  - destruct rounds as [|rounds]; [cbn in Hr; lia|].
    cbn [throttleOrWait_rounds]. rewrite getLimiter_configured by exact Hcfg.
    cbn [app] in Hc. rewrite Hc. cbn [waits sumZ foldr].
    rewrite Z.add_0_r, app_nil_r.
    destruct rest as [|g rest]; cbn [ok tail].
    + destruct w; cbn in Hc |- *; subst; reflexivity.
    + cbn in Hgr. rewrite Hgr. destruct w; cbn in Hc |- *; subst; reflexivity.
  - destruct rounds as [|rounds]; [cbn in Hr; lia|].
    cbn [throttleOrWait_rounds]. rewrite getLimiter_configured by exact Hcfg.
    cbn [app] in Hc. rewrite Hc. cbn [ok resetMs default].
    inversion Hden as [|? ? Hd Hden']; subst. rewrite Hd.
    cbn [now with_counter].
    rewrite (IH rest) by
      (first [exact Hcfg | exact Hden' | exact Hgr | reflexivity | cbn in Hr |- *; lia]).
    cbn [sleep modify snd now with_now with_sleeps sleeps with_counter waits sumZ foldr].
    f_equal. f_equal.
    unfold waited, with_now, with_counter, with_sleeps, sumZ. cbn.
    f_equal; [lia | rewrite <- app_assoc; reflexivity].
Qed.

Lemma throttleOrWait_rounds_blocked env name key denials : forall rest w rounds,
  getRedis env = true ->
  Forall (fun r => success r = false) denials ->
  counter w = denials ++ rest ->
  (rounds <= length denials)%nat ->
  throttleOrWait_rounds rounds (getLimiter env name) key w = None.
Proof.
  induction denials as [|d denials IH]; intros rest w rounds Hcfg Hden Hc Hr.
  - destruct rounds; [reflexivity | cbn in Hr; lia].
  - destruct rounds as [|rounds]; [reflexivity|].
    cbn [throttleOrWait_rounds]. rewrite getLimiter_configured by exact Hcfg.
    cbn [app] in Hc. rewrite Hc. cbn [ok resetMs default].
    inversion Hden as [|? ? Hd Hden']; subst. rewrite Hd.
    apply (IH rest); [exact Hcfg | exact Hden' | reflexivity | cbn in Hr; lia].
Qed.

(** Any list of answers starts with denials that end at a grant or at the end. *)
Lemma answers_split (answers : list RatelimitResponse) :
  exists denials rest,
    answers = denials ++ rest
    /\ Forall (fun r => success r = false) denials
    /\ grants_first rest.
Proof.
  induction answers as [|r answers (denials & rest & -> & Hd & Hg)].
  - exists [], []. repeat split; constructor.
  - destruct (success r) eqn:Hr.
    + exists [], (r :: denials ++ rest). repeat split; [constructor | exact Hr].
    + exists (r :: denials), rest. repeat split; [constructor; assumption | exact Hg].
Qed.

(** [throttleOrWait] with a limiter of [getLimiter] returns: it does not
    throw, and only the clock, the answers left and the delays change. *)
Lemma throttleOrWait_returns env name key w :
  exists t answers delays,
    throttleOrWait (getLimiter env name) key w = (Ok (), waited t answers delays w).
Proof.
  unfold throttleOrWait.
  destruct (getRedis env) eqn:Hcfg.
  - destruct (answers_split (counter w)) as (denials & rest & Hc & Hd & Hg).
    rewrite (throttleOrWait_rounds_granted env name key denials rest w _ Hcfg Hd Hg Hc).
    + cbn [default]. eauto.
    + rewrite Hc, length_app. lia.
  - cbn [throttleOrWait_rounds]. rewrite getLimiter_unconfigured by exact Hcfg.
    cbn [ok default]. exists (now w), (counter w), (sleeps w).
    rewrite waited_id. reflexivity.
Qed.

(** C8. Without a counter backend [acquire] returns at once: nothing is
    awaited and nothing changes. With one, it calls the counter until it is
    granted: on each denial it sleeps [max(250, reset - now)] and tries again,
    it never throws on a denial, and while the denials last it is still
    waiting. *)
Theorem acquire_blocks_until_granted (env : Env) (name : LimiterName)
    (key : jsstring) (w : World) :
  (getRedis env = false ->
     throttleOrWait (getLimiter env name) key w = (Ok (), w))
  /\ (getRedis env = true ->
      forall denials rest,
        counter w = denials ++ rest ->
        Forall (fun r => success r = false) denials ->
        grants_first rest ->
        let delays := waits (now w) denials in
        let granted :=
          waited (now w + sumZ delays)%Z (tail rest) (sleeps w ++ delays) w in
        throttleOrWait (getLimiter env name) key w = (Ok (), granted)
        /\ (forall rounds, (length denials < rounds)%nat ->
              throttleOrWait_rounds rounds (getLimiter env name) key w
              = Some (Ok (), granted))
        /\ (forall rounds, (rounds <= length denials)%nat ->
              throttleOrWait_rounds rounds (getLimiter env name) key w = None)
        /\ length delays = length denials
        /\ Forall (fun ms => (250 <= ms)%Z) delays).
Proof.
  split.
  - intros Hcfg. unfold throttleOrWait. cbn [throttleOrWait_rounds].
    rewrite getLimiter_unconfigured by exact Hcfg. reflexivity.
  - intros Hcfg denials rest Hc Hd Hg delays granted.
    assert (Hrounds : forall rounds, (length denials < rounds)%nat ->
              throttleOrWait_rounds rounds (getLimiter env name) key w
              = Some (Ok (), granted)).
    { intros rounds Hr.
      apply (throttleOrWait_rounds_granted env name key denials rest w rounds Hcfg Hd Hg Hc Hr). }
    split; [|split; [exact Hrounds|split; [|split]]].
    + unfold throttleOrWait. rewrite Hrounds; [reflexivity|].
      rewrite Hc, length_app. lia.
    + intros rounds Hr.
      apply (throttleOrWait_rounds_blocked env name key denials rest w rounds Hcfg Hd Hc Hr).
    + subst delays. clear. generalize (now w). induction denials; intros t; cbn; auto.
    + subst delays. clear. generalize (now w).
      induction denials; intros t; cbn [waits]; constructor; [lia | auto].
Qed.
(** C8 at a counter that denies twice, then grants. *)
Lemma acquire_blocks_until_granted_witness :
  let w := Examples.world_of [] []
             [Examples.denied 1100; Examples.denied 2000; Examples.granted 3000] in
  getRedis Examples.env = true
  /\ getRedis Examples.env_local = false
  /\ throttleOrWait (getLimiter Examples.env notion) (lit "global") w
     = (Ok (), waited 2000 [] [250; 750]%Z w)
  /\ throttleOrWait_rounds 2 (getLimiter Examples.env notion) (lit "global") w = None
  /\ throttleOrWait (getLimiter Examples.env_local notion) (lit "global") w = (Ok (), w).
Proof.
  intros w.
  assert (Hcfg : getRedis Examples.env = true) by reflexivity.
  assert (Hloc : getRedis Examples.env_local = false) by reflexivity.
  split; [exact Hcfg|]. split; [exact Hloc|].
  destruct (proj2 (acquire_blocks_until_granted Examples.env notion (lit "global") w) Hcfg
              [Examples.denied 1100; Examples.denied 2000] [Examples.granted 3000]
              eq_refl
              ltac:(repeat constructor)
              eq_refl)
    as (H1 & _ & H3 & _).
  split; [exact H1|]. split; [apply H3; cbn; lia|].
  exact (proj1 (acquire_blocks_until_granted Examples.env_local notion (lit "global") w) Hloc).
Defined.


End RateLimiterProps.

(* ===================================================================== *)
(** ** The verification token channel *)
(* ===================================================================== *)

Module TokenChannelProps.
Import JS Model VerificationToken Spec JSFacts.

Lemma KEY_neq_USED_KEY : KEY <> USED_KEY.
Proof. vm_compute. discriminate. Qed.

(** A text that is not JSON is read back as it is. *)
Lemma parseResponse_plain `{Platform} (token : jsstring) :
  JSON_parse token = None -> parseResponse token = JStr token.
Proof.
  intros Hp. unfold parseResponse. destruct token; [reflexivity|].
  rewrite Hp. reflexivity.
Qed.


Lemma consume_absent `{Platform} env w :
  redis w !! KEY = None -> consumeVerificationToken env w = (Ok None, w).
Proof.
  intros Hk. unfold consumeVerificationToken.
  destruct (getRedis env); [|reflexivity]. cbn [negb].
  unfold mbind, M_bind, redis_get, gets.
  destruct (truthy_value _); [reflexivity|].
  rewrite Hk. reflexivity.
Qed.

(** A value that the client reads back as a falsy one is never handed out,
    and [consume()] leaves it where it is. *)
Lemma consume_falsy `{Platform} env w value expiry :
  redis w !! KEY = Some (value, expiry) -> truthy (parseResponse value) = false ->
  consumeVerificationToken env w = (Ok None, w).
Proof.
  intros Hk Hv. unfold consumeVerificationToken.
  destruct (getRedis env); [|reflexivity]. cbn [negb].
  unfold mbind, M_bind, redis_get, gets.
  destruct (truthy_value _); [reflexivity|].
  rewrite Hk. destruct (now w <? expiry)%Z; [|reflexivity].
  cbn [truthy_value]. rewrite Hv. reflexivity.
Qed.



(** The first [consume()] after a [store(token)], within the ten minutes. *)
Lemma consume_stored `{Platform} env w token t :
  getRedis env = true -> (t < now w + 600000)%Z ->
  let stored := with_now t (storeVerificationToken env token w).2 in
  redis stored !! KEY = Some (token, (now w + 600000)%Z)
  /\ consumeVerificationToken env stored
     = if truthy (parseResponse token)
       then (Ok (Some (parseResponse token)),
             with_redis
               (delete KEY (<[USED_KEY := (lit "1", (t + 600000)%Z)]> (redis stored)))
               (with_redis (<[USED_KEY := (lit "1", (t + 600000)%Z)]> (redis stored))
                           stored))
       else (Ok None, stored).
Proof.
  intros Hcfg Ht stored. subst stored.
  unfold consumeVerificationToken, storeVerificationToken.
  rewrite Hcfg. cbn [negb].
  unfold mbind, M_bind, redis_get, redis_set, redis_del, gets, modify, mret, M_ret.
  cbn [fst snd redis now with_now with_redis].
  rewrite lookup_delete_eq. cbv beta iota delta [truthy_value].
  cbn [fst snd redis now with_now with_redis].
  rewrite lookup_delete_ne by (apply not_eq_sym, KEY_neq_USED_KEY).
  rewrite lookup_insert_eq.
  replace (now w + 10 * 60 * 1000)%Z with (now w + 600000)%Z by lia.
  split; [reflexivity|].
  replace (t <? now w + 600000)%Z with true by (symmetry; apply Z.ltb_lt; lia).
  cbv beta iota delta [truthy_value].
  destruct (truthy (parseResponse token)); cbv beta iota delta [negb];
    cbn [fst snd redis now with_now with_redis]; [|reflexivity].
  replace (t + 10 * 60 * 1000)%Z with (t + 600000)%Z by lia.
  reflexivity.
Qed.




End TokenChannelProps.

(* ===================================================================== *)
(** ** The webhook route *)
(* ===================================================================== *)

Module WebhookProps.
Import JS Crypto Model Http Notion Webhook WebhookSpec JSFacts CryptoProps DigestFacts.

Lemma POST_handshake `{Platform} env req w v :
  handshake_token req = Some v ->
  POST env req w
  = (Ok (Response_json (JObj [(lit "verification_token", v)])),
     with_console
       (console w ++ [ConsoleLog (lit "[notion] verification_token received: "
                                  ++ redacted (String_ v))]) w).
Proof.
  unfold handshake_token, POST. intros Hv.
  destruct (JSON_parse (text req)) as [parsed|]; [|discriminate].
  destruct (get (lit "verification_token") parsed) as [v'|]; [|discriminate].
  destruct (truthy v'); [|discriminate].
  injection Hv as ->. reflexivity.
Qed.

(** C7, as the code has it. The handshake logs one line. For a token of more
    than 12 characters it holds the first 8 characters, an ellipsis and the
    last 4, so 13 characters that do not depend on the rest of the token; a
    token of 12 characters or fewer is logged as it is. *)
Theorem handshake_log_is_redacted_above_12 `{Platform} (env : Env) (req : Request)
    (w : World) (v : JSON) :
  handshake_token req = Some v ->
  let tok := String_ v in
  console (POST env req w).2
  = console w ++ [ConsoleLog (lit "[notion] verification_token received: " ++ redacted tok)]
  /\ ((12 < length tok)%nat ->
        redacted tok = take 8 tok ++ [8230] ++ drop (length tok - 4) tok
        /\ length (redacted tok) = 13%nat
        /\ forall tok', (12 < length tok')%nat ->
             take 8 tok' = take 8 tok ->
             drop (length tok' - 4) tok' = drop (length tok - 4) tok ->
             redacted tok' = redacted tok)
  /\ ((length tok <= 12)%nat -> redacted tok = tok).
Proof.
  intros Hv tok. rewrite (POST_handshake env req w v Hv). cbn [snd console with_console].
  split; [reflexivity|]. split.
  - intros Hlen.
    assert (Hred : forall t : jsstring, (12 < length t)%nat ->
              redacted t = take 8 t ++ [8230] ++ drop (length t - 4) t).
    { intros t Ht. unfold redacted, slice_to, slice_last.
      rewrite bool_decide_eq_false_2 by lia. reflexivity. }
    split; [exact (Hred tok Hlen)|]. split.
    + rewrite (Hred tok Hlen). rewrite !length_app, length_take, length_drop. cbn [length]. lia.
    + intros tok' Hlen' H8 H4. rewrite (Hred tok' Hlen'), (Hred tok Hlen), H8, H4.
      reflexivity.
  - intros Hlen. unfold redacted. rewrite bool_decide_eq_true_2 by exact Hlen.
    reflexivity.
Qed.


(** C7 fails as stated: a token of 9 characters is logged whole. *)
Lemma short_handshake_token_is_logged_in_full :
  let tok := lit "tok_short" in
  let line := lit "[notion] verification_token received: tok_short" in
  console (@POST Examples.platform Examples.env
             (Examples.request Examples.body_short_token None) Examples.world).2
  = [ConsoleLog line]
  /\ contains line tok
  /\ tok <> slice_to 8 tok ++ [8230] ++ slice_last 4 tok.
Proof.
  split; [vm_compute; reflexivity|]. split; [|vm_compute; discriminate].
  exists (lit "[notion] verification_token received: "), []. vm_compute. reflexivity.
Qed.

(** C7, as the code has it, at a token of 27 characters. *)
Lemma handshake_log_is_redacted_above_12_witness :
  let req := Examples.request Examples.body_token None in
  let v := JStr (lit "secret_tok_0123456789abcdef") in
  @handshake_token Examples.platform req = Some v
  /\ console (@POST Examples.platform Examples.env req Examples.world).2
     = [ConsoleLog (lit "[notion] verification_token received: "
                    ++ lit "secret_t" ++ [8230] ++ lit "cdef")].
Proof.
  intros req v.
  assert (Hv : @handshake_token Examples.platform req = Some v) by (vm_compute; reflexivity).
  split; [exact Hv|].
  destruct (@handshake_log_is_redacted_above_12 Examples.platform Examples.env req
              Examples.world v Hv) as (H1 & H2 & _).
  rewrite H1. destruct H2 as (-> & _); [vm_compute; lia|]. vm_compute. reflexivity.
Defined.

Lemma POST_not_handshake `{Platform} env req w :
  handshake_token req = None ->
  POST env req w = POST_event env (text req) (default [] (x_notion_signature req)) w.
Proof.
  unfold handshake_token, POST. intros Hh.
  destruct (JSON_parse (text req)) as [parsed|]; [|reflexivity].
  destruct (get (lit "verification_token") parsed) as [v|]; [|reflexivity].
  destruct (truthy v); [discriminate|reflexivity].
Qed.

(** The signature check of [POST], for a request that is not a handshake. *)
Lemma POST_signature `{Platform} env req w secret :
  handshake_token req = None ->
  WEBHOOK_VERIFICATION_TOKEN env = Some secret ->
  secret <> [] ->
  let signature := default [] (x_notion_signature req) in
  let computed := hmacSha256Hex secret (text req) in
  (signature = [] \/ Buffer_from_hex signature <> Buffer_from_hex computed ->
     POST env req w = (Ok (respond (lit "Invalid signature") 401), w))
  /\ (signature <> [] -> Buffer_from_hex signature = Buffer_from_hex computed ->
      forall r w', POST env req w = (Ok r, w') -> status r <> 401).
Proof.
  intros Hh Hsecret Hne signature computed.
  rewrite (POST_not_handshake env req w Hh). unfold POST_event.
  rewrite Hsecret. cbn [truthy_opt default from_option id].
  rewrite (truthy_string_ne secret Hne). cbn [negb].
  fold signature. fold computed.
  rewrite timingSafeEqualHex_spec. split.
  - intros [Hs|Hs].
    + rewrite Hs. reflexivity.
    + rewrite (bool_decide_eq_false_2 _ Hs). rewrite orb_true_r. reflexivity.
  - intros Hs Heq r w'.
    rewrite (truthy_string_ne signature Hs), (bool_decide_eq_true_2 _ Heq).
    cbn [negb orb].
    destruct (JSON_parse (text req)) as [payload|];
      [|intros [= <- _]; discriminate].
    destruct (EVENTS_QUEUE_DB_ID env) as [[|c db]|];
      try (intros [= <- _]; discriminate).
    destruct (str_field (lit "id") payload) as [[|c' eventId]|];
      try (destruct payload; intros [= <- _]; discriminate).
    intros Hrun.
    assert (Hrun' :
      (dsId ← getDatabaseDataSourceId env (c :: db);
       exists_ ← eventExists env dsId (c' :: eventId);
       if (exists_ : bool)
       then mret (Response_json (JObj [(lit "ok", JBool true); (lit "deduped", JBool true)]))
       else
         writeEventToQueue env
           {| databaseId := c :: db;
              type := default (lit "Other") (str_field (lit "type") payload);
              eventId := c' :: eventId;
              objectType := str_field (lit "type") (default JNull (get (lit "entity") payload));
              objectId := str_field (lit "id") (default JNull (get (lit "entity") payload));
              sourceUrl := None;
              payloadJson := JSON_stringify payload |};;
         mret (Response_json (JObj [(lit "ok", JBool true)]))) w = (Ok r, w')).
    { destruct payload; first [discriminate | exact Hrun]. }
    clear Hrun. unfold mbind, M_bind in Hrun'.
    destruct (getDatabaseDataSourceId env (c :: db) w) as [[dsId|e] w1]; [|discriminate].
    destruct (eventExists env dsId (c' :: eventId) w1) as [[[|]|e] w2]; [| |discriminate].
    + injection Hrun' as <- _. discriminate.
    + destruct (writeEventToQueue env _ w2) as [[[]|e] w3]; [|discriminate].
      injection Hrun' as <- _. discriminate.
Qed.





End WebhookProps.

(* ===================================================================== *)
(** ** The webhook route: the create-row request *)
(* ===================================================================== *)

Module QueueWriteProps.
Import JS Model Http Notion Webhook WebhookSpec Spec JSFacts WorldFacts RateLimiterProps.

Lemma throttleOrWait_waits_only env name key :
  waits_only (throttleOrWait (getLimiter env name) key).
Proof. intros w. apply throttleOrWait_returns. Qed.

(** [Notion.notionFetch] with an API key: see [waited_fetch]. *)
Lemma client_notionFetch_spec `{Platform} env c w :
  truthy_opt (NOTION_API_KEY env) = true ->
  exists t w',
    called [c] w w'
    /\ match head (faults w) with
       | Some (Some f) =>
           store w' = store w /\ notionFetch env c w = (Throw (thrown f), w')
       | _ =>
           store w' = (serve c t (store w)).2
           /\ notionFetch env c w
              = (match (serve c t (store w)).1 with
                 | inr r => Ok r
                 | inl f => Throw (thrown f)
                 end, w')
       end.
Proof.
  intros Hkey. unfold notionFetch. rewrite Hkey. cbn [negb].
  apply waited_fetch, throttleOrWait_waits_only.
Qed.

Lemma client_notionFetch_served `{Platform} env c w :
  truthy_opt (NOTION_API_KEY env) = true ->
  no_faults w ->
  exists t w',
    called [c] w w'
    /\ store w' = (serve c t (store w)).2
    /\ notionFetch env c w
       = (match (serve c t (store w)).1 with
          | inr r => Ok r
          | inl f => Throw (thrown f)
          end, w').
Proof.
  intros Hkey Hn. destruct (client_notionFetch_spec env c w Hkey) as (t & w' & Hc & Hm).
  exists t, w'. split; [exact Hc|].
  destruct (no_faults_head w Hn) as [Hh|Hh]; rewrite Hh in Hm; exact Hm.
Qed.

Lemma strip_undefined_defined props :
  Forall (fun kv : jsstring * option PropValue => kv.2 <> None) (strip_undefined props).
Proof.
  unfold strip_undefined. apply List.Forall_forall. intros [k v] Hin.
  apply List.filter_In in Hin as [_ Hv]. cbn in *. destruct v; [discriminate|discriminate].
Qed.

Lemma strip_undefined_keeps props k v :
  (k, Some v) ∈ props -> (k, Some v) ∈ strip_undefined props.
Proof.
  intros Hin. apply list_elem_of_In, List.filter_In. split; [|reflexivity].
  apply list_elem_of_In, Hin.
Qed.

Lemma strip_undefined_sub props kv : kv ∈ strip_undefined props -> kv ∈ props.
Proof.
  intros Hin. apply list_elem_of_In, List.filter_In in Hin as [Hin _].
  apply list_elem_of_In, Hin.
Qed.

(** The keys of the object literal are distinct. *)
Lemma page_properties_keys params now_ :
  (page_properties params now_).*1
  = [ lit "Name"; lit "Event ID"; lit "Type"; lit "Notion object type";
      lit "Notion object id"; lit "Source URL"; lit "Status";
      lit "Needs human review"; lit "Payload (json)"; lit "Created"; lit "Scipio log" ].
Proof. reflexivity. Qed.

Lemma page_properties_NoDup params now_ : NoDup (page_properties params now_).*1.
Proof. rewrite page_properties_keys. apply (bool_decide_unpack _). vm_compute. exact I. Qed.

Local Opaque lit.

(** What the store files of the properties sent. *)
Lemma created_page_props params now_ :
  let m : gmap jsstring PropValue :=
    list_to_map (defined_props (strip_undefined (page_properties params now_))) in
  m !! lit "Event ID" = Some (PRichText [eventId params])
  /\ m !! lit "Status" = Some (PSelect (lit "New"))
  /\ m !! lit "Needs human review" = Some (PCheckbox false)
  /\ m !! lit "Scipio log"
     = Some (PRichText [lit "Aqueduct: queued event " ++ eventId params ++ lit " ("
                        ++ type params ++ lit ") at " ++ now_]).
Proof.
  unfold page_properties.
  destruct (truthy_opt (objectType params)), (truthy_opt (objectId params)),
    (truthy_opt (sourceUrl params));
    cbn [strip_undefined List.filter defined_props omap list_omap snd fst];
    repeat split; lookup_props; reflexivity.
Qed.

Local Transparent lit.

(** C9. [writeEventToQueue] sends one create-row call. Its properties hold
    [Status] = [New], [Needs human review] = [false] and a log line with the
    time of ingestion; they are the defined properties of the object literal
    and no others, so no key is sent with an undefined value: the three
    optional keys are present exactly when their parameter is truthy. The row
    the store files from them has status [New] and the review flag false. *)
Theorem new_record_request `{Platform} (env : Env) (params : Params) (w : World) :
  truthy_opt (NOTION_API_KEY env) = true ->
  let now_ := toISOString (now w) in
  let literal := page_properties params now_ in
  let props := strip_undefined literal in
  called [CreatePage (databaseId params) props] w (writeEventToQueue env params w).2
  /\ (lit "Status", Some (PSelect (lit "New"))) ∈ props
  /\ (lit "Needs human review", Some (PCheckbox false)) ∈ props
  /\ (lit "Scipio log",
      Some (PRichText [lit "Aqueduct: queued event " ++ eventId params ++ lit " ("
                       ++ type params ++ lit ") at " ++ now_])) ∈ props
  /\ Forall (fun kv => kv.2 <> None) props
  /\ (forall k v, (k, Some v) ∈ literal <-> (k, Some v) ∈ props)
  /\ (forall k, (k, None) ∈ literal -> k ∉ props.*1)
  /\ (lit "Notion object type" ∈ props.*1 <-> truthy_opt (objectType params) = true)
  /\ (lit "Notion object id" ∈ props.*1 <-> truthy_opt (objectId params) = true)
  /\ (lit "Source URL" ∈ props.*1 <-> truthy_opt (sourceUrl params) = true)
  /\ (let filed : gmap jsstring PropValue := list_to_map (defined_props props) in
      filed !! lit "Status" = Some (PSelect (lit "New"))
      /\ filed !! lit "Needs human review" = Some (PCheckbox false)).
Proof.
  intros Hkey now_ literal props.
  assert (Hkeys : forall k v, (k, v) ∈ literal -> forall v', (k, v') ∈ literal -> v = v').
  { intros k v Hin v' Hin'.
    pose proof (page_properties_NoDup params now_) as Hnd. fold literal in Hnd.
    apply list_elem_of_lookup in Hin as [i Hi]. apply list_elem_of_lookup in Hin' as [j Hj].
    assert (i = j).
    { eapply NoDup_lookup; [exact Hnd| |]; rewrite list_lookup_fmap;
        [rewrite Hi|rewrite Hj]; reflexivity. }
    subst. congruence. }
  assert (Hopt : forall key cond (v : PropValue),
            (key, if (cond : bool) then Some v else None) ∈ literal ->
            key ∈ props.*1 <-> cond = true).
  { intros key cond v Hin. split.
    - intros Hk. apply list_elem_of_fmap in Hk as ([k' v'] & -> & Hk). cbn [fst] in *.
      pose proof (proj1 (Forall_forall _ _) (strip_undefined_defined literal) _ Hk) as Hv'.
      apply strip_undefined_sub in Hk.
      rewrite <- (Hkeys _ _ Hin _ Hk) in Hv'. cbn in Hv'.
      destruct cond; [reflexivity|congruence].
    - intros ->. apply list_elem_of_fmap. exists (key, Some v). split; [reflexivity|].
      apply strip_undefined_keeps, Hin. }
  split; [|split; [|split; [|split; [|split; [|split; [|split; [|split; [|split; [|split]]]]]]]]].
  - unfold writeEventToQueue. rewrite bind_run. cbn [gets].
    change (toISOString (now w)) with now_. fold literal. fold props.
    destruct (client_notionFetch_spec env (CreatePage (databaseId params) props) w Hkey)
      as (t & w' & Hc & Hm).
    rewrite bind_run.
    destruct (head (faults w)) as [[f|]|]; destruct Hm as [_ ->];
      try (destruct (serve _ t (store w)).1); exact Hc.
  - apply strip_undefined_keeps. subst literal. unfold page_properties.
    repeat first [apply list_elem_of_here | apply list_elem_of_further].
  - apply strip_undefined_keeps. subst literal. unfold page_properties.
    repeat first [apply list_elem_of_here | apply list_elem_of_further].
  - apply strip_undefined_keeps. subst literal. unfold page_properties.
    repeat first [apply list_elem_of_here | apply list_elem_of_further].
  - apply strip_undefined_defined.
  - intros k v. split; [apply strip_undefined_keeps | apply strip_undefined_sub].
  - intros k Hin Hk. apply list_elem_of_fmap in Hk as ([k' v'] & -> & Hk). cbn [fst] in *.
    pose proof (proj1 (Forall_forall _ _) (strip_undefined_defined literal) _ Hk) as Hv'.
    apply strip_undefined_sub in Hk. cbn in Hv'.
    rewrite <- (Hkeys _ _ Hin _ Hk) in Hv'. congruence.
  - apply (Hopt _ _ (PSelect (default [] (objectType params)))). subst literal.
    unfold page_properties.
    repeat first [apply list_elem_of_here | apply list_elem_of_further].
  - apply (Hopt _ _ (PRichText [default [] (objectId params)])). subst literal.
    unfold page_properties.
    repeat first [apply list_elem_of_here | apply list_elem_of_further].
  - apply (Hopt _ _ (PUrl (default [] (sourceUrl params)))). subst literal.
    unfold page_properties.
    repeat first [apply list_elem_of_here | apply list_elem_of_further].
  - destruct (created_page_props params now_) as (_ & Hst & Hnh & _). auto.
Qed.
(** C9 at an event whose object id is the empty string and that has no source
    URL: the two keys are not sent. *)
Lemma new_record_request_witness :
  let params :=
    {| databaseId := lit "db1"; type := lit "page.updated"; eventId := lit "evt_1";
       objectType := Some (lit "page"); objectId := Some []; sourceUrl := None;
       payloadJson := Examples.body_evt1 |} in
  let sent_ := calls (@writeEventToQueue Examples.platform Examples.env params Examples.world).2 in
  truthy_opt (NOTION_API_KEY Examples.env) = true
  /\ (exists props,
        sent_ = [CreatePage (lit "db1") props]
        /\ props.*1 = [ lit "Name"; lit "Event ID"; lit "Type"; lit "Notion object type";
                        lit "Status"; lit "Needs human review"; lit "Payload (json)";
                        lit "Created"; lit "Scipio log" ]
        /\ Forall (fun kv => kv.2 <> None) props).
Proof.
  intros params sent_.
  assert (Hkey : truthy_opt (NOTION_API_KEY Examples.env) = true) by reflexivity.
  split; [exact Hkey|].
  destruct (@new_record_request Examples.platform Examples.env params Examples.world Hkey)
    as ((Hc & _) & _ & _ & _ & Hdef & _).
  eexists. split; [exact Hc|]. split; [vm_compute; reflexivity | exact Hdef].
Defined.

End QueueWriteProps.

(* ===================================================================== *)
(** ** The webhook route: duplicate deliveries *)
(* ===================================================================== *)

Module IdempotenceProps.
Import JS Crypto Model Http Notion Webhook WebhookSpec Spec JSFacts WorldFacts CryptoProps
  WebhookProps QueueWriteProps.

Lemma getDatabaseDataSourceId_ok `{Platform} env w db ds :
  queue_ready env w db ds ->
  exists w1,
    getDatabaseDataSourceId env db w = (Ok ds, w1)
    /\ store w1 = store w /\ called [GetDatabase db] w w1.
Proof.
  intros (Hkey & _ & _ & Hdb & Hds & Hne & Hnf).
  unfold getDatabaseDataSourceId. rewrite bind_run.
  destruct (client_notionFetch_served env (GetDatabase db) w Hkey Hnf) as (t & w1 & Hc & Hst & ->).
  cbn [serve] in *. rewrite bool_decide_eq_true_2 in * by (symmetry; exact Hdb).
  cbn [fst snd] in *.
  destruct (data_sources (store w)) as [|ds' dss]; [discriminate|].
  injection Hds as ->. rewrite (truthy_string_ne ds Hne).
  exists w1. auto.
Qed.

Lemma queue_ready_called env w w' db ds cs :
  queue_ready env w db ds ->
  called cs w w' ->
  database (store w') = database (store w) ->
  data_sources (store w') = data_sources (store w) ->
  queue_ready env w' db ds.
Proof.
  intros (Hkey & Hid & Hidne & Hdb & Hds & Hne & Hnf) Hc Hd Hs.
  unfold queue_ready. rewrite Hd, Hs.
  repeat split; try assumption. eapply no_faults_called; eassumption.
Qed.

Lemma eventExists_spec `{Platform} env w db ds e :
  queue_ready env w db ds ->
  exists w1,
    eventExists env ds e w
    = (Ok (negb (bool_decide (event_rows e (rows (store w)) = []))), w1)
    /\ store w1 = store w
    /\ called [QueryDataSource ds 1 (RichTextEquals (lit "Event ID") e) false] w w1.
Proof.
  intros (Hkey & _ & _ & Hdb & Hds & Hne & Hnf).
  unfold eventExists. rewrite bind_run.
  destruct (client_notionFetch_served env
              (QueryDataSource ds 1 (RichTextEquals (lit "Event ID") e) false) w Hkey Hnf)
    as (t & w1 & Hc & Hst & ->).
  cbn [serve] in *. rewrite bool_decide_eq_true_2 in * by exact Hds.
  cbn [fst snd results_of] in *. exists w1. split; [|auto].
  unfold mret, M_ret. f_equal. f_equal.
  unfold run_query, event_rows.
  destruct (List.filter _ (rows (store w))) as [|p l]; reflexivity.
Qed.


Lemma writeEventToQueue_ok `{Platform} env w db ds params :
  queue_ready env w db ds ->
  databaseId params = db ->
  let props := strip_undefined (page_properties params (toISOString (now w))) in
  exists t w1,
    writeEventToQueue env params w = (Ok (), w1)
    /\ called [CreatePage db props] w w1
    /\ database (store w1) = database (store w)
    /\ data_sources (store w1) = data_sources (store w)
    /\ rows (store w1)
       = rows (store w)
         ++ [ {| page_id := lit "page-" ++ lit (pretty (next_row (store w)));
                 created_time := toISOString t;
                 properties := list_to_map (defined_props props) |} ].
Proof.
  intros (Hkey & _ & _ & Hdb & Hds & Hne & Hnf) Hp props.
  unfold writeEventToQueue. rewrite bind_run. cbn [gets]. fold props. rewrite Hp.
  destruct (client_notionFetch_served env (CreatePage db props) w Hkey Hnf)
    as (t & w1 & Hc & Hst & Hrun).
  rewrite bind_run, Hrun.
  cbn [serve] in *. rewrite bool_decide_eq_true_2 in * by (symmetry; exact Hdb).
  cbn [fst snd] in *. exists t, w1. rewrite Hst. cbn [database data_sources rows].
  auto.
Qed.

Lemma POST_delivery `{Platform} env req w db ds e :
  delivers env req e ->
  queue_ready env w db ds ->
  exists payload,
    JSON_parse (text req) = Some payload
    /\ POST env req w
       = (dsId ← getDatabaseDataSourceId env db;
          exists_ ← eventExists env dsId e;
          if (exists_ : bool)
          then mret (Response_json (JObj [(lit "ok", JBool true); (lit "deduped", JBool true)]))
          else
            writeEventToQueue env
              {| databaseId := db;
                 type := default (lit "Other") (str_field (lit "type") payload);
                 eventId := e;
                 objectType := str_field (lit "type") (default JNull (get (lit "entity") payload));
                 objectId := str_field (lit "id") (default JNull (get (lit "entity") payload));
                 sourceUrl := None;
                 payloadJson := JSON_stringify payload |};;
            mret (Response_json (JObj [(lit "ok", JBool true)]))) w.
Proof.
  intros (Hh & (secret & Hsecret & Hsne & Hsig) & (payload & Hparse & Hnull & Hid) & He)
         (Hkey & Hdbid & Hdbne & Hdb & Hds & Hne & Hnf).
  exists payload. split; [exact Hparse|].
  rewrite (POST_not_handshake env req w Hh). unfold POST_event.
  rewrite Hsecret, Hsig. cbn [truthy_opt default from_option id].
  rewrite (truthy_string_ne secret Hsne). cbn [negb].
  assert (Hlen := hmacSha256Hex_length secret (text req)).
  rewrite truthy_string_ne by (intros Hnil; rewrite Hnil in Hlen; discriminate).
  rewrite timingSafeEqualHex_spec, bool_decide_eq_true_2 by reflexivity.
  cbn [negb orb]. rewrite Hparse, Hdbid, Hid.
  destruct db as [|c db]; [congruence|]. destruct e as [|c' e]; [congruence|].
  destruct payload; first [congruence | reflexivity].
Qed.

Lemma POST_duplicate `{Platform} env req w db ds e :
  delivers env req e ->
  queue_ready env w db ds ->
  event_rows e (rows (store w)) <> [] ->
  exists w',
    POST env req w
    = (Ok (Response_json (JObj [(lit "ok", JBool true); (lit "deduped", JBool true)])), w')
    /\ store w' = store w
    /\ called [ GetDatabase db;
                QueryDataSource ds 1 (RichTextEquals (lit "Event ID") e) false ] w w'.
Proof.
  intros Hd Hq Hrows.
  destruct (POST_delivery env req w db ds e Hd Hq) as (payload & _ & ->).
  destruct (getDatabaseDataSourceId_ok env w db ds Hq) as (w1 & Hrun1 & Hst1 & Hc1).
  rewrite (bind_ok _ _ _ _ _ Hrun1).
  assert (Hq1 : queue_ready env w1 db ds)
    by (eapply queue_ready_called; [exact Hq|exact Hc1|rewrite Hst1..]; reflexivity).
  destruct (eventExists_spec env w1 db ds e Hq1) as (w2 & Hrun2 & Hst2 & Hc2).
  rewrite (bind_ok _ _ _ _ _ Hrun2).
  rewrite Hst1, (bool_decide_eq_false_2 _ Hrows). cbn [negb].
  exists w2. split; [reflexivity|]. split; [congruence|].
  apply (called_trans [_] [_] w w1 w2 Hc1 Hc2).
Qed.

Lemma POST_first_seen `{Platform} env req w db ds e :
  delivers env req e ->
  queue_ready env w db ds ->
  event_rows e (rows (store w)) = [] ->
  exists w' props p,
    POST env req w = (Ok (Response_json (JObj [(lit "ok", JBool true)])), w')
    /\ called [ GetDatabase db;
                QueryDataSource ds 1 (RichTextEquals (lit "Event ID") e) false;
                CreatePage db props ] w w'
    /\ database (store w') = database (store w)
    /\ data_sources (store w') = data_sources (store w)
    /\ rows (store w') = rows (store w) ++ [p]
    /\ properties p !! lit "Event ID" = Some (PRichText [e])
    /\ status_of p = Some (PSelect (lit "New"))
    /\ properties p !! lit "Needs human review" = Some (PCheckbox false).
Proof.
  intros Hd Hq Hrows.
  destruct (POST_delivery env req w db ds e Hd Hq) as (payload & _ & ->).
  destruct (getDatabaseDataSourceId_ok env w db ds Hq) as (w1 & Hrun1 & Hst1 & Hc1).
  rewrite (bind_ok _ _ _ _ _ Hrun1).
  assert (Hq1 : queue_ready env w1 db ds)
    by (eapply queue_ready_called; [exact Hq|exact Hc1|rewrite Hst1..]; reflexivity).
  destruct (eventExists_spec env w1 db ds e Hq1) as (w2 & Hrun2 & Hst2 & Hc2).
  rewrite (bind_ok _ _ _ _ _ Hrun2).
  rewrite Hst1, (bool_decide_eq_true_2 _ Hrows). cbn [negb].
  assert (Hq2 : queue_ready env w2 db ds)
    by (eapply queue_ready_called; [exact Hq1|exact Hc2|rewrite Hst2..]; reflexivity).
  match goal with |- context [writeEventToQueue env ?params] => set (params0 := params) end.
  destruct (writeEventToQueue_ok env w2 db ds params0 Hq2 eq_refl)
    as (t & w3 & Hrun3 & Hc3 & Hdb3 & Hds3 & Hrows3).
  rewrite (bind_ok _ _ _ _ _ Hrun3).
  destruct (created_page_props params0 (toISOString (now w2))) as (Pid & Pst & Pnh & _).
  eexists w3, _, _. split; [reflexivity|]. split; [|split; [|split; [|split; [|split; [|split]]]]].
  - apply (called_trans [_; _] [_] w w2 w3); [|exact Hc3].
    apply (called_trans [_] [_] w w1 w2 Hc1 Hc2).
  - rewrite Hdb3, Hst2, Hst1. reflexivity.
  - rewrite Hds3, Hst2, Hst1. reflexivity.
  - rewrite Hrows3, Hst2, Hst1. reflexivity.
  - exact Pid.
  - exact Pst.
  - exact Pnh.
Qed.


Lemma event_rows_app e l1 l2 : event_rows e (l1 ++ l2) = event_rows e l1 ++ event_rows e l2.
Proof. apply List.filter_app. Qed.

Lemma event_rows_created e p :
  properties p !! lit "Event ID" = Some (PRichText [e]) -> event_rows e [p] = [p].
Proof.
  intros Hp. unfold event_rows. cbn [List.filter page_matches]. rewrite Hp.
  unfold join_empty. cbn [concat]. rewrite app_nil_r.
  rewrite bool_decide_eq_true_2 by reflexivity. reflexivity.
Qed.

(** C3. With the queue configured and the network up: a signed delivery of
    an event that has a row already is answered [{ok: true, deduped: true}],
    leaves the store as it was and sends the data-source lookup and the dedup
    query only, no create-row call. So of two deliveries of an event not yet
    queued, the first creates one row with status [New] and the second writes
    nothing: one Event Record of the event exists, and it is not [Deduped]. *)
Theorem duplicate_delivery_is_collapsed `{Platform} (env : Env) (w : World)
    (db ds e : jsstring) :
  queue_ready env w db ds ->
  (forall req,
     delivers env req e ->
     event_rows e (rows (store w)) <> [] ->
     let again := POST env req w in
     again.1 = Ok (Response_json (JObj [(lit "ok", JBool true); (lit "deduped", JBool true)]))
     /\ store again.2 = store w
     /\ called [ GetDatabase db;
                 QueryDataSource ds 1 (RichTextEquals (lit "Event ID") e) false ]
               w again.2)
  /\ (forall req1 req2,
       delivers env req1 e ->
       delivers env req2 e ->
       event_rows e (rows (store w)) = [] ->
       let first := POST env req1 w in
       let second := POST env req2 first.2 in
       first.1 = Ok (Response_json (JObj [(lit "ok", JBool true)]))
       /\ second.1
          = Ok (Response_json (JObj [(lit "ok", JBool true); (lit "deduped", JBool true)]))
       /\ store second.2 = store first.2
       /\ called [ GetDatabase db;
                   QueryDataSource ds 1 (RichTextEquals (lit "Event ID") e) false ]
                 first.2 second.2
       /\ exists p,
            rows (store second.2) = rows (store w) ++ [p]
            /\ event_rows e (rows (store second.2)) = [p]
            /\ status_of p = Some (PSelect (lit "New"))).
Proof.
  intros Hq. split.
  - intros req Hd Hrows again.
    destruct (POST_duplicate env req w db ds e Hd Hq Hrows) as (w' & Hrun & Hst & Hc).
    subst again. rewrite Hrun. auto.
  - intros req1 req2 Hd1 Hd2 Hrows first second.
    destruct (POST_first_seen env req1 w db ds e Hd1 Hq Hrows)
      as (w1 & props & p & Hrun1 & Hc1 & Hdb1 & Hds1 & Hrows1 & Pid & Pst & _).
    assert (Hev1 : event_rows e (rows (store w1)) = [p]).
    { rewrite Hrows1, event_rows_app, Hrows. apply event_rows_created, Pid. }
    assert (Hq1 : queue_ready env w1 db ds)
      by (eapply queue_ready_called; eassumption).
    assert (Hne1 : event_rows e (rows (store w1)) <> []) by (rewrite Hev1; discriminate).
    subst first second. rewrite Hrun1. cbn [fst snd].
    destruct (POST_duplicate env req2 w1 db ds e Hd2 Hq1 Hne1) as (w2 & Hrun2 & Hst2 & Hc2).
    rewrite Hrun2. cbn [fst snd].
    split; [reflexivity|]. split; [reflexivity|]. split; [exact Hst2|].
    split; [exact Hc2|]. exists p. rewrite Hst2. auto.
Qed.

Lemma duplicate_delivery_is_collapsed_witness :
  let req :=
    Examples.request Examples.body_evt1
      (Some (hmacSha256Hex (lit "key") Examples.body_evt1)) in
  let first := @POST Examples.platform Examples.env req Examples.world in
  let second := @POST Examples.platform Examples.env req first.2 in
  queue_ready Examples.env Examples.world (lit "db1") (lit "ds1")
  /\ @delivers Examples.platform Examples.env req (lit "evt_1")
  /\ second.1
     = Ok (Response_json (JObj [(lit "ok", JBool true); (lit "deduped", JBool true)]))
  /\ store second.2 = store first.2.
Proof.
  intros req first second.
  assert (Hq : queue_ready Examples.env Examples.world (lit "db1") (lit "ds1")).
  { repeat split; try reflexivity; try discriminate. constructor. }
  assert (Hd : @delivers Examples.platform Examples.env req (lit "evt_1")).
  { split; [vm_compute; reflexivity|]. split; [|split; [|discriminate]].
    - exists (lit "key"). repeat split; first [reflexivity | discriminate].
    - exists Examples.json_evt1. split; [vm_compute; reflexivity|].
      split; [discriminate | vm_compute; reflexivity]. }
  split; [exact Hq|]. split; [exact Hd|].
  destruct (proj2 (@duplicate_delivery_is_collapsed Examples.platform Examples.env
                     Examples.world (lit "db1") (lit "ds1") (lit "evt_1") Hq)
                  req req Hd Hd eq_refl)
    as (_ & H2 & H3 & _).
  split; [exact H2 | exact H3].
Defined.

End IdempotenceProps.

(* ===================================================================== *)
(** ** The webhook route and the token channel *)
(* ===================================================================== *)

Module HandshakeProps.
Import JS Crypto Model Http Webhook WebhookSpec VerificationToken WebhookProps.

(** A handshake leaves Redis as it was and sends nothing upstream. *)
Lemma POST_handshake_frame `{Platform} env req w v :
  handshake_token req = Some v ->
  redis (POST env req w).2 = redis w /\ calls (POST env req w).2 = calls w.
Proof. intros Hv. rewrite (POST_handshake env req w v Hv). auto. Qed.

(** C1 does not hold of the code. At a handshake with the backend configured,
    [POST] echoes the token and logs it redacted, and Redis is as it was:
    [storeVerificationToken] is not called. The admin's [consume()] that
    follows returns absent (the admin route answers 404), where it would have
    returned the token had it been stored. *)
Theorem handshake_token_is_not_stored :
  let token := lit "secret_tok_0123456789abcdef" in
  let req := Examples.request Examples.body_token None in
  let posted := @POST Examples.platform Examples.env req Examples.world in
  VerificationToken.getRedis Examples.env = true
  /\ posted.1 = Ok (Response_json (JObj [(lit "verification_token", JStr token)]))
  /\ redis posted.2 = redis Examples.world
  /\ (@consumeVerificationToken Examples.platform Examples.env posted.2).1 = Ok None
  /\ (@AdminRoute.GET Examples.platform Examples.env Examples.admin_request posted.2).1
     = Ok (respond (lit "No token available") 404)
  /\ (@consumeVerificationToken Examples.platform Examples.env
        (storeVerificationToken Examples.env token posted.2).2).1
     = Ok (Some (JStr token)).
Proof. vm_compute. repeat split; reflexivity. Qed.

End HandshakeProps.

(* ===================================================================== *)
(** ** The worker: calls, rows and the loop *)
(* ===================================================================== *)

Module WorkerFacts.
Import JS Model Worker Spec WorkerSpec JSFacts WorldFacts RateLimiterProps.

Lemma throttle_rounds_returns : forall rounds w,
  (length (counter w) < rounds)%nat ->
  exists t k s, throttle_rounds rounds w = Some (Ok (), waited t k s w).
Proof.
  induction rounds as [|rounds IH]; intros w Hlen; [lia|].
  cbn [throttle_rounds]. unfold Ratelimit_limit.
  destruct (counter w) as [|r rest] eqn:Hc.
  - cbn [success]. exists (now w), (counter w), (sleeps w).
    rewrite waited_id. reflexivity.
  - destruct (success r).
    + exists (now w), rest, (sleeps w). reflexivity.
    + cbn [sleep modify snd].
      destruct (IH (with_now (now (with_counter rest w) + Z.max 250 (reset r - now (with_counter rest w)))
                      (with_sleeps (sleeps (with_counter rest w)
                                    ++ [Z.max 250 (reset r - now (with_counter rest w))])
                         (with_counter rest w)))) as (t & k & s & Hrun).
      { cbn in Hlen |- *. lia. }
      exists t, k, s. rewrite Hrun. reflexivity.
Qed.

Lemma throttle_waits_only env : waits_only (throttle env).
Proof.
  intros w. unfold throttle. destruct (limiter_configured env); cbn [negb].
  - destruct (throttle_rounds_returns (S (length (counter w))) w) as (t & k & s & ->); [lia|].
    cbn [default from_option id]. eauto.
  - exists (now w), (counter w), (sleeps w). rewrite waited_id. reflexivity.
Qed.

(** [Worker.notionFetch]: see [waited_fetch]. *)
Lemma notionFetch_spec `{Platform} env c w :
  exists t w',
    called [c] w w'
    /\ match head (faults w) with
       | Some (Some f) =>
           store w' = store w /\ notionFetch env c w = (Throw (thrown f), w')
       | _ =>
           store w' = (serve c t (store w)).2
           /\ notionFetch env c w
              = (match (serve c t (store w)).1 with
                 | inr r => Ok r
                 | inl f => Throw (thrown f)
                 end, w')
       end.
Proof. apply waited_fetch, throttle_waits_only. Qed.

(** Whatever its outcome, a call is sent and only the store may change. *)
Lemma notionFetch_called `{Platform} env c w :
  called [c] w (notionFetch env c w).2.
Proof.
  destruct (notionFetch_spec env c w) as (t & w' & Hc & Hm).
  destruct (head (faults w)) as [[f|]|]; destruct Hm as [_ ->]; exact Hc.
Qed.

(** A call that throws leaves the store as it was. *)
Lemma notionFetch_throw `{Platform} env c w e w' :
  notionFetch env c w = (Throw e, w') -> store w' = store w.
Proof.
  destruct (notionFetch_spec env c w) as (t & w1 & Hc & Hm).
  destruct (head (faults w)) as [[f|]|]; destruct Hm as [Hst ->].
  - intros [= _ <-]. exact Hst.
  - destruct (serve c t (store w)).1 as [f|r] eqn:Hs; [|discriminate].
    intros [= _ <-]. rewrite Hst. apply (serve_error c t (store w) f Hs).
  - destruct (serve c t (store w)).1 as [f|r] eqn:Hs; [|discriminate].
    intros [= _ <-]. rewrite Hst. apply (serve_error c t (store w) f Hs).
Qed.

(** An update that the network lets through, of a page that exists. *)
Lemma updatePage_served `{Platform} env pageId props w i p :
  next_fetch_goes_through w ->
  list_find (fun p => page_id p = pageId) (rows (store w)) = Some (i, p) ->
  exists w',
    updatePage env pageId props w = (Ok (RPage (patch_page props p)), w')
    /\ called [UpdatePage pageId props] w w'
    /\ database (store w') = database (store w)
    /\ data_sources (store w') = data_sources (store w)
    /\ rows (store w') = <[i := patch_page props p]> (rows (store w)).
Proof.
  intros Hgo Hfind. unfold updatePage.
  destruct (notionFetch_spec env (UpdatePage pageId props) w) as (t & w' & Hc & Hm).
  unfold next_fetch_goes_through in Hgo.
  exists w'. cbn [serve] in Hm. rewrite Hfind in Hm. cbn [fst snd] in Hm.
  destruct (head (faults w)) as [[f|]|]; [contradiction| |];
    destruct Hm as [Hst ->]; rewrite Hst; auto.
Qed.

(** The body of the loop returns normally, whatever happens to the row. *)
Lemma main_row_returns `{Platform} env dsId page w :
  (main_row env dsId page w).1 = Ok ().
Proof.
  unfold main_row, try_catch.
  destruct ((processEvent env page dsId;; console_log _) w) as [[[]|err] w1];
    [reflexivity|].
  rewrite bind_run. cbn [console_error modify].
  destruct ((updatePage env (page_id page) (failed err);; mret ()) _) as [[[]|err2] w2];
    reflexivity.
Qed.

Lemma for_of_cons {A} (x : A) l (body : A -> M ()) w :
  (body x w).1 = Ok () ->
  for_of (x :: l) body w = for_of l body (body x w).2.
Proof.
  intros Hx. cbn [for_of]. rewrite bind_run.
  destruct (body x w) as [[[]|e] w']; [reflexivity|discriminate].
Qed.

Lemma for_of_app {A} (l1 l2 : list A) (body : A -> M ()) w :
  (forall x w, (body x w).1 = Ok ()) ->
  for_of (l1 ++ l2) body w = for_of l2 body (for_of l1 body w).2.
Proof.
  intros Hbody. revert w. induction l1 as [|x l1 IH]; intros w; [reflexivity|].
  cbn [app]. rewrite !for_of_cons by apply Hbody. apply IH.
Qed.

Lemma for_of_returns {A} (l : list A) (body : A -> M ()) w :
  (forall x w, (body x w).1 = Ok ()) ->
  (for_of l body w).1 = Ok ().
Proof.
  intros Hbody. revert w. induction l as [|x l IH]; intros w; [reflexivity|].
  rewrite for_of_cons by apply Hbody. apply IH.
Qed.

Lemma calls_grow_refl w : calls_grow w w.
Proof. exists []. rewrite app_nil_r. reflexivity. Qed.

Lemma calls_grow_trans w1 w2 w3 : calls_grow w1 w2 -> calls_grow w2 w3 -> calls_grow w1 w3.
Proof.
  intros [cs1 H1] [cs2 H2]. exists (cs1 ++ cs2). rewrite H2, H1, app_assoc. reflexivity.
Qed.

Lemma calls_grow_called cs w w' : called cs w w' -> calls_grow w w'.
Proof. intros (Hc & _). exists cs. exact Hc. Qed.

Lemma calls_grow_elem c w w' : calls_grow w w' -> c ∈ calls w -> c ∈ calls w'.
Proof. intros [cs ->] Hin. apply elem_of_app. auto. Qed.

Lemma calls_grow_notionFetch `{Platform} env c w :
  calls_grow w (notionFetch env c w).2.
Proof. eapply calls_grow_called, notionFetch_called. Qed.

(** A computation made of calls, console lines and binds only sends calls. *)
Lemma calls_grow_bind {A B} (m : M A) (f : A -> M B) w :
  calls_grow w (m w).2 ->
  (forall a w', calls_grow w' (f a w').2) ->
  calls_grow w ((m ≫= f) w).2.
Proof.
  intros Hm Hf. rewrite bind_run. destruct (m w) as [[a|e] w1]; cbn [snd] in *.
  - eapply calls_grow_trans; [exact Hm|apply Hf].
  - exact Hm.
Qed.

Lemma calls_grow_ret {A} (a : A) w : calls_grow w ((mret a : M A) w).2.
Proof. apply calls_grow_refl. Qed.

Lemma calls_grow_updatePage `{Platform} env pageId props w :
  calls_grow w ((updatePage env pageId props;; mret ()) w).2.
Proof.
  apply calls_grow_bind; [apply calls_grow_notionFetch|]. intros; apply calls_grow_ret.
Qed.

(** [processEvent] starts with the in-progress patch of its row. *)
Lemma processEvent_calls `{Platform} env page dsId w :
  exists cs,
    calls (processEvent env page dsId w).2
    = calls w ++ UpdatePage (page_id page) in_progress :: cs.
Proof.
  unfold processEvent. rewrite bind_run.
  pose proof (notionFetch_called env (UpdatePage (page_id page) in_progress) w) as (Hc & _).
  fold (updatePage env (page_id page) in_progress w) in Hc.
  destruct (updatePage env (page_id page) in_progress w) as [[r|e] w1]; cbn [snd] in *.
  - assert (Hg : forall m : M (), calls_grow w1 (m w1).2 ->
              exists cs, calls (m w1).2
                         = calls w ++ UpdatePage (page_id page) in_progress :: cs).
    { intros m [cs ->]. rewrite Hc, <- app_assoc. eauto. }
    apply Hg. clear Hg.
    destruct (truthy_string _); [|apply calls_grow_updatePage].
    apply calls_grow_bind; [apply calls_grow_notionFetch|]. intros q w2.
    destruct (1 <? _)%nat; [|apply calls_grow_updatePage].
    destruct (_ && _); apply calls_grow_updatePage.
  - exists []. exact Hc.
Qed.

Lemma calls_grow_main_row `{Platform} env dsId page w :
  exists cs,
    calls (main_row env dsId page w).2
    = calls w ++ UpdatePage (page_id page) in_progress :: cs.
Proof.
  unfold main_row, try_catch. rewrite bind_run.
  destruct (processEvent_calls env page dsId w) as [cs Hcs].
  destruct (processEvent env page dsId w) as [[[]|err] w1]; cbn [snd] in *.
  - exists cs. exact Hcs.
  - rewrite bind_run. cbn [console_error modify].
    assert (Hg : calls_grow w1
              (try_catch (updatePage env (page_id page) (failed err);; mret ())
                 (fun _ => mret ())
                 (with_console (console w1 ++ [ConsoleError (lit "Error processing "
                    ++ page_id page ++ lit ":") err]) w1)).2).
    { pose proof (calls_grow_updatePage env (page_id page) (failed err)
                    (with_console (console w1 ++ [ConsoleError (lit "Error processing "
                       ++ page_id page ++ lit ":") err]) w1)) as Hg.
      unfold try_catch.
      destruct ((updatePage env (page_id page) (failed err);; mret ()) _) as [[[]|e2] w2];
        exact Hg. }
    unfold try_catch in Hg.
    destruct Hg as [cs' ->]. rewrite Hcs, <- app_assoc. cbn [app]. eauto.
Qed.

(** The pass over a batch returns normally and starts on every row. *)
Lemma for_of_attempts `{Platform} env dsId batch : forall w,
  (for_of batch (main_row env dsId) w).1 = Ok ()
  /\ calls_grow w (for_of batch (main_row env dsId) w).2
  /\ forall page, page ∈ batch ->
       UpdatePage (page_id page) in_progress
       ∈ calls (for_of batch (main_row env dsId) w).2.
Proof.
  induction batch as [|x batch IH]; intros w.
  - split; [reflexivity|]. split; [apply calls_grow_refl|]. intros page Hin. inversion Hin.
  - rewrite for_of_cons by apply main_row_returns.
    destruct (IH (main_row env dsId x w).2) as (Hok & Hg & Hall).
    destruct (calls_grow_main_row env dsId x w) as [cs Hcs].
    split; [exact Hok|]. split.
    + eapply calls_grow_trans; [|exact Hg]. eexists; exact Hcs.
    + intros page Hin. apply elem_of_cons in Hin as [->|Hin]; [|apply Hall, Hin].
      eapply calls_grow_elem; [exact Hg|]. rewrite Hcs.
      apply elem_of_app. right. apply list_elem_of_here.
Qed.


Lemma list_find_insert_same {A} (P : A -> Prop) `{!forall x, Decision (P x)} l : forall i x y,
  list_find P l = Some (i, x) -> P y -> list_find P (<[i := y]> l) = Some (i, y).
Proof.
  induction l as [|z l IH]; intros i x y Hf Hy; [discriminate|].
  cbn [list_find] in Hf. destruct (decide (P z)) as [Hz|Hz].
  - injection Hf as <- <-. change (<[0%nat:=y]> (z :: l)) with (y :: l).
    cbn [list_find]. rewrite decide_True by exact Hy. reflexivity.
  - destruct (list_find P l) as [[j x']|] eqn:Hl; [|discriminate].
    cbn in Hf. injection Hf as <- <-.
    change (<[S j:=y]> (z :: l)) with (z :: <[j:=y]> l).
    cbn [list_find]. rewrite decide_False by exact Hz.
    rewrite (IH j x' y eq_refl Hy). reflexivity.
Qed.

Lemma find_row_Some pageId pages row :
  find_row pageId pages = Some row ->
  exists i, list_find (fun p => page_id p = pageId) pages = Some (i, row).
Proof.
  unfold find_row. destruct (list_find _ pages) as [[i p]|]; [|discriminate].
  intros [= <-]. eauto.
Qed.

Lemma find_row_id pageId pages row : find_row pageId pages = Some row -> page_id row = pageId.
Proof.
  intros Hf. apply find_row_Some in Hf as [i Hf].
  apply list_find_Some in Hf as (_ & Hp & _). exact Hp.
Qed.

Lemma patch_page_id props p : page_id (patch_page props p) = page_id p.
Proof. reflexivity. Qed.

Lemma patch_page_lookup props p k v :
  (list_to_map props : gmap jsstring PropValue) !! k = Some v ->
  properties (patch_page props p) !! k = Some v.
Proof. intros Hk. cbn [patch_page properties]. apply lookup_union_Some_l, Hk. Qed.

End WorkerFacts.


(* ===================================================================== *)
(** ** The worker: a failing row *)
(* ===================================================================== *)

Module WorkerFailureProps.
Import JS Model Worker Spec WorkerSpec JSFacts WorldFacts WorkerFacts.

(** What [main_row] does with a row whose processing throws. *)
Lemma main_row_caught `{Platform} env dsId page w0 err :
  (processEvent env page dsId w0).1 = Throw err ->
  let w1 := (processEvent env page dsId w0).2 in
  let logged := with_console (console w1 ++ [ConsoleError (error_line page) err]) w1 in
  main_row env dsId page w0
  = (Ok (), (updatePage env (page_id page) (failed err) logged).2).
Proof.
  intros Herr w1 logged. unfold main_row, try_catch. rewrite bind_run.
  destruct (processEvent env page dsId w0) as [[[]|err'] w1'] eqn:Hp;
    cbn [fst] in Herr; [discriminate|]. injection Herr as ->.
  rewrite bind_run. cbn [console_error modify].
  subst w1 logged. cbn [snd]. unfold error_line.
  rewrite bind_run.
  destruct (updatePage env (page_id page) (failed err) _) as [[r|err2] w2]; reflexivity.
Qed.

(** [main] is the loop over the rows its query returns. *)
Lemma main_loop `{Platform} env DB_ID dsId q start w' w'' :
  getDataSourceId env DB_ID start = (Ok dsId, w') ->
  queryNewEvents env dsId 25 w' = (Ok q, w'') ->
  main env DB_ID start
  = for_of (results_of q) (main_row env dsId)
      (console_log (lit "Found " ++ lit (pretty (length (results_of q)))
                    ++ lit " new events") w'').2.
Proof.
  intros Hds Hq. unfold main. rewrite bind_run, Hds. rewrite bind_run, Hq.
  rewrite bind_run. reflexivity.
Qed.

(** C6, as the code has it. When processing a row of a batch throws, the loop
    body catches it: it logs the error and sends a patch of that row with
    status [Error], the review flag set and, as its log, the line
    [Worker: error: ] followed by at most 500 characters of the message. When
    the store takes the patch the row holds these values: the line is the
    whole log, whatever the row held before. The pass goes on with the rows
    that follow, returns normally and has started on every row of the batch;
    and the pass is what [main] runs on the rows its query returns. *)
Theorem failing_row_is_marked_and_skipped `{Platform} (env : Env) (dsId : jsstring)
    (pre : list Page) (page : Page) (post : list Page) (w : World) (err : exn) :
  let w0 := (for_of pre (main_row env dsId) w).2 in
  let w1 := (processEvent env page dsId w0).2 in
  let w2 := (main_row env dsId page w0).2 in
  let pass := for_of (pre ++ page :: post) (main_row env dsId) w in
  let message := slice_to 500 (String_exn err) in
  (processEvent env page dsId w0).1 = Throw err ->
  (main_row env dsId page w0).1 = Ok ()
  /\ console w2 = console w1 ++ [ConsoleError (error_line page) err]
  /\ calls w2 = calls w1 ++ [UpdatePage (page_id page) (failed err)]
  /\ failed err
     = [ (lit "Status", PSelect (lit "Error"));
         (lit "Needs human review", PCheckbox true);
         (lit "Scipio log", PRichText [lit "Worker: error: " ++ message]) ]
  /\ (length message <= 500)%nat
  /\ (next_fetch_goes_through w1 ->
      forall row, find_row (page_id page) (rows (store w1)) = Some row ->
      exists row',
        find_row (page_id page) (rows (store w2)) = Some row'
        /\ status_of row' = Some (PSelect (lit "Error"))
        /\ review_flag_of row' = Some (PCheckbox true)
        /\ log_of row' = Some (PRichText [lit "Worker: error: " ++ message]))
  /\ pass = for_of post (main_row env dsId) w2
  /\ pass.1 = Ok ()
  /\ (forall q, q ∈ pre ++ page :: post ->
        UpdatePage (page_id q) in_progress ∈ calls pass.2)
  /\ (forall DB_ID start w' w'' q,
        getDataSourceId env DB_ID start = (Ok dsId, w') ->
        queryNewEvents env dsId 25 w' = (Ok q, w'') ->
        results_of q = pre ++ page :: post ->
        w = (console_log (lit "Found " ++ lit (pretty (length (results_of q)))
                          ++ lit " new events") w'').2 ->
        main env DB_ID start = pass).
Proof.
  intros w0 w1 w2 pass message Herr.
  pose proof (main_row_caught env dsId page w0 err Herr) as Hrow.
  cbv zeta in Hrow. fold w1 in Hrow.
  set (logged := with_console (console w1 ++ [ConsoleError (error_line page) err]) w1) in *.
  assert (Hw2 : w2 = (updatePage env (page_id page) (failed err) logged).2)
    by (subst w2; rewrite Hrow; reflexivity).
  pose proof (notionFetch_called env (UpdatePage (page_id page) (failed err)) logged)
    as (Hcalls & _ & Hconsole & _).
  fold (updatePage env (page_id page) (failed err) logged) in Hcalls, Hconsole.
  split; [apply main_row_returns|].
  split; [rewrite Hw2; exact Hconsole|].
  split; [rewrite Hw2; exact Hcalls|].
  split; [reflexivity|].
  split; [subst message; unfold slice_to; rewrite length_take; lia|].
  split; [|split; [|split; [|split]]].
  - intros Hgo row Hrow1.
    destruct (find_row_Some _ _ _ Hrow1) as [i Hfind].
    destruct (updatePage_served env (page_id page) (failed err) logged i row Hgo Hfind)
      as (w' & Hrun & _ & _ & _ & Hrows).
    rewrite Hw2, Hrun. cbn [snd]. rewrite Hrows.
    exists (patch_page (failed err) row). split.
    + unfold find_row. cbn [store logged with_console].
      rewrite (list_find_insert_same _ _ i row (patch_page (failed err) row) Hfind);
        [reflexivity|].
      rewrite patch_page_id. apply (find_row_id _ _ _ Hrow1).
    + unfold status_of, review_flag_of, log_of, failed.
      repeat split; apply patch_page_lookup; lookup_props; reflexivity.
  - subst pass. rewrite for_of_app by (intros; apply main_row_returns).
    fold w0. rewrite for_of_cons by apply main_row_returns. reflexivity.
  - apply for_of_returns. intros; apply main_row_returns.
  - apply for_of_attempts.
  - intros DB_ID start w' w'' q Hds Hq Hres ->.
    rewrite (main_loop env DB_ID dsId q start w' w'' Hds Hq). subst pass.
    rewrite Hres. reflexivity.
Qed.

(** C6 does not hold as stated: the failure message is not appended to the
    log of the row. In a run of [main] on five rows where the first patch of
    the third fails, the third row ends with the error line as its whole log:
    the text it held before is gone. *)
Lemma error_line_replaces_the_log :
  let batch :=
    [ Examples.queued "p1" "2025-01-01T00:00:01.000Z" "evt_1";
      Examples.queued "p2" "2025-01-01T00:00:02.000Z" "evt_2";
      Examples.queued "p3" "2025-01-01T00:00:03.000Z" "evt_3";
      Examples.queued "p4" "2025-01-01T00:00:04.000Z" "evt_4";
      Examples.queued "p5" "2025-01-01T00:00:05.000Z" "evt_5" ] in
  let w :=
    Examples.world_of batch (replicate 8 None ++ [Some (HttpError 500 (lit "boom"))]) [] in
  let run := @main Examples.platform Examples.env (lit "db1") w in
  let before := lit "Aqueduct: queued event" in
  let line := lit "Worker: error: Error: Notion API error 500: boom" in
  log_of <$> find_row (lit "p3") (rows (store w)) = Some (Some (PRichText [before]))
  /\ run.1 = Ok ()
  /\ status_of <$> find_row (lit "p3") (rows (store run.2))
     = Some (Some (PSelect (lit "Error")))
  /\ log_of <$> find_row (lit "p3") (rows (store run.2)) = Some (Some (PRichText [line]))
  /\ take (length before) line <> before.
Proof.
  cbn zeta. split; [vm_compute; reflexivity|]. split; [vm_compute; reflexivity|].
  split; [vm_compute; reflexivity|]. split; [vm_compute; reflexivity|].
  vm_compute. discriminate.
Qed.

(** When the network fails the error patch, [updatePage] throws. *)
Lemma updatePage_fault `{Platform} env pageId props w f :
  head (faults w) = Some (Some f) ->
  (updatePage env pageId props w).1 = Throw (thrown f).
Proof.
  intros Hf. unfold updatePage.
  destruct (notionFetch_spec env (UpdatePage pageId props) w) as (t & w' & _ & Hm).
  rewrite Hf in Hm. destruct Hm as [_ ->]. reflexivity.
Qed.

(** C10. When, after a row's processing failed, the patch to [Error] fails
    too, that failure is dropped: the loop body returns normally, the store is
    as the failed processing left it (so the row keeps the status it had
    reached), the console holds the first error only, and the pass goes on
    with the next rows. *)
Theorem failed_error_patch_is_swallowed `{Platform} (env : Env) (dsId : jsstring)
    (page : Page) (post : list Page) (w0 : World) (err err2 : exn) :
  let w1 := (processEvent env page dsId w0).2 in
  let logged := with_console (console w1 ++ [ConsoleError (error_line page) err]) w1 in
  let w2 := (main_row env dsId page w0).2 in
  let pass := for_of (page :: post) (main_row env dsId) w0 in
  (processEvent env page dsId w0).1 = Throw err ->
  (updatePage env (page_id page) (failed err) logged).1 = Throw err2 ->
  (main_row env dsId page w0).1 = Ok ()
  /\ store w2 = store w1
  /\ console w2 = console w1 ++ [ConsoleError (error_line page) err]
  /\ pass = for_of post (main_row env dsId) w2
  /\ pass.1 = Ok ()
  /\ (forall q, q ∈ post -> UpdatePage (page_id q) in_progress ∈ calls pass.2).
Proof.
  intros w1 logged w2 pass Herr Herr2.
  pose proof (main_row_caught env dsId page w0 err Herr) as Hrow.
  cbv zeta in Hrow. fold w1 in Hrow. fold logged in Hrow.
  assert (Hw2 : w2 = (updatePage env (page_id page) (failed err) logged).2)
    by (subst w2; rewrite Hrow; reflexivity).
  pose proof (notionFetch_called env (UpdatePage (page_id page) (failed err)) logged)
    as (_ & _ & Hconsole & _).
  fold (updatePage env (page_id page) (failed err) logged) in Hconsole.
  split; [apply main_row_returns|].
  split; [|split; [rewrite Hw2; exact Hconsole|split; [|split]]].
  - rewrite Hw2. unfold updatePage in *.
    destruct (notionFetch env (UpdatePage (page_id page) (failed err)) logged)
      as [[r|e] w'] eqn:Hrun; [discriminate|].
    cbn [snd]. apply (notionFetch_throw _ _ _ _ _ Hrun).
  - subst pass. rewrite for_of_cons by apply main_row_returns. reflexivity.
  - apply for_of_returns. intros; apply main_row_returns.
  - intros q Hq. apply for_of_attempts. apply elem_of_cons. auto.
Qed.


(** C6, as the code has it, at a run of [main] on five rows where the first
    patch of the third fails. *)
Lemma failing_row_is_marked_and_skipped_witness :
  let batch :=
    [ Examples.queued "p1" "2025-01-01T00:00:01.000Z" "evt_1";
      Examples.queued "p2" "2025-01-01T00:00:02.000Z" "evt_2";
      Examples.queued "p3" "2025-01-01T00:00:03.000Z" "evt_3";
      Examples.queued "p4" "2025-01-01T00:00:04.000Z" "evt_4";
      Examples.queued "p5" "2025-01-01T00:00:05.000Z" "evt_5" ] in
  let start :=
    Examples.world_of batch (replicate 8 None ++ [Some (HttpError 500 (lit "boom"))]) [] in
  let w' := (@getDataSourceId Examples.platform Examples.env (lit "db1") start).2 in
  let w'' := (@queryNewEvents Examples.platform Examples.env (lit "ds1") 25 w').2 in
  let w := (console_log (lit "Found 5 new events") w'').2 in
  let body := @main_row Examples.platform Examples.env (lit "ds1") in
  let page := Examples.queued "p3" "2025-01-01T00:00:03.000Z" "evt_3" in
  let w0 := (for_of (take 2 batch) body w).2 in
  let pass := for_of batch body w in
  (@processEvent Examples.platform Examples.env page (lit "ds1") w0).1
  = Throw (Error (lit "Notion API error 500: boom"))
  /\ (exists row',
        find_row (lit "p3") (rows (store (body page w0).2)) = Some row'
        /\ status_of row' = Some (PSelect (lit "Error"))
        /\ log_of row'
           = Some (PRichText [lit "Worker: error: Error: Notion API error 500: boom"]))
  /\ @main Examples.platform Examples.env (lit "db1") start = pass
  /\ pass.1 = Ok ()
  /\ (forall q, q ∈ batch -> UpdatePage (page_id q) in_progress ∈ calls pass.2).
Proof.
  intros batch start w' w'' w body page w0 pass.
  assert (Herr : (@processEvent Examples.platform Examples.env page (lit "ds1") w0).1
                 = Throw (Error (lit "Notion API error 500: boom")))
    by (vm_compute; reflexivity).
  split; [exact Herr|].
  destruct (@failing_row_is_marked_and_skipped Examples.platform Examples.env (lit "ds1")
              (take 2 batch) page (drop 3 batch) w _ Herr)
    as (_ & _ & _ & _ & _ & Hrow & _ & Hok & Hall & Hmain).
  split; [|split; [|split; [exact Hok | exact Hall]]].
  - destruct (Hrow ltac:(vm_compute; exact I) page ltac:(vm_compute; reflexivity))
      as (row' & Hf & Hs & _ & Hl).
    exists row'. split; [exact Hf|]. split; [exact Hs|]. exact Hl.
  - apply (Hmain (lit "db1") start w' w'' (RResults batch)).
    + vm_compute. reflexivity.
    + vm_compute. reflexivity.
    + reflexivity.
    + reflexivity.
Defined.

(** The batch of five rows of which the third fails: the others reach
    [Needs human review], the third [Error]. *)
Example batch_of_five_with_a_failing_row :
  let batch :=
    [ Examples.queued "p1" "2025-01-01T00:00:01.000Z" "evt_1";
      Examples.queued "p2" "2025-01-01T00:00:02.000Z" "evt_2";
      Examples.queued "p3" "2025-01-01T00:00:03.000Z" "evt_3";
      Examples.queued "p4" "2025-01-01T00:00:04.000Z" "evt_4";
      Examples.queued "p5" "2025-01-01T00:00:05.000Z" "evt_5" ] in
  let w :=
    Examples.world_of batch (replicate 8 None ++ [Some (HttpError 500 (lit "boom"))]) [] in
  let run := @main Examples.platform Examples.env (lit "db1") w in
  run.1 = Ok ()
  /\ status_of <$> rows (store run.2)
     = [ Some (PSelect (lit "Needs human review"));
         Some (PSelect (lit "Needs human review"));
         Some (PSelect (lit "Error"));
         Some (PSelect (lit "Needs human review"));
         Some (PSelect (lit "Needs human review")) ].
Proof. vm_compute. split; reflexivity. Qed.

(** C10 at a row whose dedup query and error patch both fail: it stays
    [In Progress]. *)
Lemma failed_error_patch_is_swallowed_witness :
  let page := Examples.queued "p1" "2025-01-01T00:00:01.000Z" "evt_1" in
  let w0 :=
    Examples.world_of [page]
      [ None; Some (HttpError 502 (lit "upstream down"));
        Some (HttpError 503 (lit "unavailable")) ] [] in
  let err := Error (lit "Notion API error 502: upstream down") in
  let err2 := Error (lit "Notion API error 503: unavailable") in
  let w1 := (@processEvent Examples.platform Examples.env page (lit "ds1") w0).2 in
  let logged := with_console (console w1 ++ [ConsoleError (error_line page) err]) w1 in
  let w2 := (@main_row Examples.platform Examples.env (lit "ds1") page w0).2 in
  (@processEvent Examples.platform Examples.env page (lit "ds1") w0).1 = Throw err
  /\ (@updatePage Examples.platform Examples.env (page_id page) (failed err) logged).1
     = Throw err2
  /\ (@main_row Examples.platform Examples.env (lit "ds1") page w0).1 = Ok ()
  /\ status_of <$> rows (store w2) = [Some (PSelect (lit "In Progress"))]
  /\ console w2 = [ConsoleError (error_line page) err].
Proof.
  intros page w0 err err2 w1 logged w2.
  assert (Herr : (@processEvent Examples.platform Examples.env page (lit "ds1") w0).1
                 = Throw err) by (vm_compute; reflexivity).
  assert (Herr2 : (@updatePage Examples.platform Examples.env (page_id page) (failed err)
                     logged).1 = Throw err2) by (vm_compute; reflexivity).
  split; [exact Herr|]. split; [exact Herr2|].
  destruct (@failed_error_patch_is_swallowed Examples.platform Examples.env (lit "ds1")
              page [] w0 err err2 Herr Herr2) as (Hok & Hst & Hcon & _).
  split; [exact Hok|]. fold w2 in Hst, Hcon. fold w1 in Hst, Hcon.
  rewrite Hst, Hcon. split; vm_compute; reflexivity.
Defined.

End WorkerFailureProps.

(* ===================================================================== *)
(** ** The worker: the dedup pass *)
(* ===================================================================== *)

Module WorkerDedupFacts.
Import JS Model Worker Spec WorkerSpec JSFacts OrderFacts WorldFacts WorkerFacts.

Lemma same_keys_refl l : same_keys l l.
Proof. apply Forall2_same_length_lookup_2; [reflexivity|]. intros i x y H1 H2. congruence. Qed.

Lemma same_keys_trans l1 l2 l3 : same_keys l1 l2 -> same_keys l2 l3 -> same_keys l1 l3.
Proof.
  unfold same_keys. intros H12. revert l3.
  induction H12 as [|a b l1 l2 Hab _ IH]; intros l3 H23; inversion H23; subst; constructor.
  - congruence.
  - apply IH. assumption.
Qed.

Lemma same_keys_ids l l' : same_keys l l' -> page_id <$> l = page_id <$> l'.
Proof.
  induction 1 as [|a b l l' Hab _ IH]; [reflexivity|].
  cbn. f_equal; [|exact IH]. unfold key in Hab. congruence.
Qed.

Lemma filter_same_keys (f : Page -> bool) l l' :
  (forall a b, key a = key b -> f a = f b) ->
  same_keys l l' -> same_keys (List.filter f l) (List.filter f l').
Proof.
  intros Hf. induction 1 as [|a b l l' Hab _ IH]; [constructor|].
  cbn. rewrite (Hf a b Hab). destruct (f b); [constructor; assumption|exact IH].
Qed.

Lemma by_created_time_key a a' b b' :
  key a = key a' -> key b = key b' -> by_created_time a b = by_created_time a' b'.
Proof. unfold key, by_created_time. intros [= _ -> _] [= _ -> _]. reflexivity. Qed.

Lemma sort_insert_same_keys x x' l l' :
  key x = key x' -> same_keys l l' ->
  same_keys (sort_insert by_created_time x l) (sort_insert by_created_time x' l').
Proof.
  intros Hx. induction 1 as [|a b l l' Hab Hl IH]; [repeat constructor; exact Hx|].
  cbn. rewrite (by_created_time_key x x' a b Hx Hab).
  destruct (by_created_time x' b); repeat constructor; assumption.
Qed.

Lemma sort_same_keys l l' :
  same_keys l l' -> same_keys (sort by_created_time l) (sort by_created_time l').
Proof.
  induction 1 as [|a b l l' Hab _ IH]; [constructor|].
  cbn [sort foldr]. apply sort_insert_same_keys; assumption.
Qed.

Lemma page_matches_key f a b :
  (forall p q, properties p !! lit "Event ID" = properties q !! lit "Event ID" ->
               page_matches f p = page_matches f q) ->
  key a = key b -> page_matches f a = page_matches f b.
Proof. intros Hf [= _ _ Hp]. apply Hf, Hp. Qed.

Lemma dedup_rows_same_keys e l l' :
  same_keys l l' -> same_keys (dedup_rows e l) (dedup_rows e l').
Proof.
  intros Hl. unfold dedup_rows, run_query. apply Forall2_take, filter_same_keys; [|exact Hl].
  intros a b [= _ _ Hp]. cbn [page_matches]. rewrite Hp. reflexivity.
Qed.

Lemma verdict_same_keys l l' page : same_keys l l' -> verdict l page = verdict l' page.
Proof.
  intros Hl. unfold verdict.
  pose proof (dedup_rows_same_keys (getRichText page (lit "Event ID")) l l' Hl) as Hd.
  rewrite (Forall2_length _ _ _ Hd).
  pose proof (sort_same_keys _ _ Hd) as Hs.
  assert (Hh : page_id <$> head (sort by_created_time
                 (dedup_rows (getRichText page (lit "Event ID")) l))
             = page_id <$> head (sort by_created_time
                 (dedup_rows (getRichText page (lit "Event ID")) l'))).
  { destruct Hs as [|a b ? ? Hab _]; [reflexivity|]. cbn. unfold key in Hab. congruence. }
  rewrite Hh. reflexivity.
Qed.

(** The patches of the worker leave the key of a page alone. *)
Lemma patch_page_key props p :
  (list_to_map props : gmap jsstring PropValue) !! lit "Event ID" = None ->
  key (patch_page props p) = key p.
Proof.
  intros Hk. unfold key. cbn [patch_page page_id created_time properties].
  rewrite lookup_union_r by exact Hk. reflexivity.
Qed.

Lemma in_progress_key p : key (patch_page in_progress p) = key p.
Proof. apply patch_page_key. unfold in_progress. lookup_props. reflexivity. Qed.

Lemma deduped_key keeper e p : key (patch_page (deduped keeper e) p) = key p.
Proof. apply patch_page_key. unfold deduped. lookup_props. reflexivity. Qed.

Lemma needs_review_key t p : key (patch_page (needs_review t) p) = key p.
Proof. apply patch_page_key. unfold needs_review. lookup_props. reflexivity. Qed.

Lemma verdict_key l page p : key (patch_page (verdict l page) p) = key p.
Proof. unfold verdict. destruct (_ && _); [apply deduped_key | apply needs_review_key]. Qed.

Lemma insert_same_keys l i p p' :
  l !! i = Some p -> key p' = key p -> same_keys l (<[i := p']> l).
Proof.
  intros Hi Hk. rewrite <- (list_insert_id l i p Hi) at 1.
  apply Forall2_insert; [apply same_keys_refl | congruence].
Qed.

(** Updating one page does not change which page another id finds. *)
Lemma list_find_insert_other {A} (P : A -> Prop) `{!forall x, Decision (P x)} l : forall i x y,
  l !! i = Some x -> ~ P x -> ~ P y -> list_find P (<[i := y]> l) = list_find P l.
Proof.
  induction l as [|z l IH]; intros i x y Hi Hx Hy; [discriminate|].
  destruct i as [|i].
  - injection Hi as ->. change (<[0%nat:=y]> (x :: l)) with (y :: l).
    cbn [list_find]. rewrite !decide_False by assumption. reflexivity.
  - change (<[S i:=y]> (z :: l)) with (z :: <[i:=y]> l).
    cbn [list_find]. rewrite (IH i x y Hi Hx Hy). reflexivity.
Qed.

Lemma find_row_insert_other pages i row row' pageId :
  pages !! i = Some row -> page_id row' = page_id row -> page_id row <> pageId ->
  find_row pageId (<[i := row']> pages) = find_row pageId pages.
Proof.
  intros Hi Hid Hne. unfold find_row.
  rewrite (list_find_insert_other _ pages i row row' Hi); [reflexivity|exact Hne|].
  rewrite Hid. exact Hne.
Qed.

Lemma find_row_insert_same pages i row row' :
  list_find (fun p => page_id p = page_id row) pages = Some (i, row) ->
  page_id row' = page_id row ->
  find_row (page_id row) (<[i := row']> pages) = Some row'.
Proof.
  intros Hf Hid. unfold find_row.
  rewrite (list_find_insert_same _ pages i row row' Hf Hid). reflexivity.
Qed.

Lemma no_faults_go w : no_faults w -> next_fetch_goes_through w.
Proof.
  intros Hn. unfold next_fetch_goes_through.
  destruct (no_faults_head w Hn) as [-> | ->]; exact I.
Qed.

Lemma query_served `{Platform} env ds n f sorted w :
  head (data_sources (store w)) = Some ds ->
  next_fetch_goes_through w ->
  exists w',
    notionFetch env (QueryDataSource ds n f sorted) w
    = (Ok (RResults (run_query n f sorted (rows (store w)))), w')
    /\ store w' = store w
    /\ called [QueryDataSource ds n f sorted] w w'.
Proof.
  intros Hds Hgo.
  destruct (notionFetch_spec env (QueryDataSource ds n f sorted) w) as (t & w' & Hc & Hm).
  unfold next_fetch_goes_through in Hgo. exists w'.
  cbn [serve] in Hm. rewrite bool_decide_eq_true_2 in Hm by exact Hds. cbn [fst snd] in Hm.
  destruct (head (faults w)) as [[f'|]|]; [contradiction| |]; destruct Hm as [Hst ->]; auto.
Qed.

Lemma getDataSourceId_ok `{Platform} env w DB_ID ds :
  queue_up w DB_ID ds ->
  exists w',
    getDataSourceId env DB_ID w = (Ok ds, w')
    /\ store w' = store w /\ called [GetDatabase DB_ID] w w'.
Proof.
  intros (Hdb & Hds & Hne & Hnf). unfold getDataSourceId. rewrite bind_run.
  destruct (notionFetch_spec env (GetDatabase DB_ID) w) as (t & w' & Hc & Hm).
  cbn [serve] in Hm. rewrite bool_decide_eq_true_2 in Hm by (symmetry; exact Hdb).
  cbn [fst snd] in Hm.
  assert (Hrun : notionFetch env (GetDatabase DB_ID) w
                 = (Ok (RDatabase (data_sources (store w))), w') /\ store w' = store w).
  { destruct (no_faults_head w Hnf) as [Hh|Hh]; rewrite Hh in Hm; destruct Hm; auto. }
  destruct Hrun as [-> Hst].
  destruct (data_sources (store w)) as [|ds' dss]; [discriminate|].
  injection Hds as ->. rewrite (truthy_string_ne ds Hne). exists w'. auto.
Qed.


(** [processEvent] when the network is up, on the row [row] of its page. *)
Lemma processEvent_ok `{Platform} env page ds w i row :
  head (data_sources (store w)) = Some ds ->
  no_faults w ->
  list_find (fun p => page_id p = page_id page) (rows (store w)) = Some (i, row) ->
  let rows1 := <[i := patch_page in_progress row]> (rows (store w)) in
  exists w' cs,
    processEvent env page ds w = (Ok (), w')
    /\ called cs w w'
    /\ database (store w') = database (store w)
    /\ data_sources (store w') = data_sources (store w)
    /\ rows (store w')
       = <[i := patch_page (verdict rows1 page) (patch_page in_progress row)]>
           (rows (store w)).
Proof.
  intros Hds Hnf Hfind rows1.
  assert (Hid : page_id row = page_id page)
    by (apply list_find_Some in Hfind as (_ & Hp & _); exact Hp).
  unfold processEvent.
  destruct (updatePage_served env (page_id page) in_progress w i row
              (no_faults_go w Hnf) Hfind) as (w1 & Hrun1 & Hc1 & Hdb1 & Hds1 & Hrows1).
  rewrite (bind_ok _ _ _ _ _ Hrun1). fold rows1 in Hrows1.
  assert (Hnf1 : no_faults w1) by (eapply no_faults_called; eassumption).
  assert (Hfind1 : list_find (fun p => page_id p = page_id page) rows1
                   = Some (i, patch_page in_progress row)).
  { apply (list_find_insert_same _ _ i row); [exact Hfind|exact Hid]. }
  (* the last patch, whichever it is *)
  assert (Hlast : forall props w2 cs2,
            called cs2 w w2 -> no_faults w2 -> store w2 = store w1 ->
            exists w' cs,
              (updatePage env (page_id page) props;; mret ()) w2 = (Ok (), w')
              /\ called cs w w'
              /\ database (store w') = database (store w)
              /\ data_sources (store w') = data_sources (store w)
              /\ rows (store w')
                 = <[i := patch_page props (patch_page in_progress row)]> (rows (store w))).
  { intros props w2 cs2 Hc2 Hnf2 Hst2.
    assert (Hfind2 : list_find (fun p => page_id p = page_id page) (rows (store w2))
                     = Some (i, patch_page in_progress row))
      by (rewrite Hst2, Hrows1; exact Hfind1).
    destruct (updatePage_served env (page_id page) props w2 i _
                (no_faults_go w2 Hnf2) Hfind2) as (w3 & Hrun3 & Hc3 & Hdb3 & Hds3 & Hrows3).
    rewrite (bind_ok _ _ _ _ _ Hrun3). exists w3, (cs2 ++ [UpdatePage (page_id page) props]).
    split; [reflexivity|]. split; [eapply called_trans; eassumption|].
    rewrite Hdb3, Hds3, Hrows3, Hst2, Hdb1, Hds1, Hrows1.
    repeat split; try reflexivity. apply list_insert_insert_eq. }
  unfold verdict. fold (event_type page).
  destruct (truthy_string (getRichText page (lit "Event ID"))) eqn:He; cbn [andb].
  - assert (Hds1' : head (data_sources (store w1)) = Some ds) by (rewrite Hds1; exact Hds).
    destruct (query_served env ds 10
                (RichTextEquals (lit "Event ID") (getRichText page (lit "Event ID"))) false
                w1 Hds1' (no_faults_go w1 Hnf1)) as (w2 & Hrun2 & Hst2 & Hc2).
    unfold findByEventId. rewrite (bind_ok _ _ _ _ _ Hrun2). cbn [results_of].
    rewrite Hrows1. fold (dedup_rows (getRichText page (lit "Event ID")) rows1).
    assert (Hc02 : called ([UpdatePage (page_id page) in_progress]
                           ++ [QueryDataSource ds 10 (RichTextEquals (lit "Event ID")
                                 (getRichText page (lit "Event ID"))) false]) w w2)
      by (eapply called_trans; eassumption).
    assert (Hnf2 : no_faults w2) by (eapply no_faults_called; eassumption).
    destruct (1 <? length (dedup_rows (getRichText page (lit "Event ID")) rows1))%nat;
      cbn [andb]; [|exact (Hlast _ w2 _ Hc02 Hnf2 Hst2)].
    destruct (truthy_string _ && negb _); exact (Hlast _ w2 _ Hc02 Hnf2 Hst2).
  - exact (Hlast _ w1 _ Hc1 Hnf1 eq_refl).
Qed.


Lemma main_row_ok `{Platform} env page ds w i row :
  head (data_sources (store w)) = Some ds ->
  no_faults w ->
  list_find (fun p => page_id p = page_id page) (rows (store w)) = Some (i, row) ->
  let rows1 := <[i := patch_page in_progress row]> (rows (store w)) in
  exists w',
    main_row env ds page w = (Ok (), w')
    /\ no_faults w'
    /\ database (store w') = database (store w)
    /\ data_sources (store w') = data_sources (store w)
    /\ rows (store w')
       = <[i := patch_page (verdict rows1 page) (patch_page in_progress row)]>
           (rows (store w)).
Proof.
  intros Hds Hnf Hfind rows1.
  destruct (processEvent_ok env page ds w i row Hds Hnf Hfind)
    as (w1 & cs & Hrun & Hc & Hdb & Hdss & Hrows).
  unfold main_row, try_catch. rewrite (bind_ok _ _ _ _ _ Hrun).
  cbn [console_log modify]. eexists. split; [reflexivity|].
  cbn [store with_console]. split; [|auto].
  pose proof (no_faults_called cs w w1 Hc Hnf) as Hnf1. exact Hnf1.
Qed.

(** One pass over a batch of pages of the store, the network being up: every
    row of the batch ends with the in-progress patch and its verdict applied,
    the verdict being the one of the store as the pass found it; the other rows
    are as they were. *)
Lemma for_of_pass `{Platform} env ds batch : forall w,
  head (data_sources (store w)) = Some ds ->
  no_faults w ->
  NoDup (page_id <$> batch) ->
  (forall page, page ∈ batch -> is_Some (find_row (page_id page) (rows (store w)))) ->
  exists w',
    for_of batch (main_row env ds) w = (Ok (), w')
    /\ no_faults w'
    /\ same_keys (rows (store w)) (rows (store w'))
    /\ (forall page row,
          page ∈ batch ->
          find_row (page_id page) (rows (store w)) = Some row ->
          find_row (page_id page) (rows (store w'))
          = Some (patch_page (verdict (rows (store w)) page) (patch_page in_progress row)))
    /\ (forall pageId,
          pageId ∉ page_id <$> batch ->
          find_row pageId (rows (store w')) = find_row pageId (rows (store w))).
Proof.
  induction batch as [|page batch IH]; intros w Hds Hnf Hnd Hall.
  - exists w. split; [reflexivity|]. split; [exact Hnf|]. split; [apply same_keys_refl|].
    split; [intros page row Hin; inversion Hin | reflexivity].
  - apply NoDup_cons in Hnd as [Hnotin Hnd].
    destruct (Hall page ltac:(left)) as [row Hrow].
    destruct (find_row_Some _ _ _ Hrow) as [i Hfind].
    assert (Hi : rows (store w) !! i = Some row)
      by (apply list_find_Some in Hfind as (Hi & _); exact Hi).
    assert (Hid : page_id row = page_id page) by apply (find_row_id _ _ _ Hrow).
    destruct (main_row_ok env page ds w i row Hds Hnf Hfind)
      as (w1 & Hrun1 & Hnf1 & Hdb1 & Hds1 & Hrows1).
    set (rows1 := <[i := patch_page in_progress row]> (rows (store w))) in *.
    assert (Hk1 : same_keys (rows (store w)) rows1)
      by (apply (insert_same_keys _ i row); [exact Hi | apply in_progress_key]).
    rewrite <- (verdict_same_keys _ _ page Hk1) in Hrows1.
    set (final := patch_page (verdict (rows (store w)) page) (patch_page in_progress row))
      in *.
    assert (Hkf : key final = key row)
      by (subst final; rewrite verdict_key; apply in_progress_key).
    assert (Hk : same_keys (rows (store w)) (rows (store w1)))
      by (rewrite Hrows1; apply (insert_same_keys _ i row); [exact Hi | exact Hkf]).
    assert (Hother : forall pageId, pageId <> page_id page ->
              find_row pageId (rows (store w1)) = find_row pageId (rows (store w))).
    { intros pageId Hne. rewrite Hrows1.
      apply (find_row_insert_other _ i row); [exact Hi|reflexivity|congruence]. }
    assert (Hself : find_row (page_id page) (rows (store w1)) = Some final).
    { rewrite Hrows1, <- Hid. apply find_row_insert_same; [|reflexivity].
      rewrite Hid. exact Hfind. }
    destruct (IH w1) as (w' & Hrun & Hnf' & Hk' & Hin' & Hout').
    + rewrite Hds1. exact Hds.
    + exact Hnf1.
    + exact Hnd.
    + intros q Hq. rewrite Hother; [apply Hall; right; exact Hq|].
      intros Heq. apply Hnotin. rewrite <- Heq. apply list_elem_of_fmap_2, Hq.
    + exists w'. rewrite for_of_cons by (rewrite Hrun1; reflexivity).
      rewrite Hrun1. cbn [snd]. split; [exact Hrun|]. split; [exact Hnf'|].
      split; [eapply same_keys_trans; eassumption|]. split.
      * intros q rowq Hq Hrowq. apply elem_of_cons in Hq as [->|Hq].
        -- rewrite Hout' by exact Hnotin. rewrite Hself.
           assert (rowq = row) as -> by congruence. reflexivity.
        -- assert (Hne : page_id q <> page_id page).
           { intros Heq. apply Hnotin. rewrite <- Heq. apply list_elem_of_fmap_2, Hq. }
           rewrite (Hin' q rowq Hq) by (rewrite Hother by exact Hne; exact Hrowq).
           rewrite (verdict_same_keys _ _ q Hk). reflexivity.
      * intros pageId Hnot. rewrite fmap_cons in Hnot.
        apply not_elem_of_cons in Hnot as [Hne Hnot].
        rewrite Hout' by exact Hnot. apply Hother, Hne.
Qed.


Lemma filter_sublist {A} (f : A -> bool) l : List.filter f l `sublist_of` l.
Proof.
  induction l as [|x l IH]; [constructor|]. cbn.
  destruct (f x); [apply sublist_skip | apply sublist_cons]; exact IH.
Qed.

Lemma run_query_submseteq n f sorted l : run_query n f sorted l ⊆+ l.
Proof.
  unfold run_query. etransitivity; [apply submseteq_take|].
  destruct sorted.
  - rewrite sort_perm. apply sublist_submseteq, filter_sublist.
  - apply sublist_submseteq, filter_sublist.
Qed.

Lemma submseteq_NoDup_fmap {A B} (f : A -> B) (l k : list A) :
  l ⊆+ k -> NoDup (f <$> k) -> NoDup (f <$> l).
Proof.
  intros Hsub Hnd.
  apply (fmap_submseteq f) in Hsub. apply submseteq_Permutation in Hsub as [rest Hperm].
  rewrite Hperm in Hnd. apply NoDup_app in Hnd as [Hnd _]. exact Hnd.
Qed.

Lemma find_row_self l : forall p,
  NoDup (page_id <$> l) -> p ∈ l -> find_row (page_id p) l = Some p.
Proof.
  induction l as [|x l IH]; intros p Hnd Hin; [inversion Hin|].
  rewrite fmap_cons in Hnd. apply NoDup_cons in Hnd as [Hx Hnd].
  unfold find_row. cbn [list_find].
  destruct (decide (page_id x = page_id p)) as [Heq|Hne].
  - apply elem_of_cons in Hin as [->|Hin]; [reflexivity|].
    exfalso. apply Hx. rewrite Heq. apply list_elem_of_fmap_2, Hin.
  - apply elem_of_cons in Hin as [->|Hin]; [congruence|].
    specialize (IH p Hnd Hin). unfold find_row in IH.
    destruct (list_find _ l) as [[j q]|]; [|discriminate]. exact IH.
Qed.

(** One run of the worker on a queue whose page ids are distinct, the network
    being up. *)
Lemma main_pass `{Platform} env DB_ID ds w :
  queue_up w DB_ID ds ->
  NoDup (page_id <$> rows (store w)) ->
  exists w',
    main env DB_ID w = (Ok (), w')
    /\ (forall page,
          page ∈ new_batch (rows (store w)) ->
          find_row (page_id page) (rows (store w'))
          = Some (patch_page (verdict (rows (store w)) page) (patch_page in_progress page)))
    /\ (forall pageId,
          pageId ∉ page_id <$> new_batch (rows (store w)) ->
          find_row pageId (rows (store w')) = find_row pageId (rows (store w))).
Proof.
  intros Hq Hnd. pose proof Hq as (Hdb & Hds & Hne & Hnf).
  unfold main.
  destruct (getDataSourceId_ok env w DB_ID ds Hq) as (w1 & Hrun1 & Hst1 & Hc1).
  rewrite (bind_ok _ _ _ _ _ Hrun1).
  assert (Hnf1 : no_faults w1) by (eapply no_faults_called; eassumption).
  assert (Hds1 : head (data_sources (store w1)) = Some ds) by (rewrite Hst1; exact Hds).
  destruct (query_served env ds 25 (SelectEquals (lit "Status") (lit "New")) true w1
              Hds1 (no_faults_go w1 Hnf1)) as (w2 & Hrun2 & Hst2 & Hc2).
  unfold queryNewEvents. rewrite (bind_ok _ _ _ _ _ Hrun2). cbn [results_of].
  rewrite Hst1. fold (new_batch (rows (store w))).
  rewrite bind_run. cbn [console_log modify].
  match goal with |- context [for_of _ _ ?x] => set (w3 := x) end.
  assert (Hst3 : store w3 = store w) by (subst w3; cbn [store with_console]; congruence).
  assert (Hnf3 : no_faults w3).
  { pose proof (no_faults_called _ _ _ Hc2 Hnf1) as Hnf2. exact Hnf2. }
  destruct (for_of_pass env ds (new_batch (rows (store w))) w3)
    as (w' & Hrun & _ & _ & Hin & Hout).
  - rewrite Hst3. exact Hds.
  - exact Hnf3.
  - apply (submseteq_NoDup_fmap page_id _ (rows (store w))); [|exact Hnd].
    apply run_query_submseteq.
  - intros page Hpage. rewrite Hst3. exists page. apply find_row_self; [exact Hnd|].
    eapply elem_of_submseteq; [exact Hpage|apply run_query_submseteq].
  - exists w'. split; [exact Hrun|]. rewrite Hst3 in Hin, Hout. split; [|exact Hout].
    intros page Hpage. apply Hin; [exact Hpage|].
    apply find_row_self; [exact Hnd|].
    eapply elem_of_submseteq; [exact Hpage|apply run_query_submseteq].
Qed.




Lemma verdict_alone pages page :
  let e := getRichText page (lit "Event ID") in
  e = [] \/ (length (dedup_rows e pages) < 2)%nat ->
  verdict pages page = needs_review (event_type page).
Proof.
  intros e [He|Hlen]; unfold verdict; fold e.
  - rewrite He. reflexivity.
  - replace (1 <? length (dedup_rows e pages))%nat with false
      by (symmetry; apply Nat.ltb_ge; lia).
    rewrite andb_false_r. reflexivity.
Qed.


End WorkerDedupFacts.


Module WorkerDedupProps.
Import JS Model Worker Spec WorkerSpec JSFacts OrderFacts WorldFacts WorkerFacts
  WorkerDedupFacts.

Lemma deduped_row keeper e p :
  let row' := patch_page (deduped keeper e) p in
  status_of row' = Some (PSelect (lit "Deduped"))
  /\ review_flag_of row' = Some (PCheckbox false)
  /\ log_of row'
     = Some (PRichText [lit "Worker: deduped (keeper=" ++ keeper ++ lit ") for eventId=" ++ e]).
Proof.
  unfold status_of, review_flag_of, log_of, deduped.
  repeat split; apply patch_page_lookup; lookup_props; reflexivity.
Qed.

Lemma needs_review_row t p :
  let row' := patch_page (needs_review t) p in
  status_of row' = Some (PSelect (lit "Needs human review"))
  /\ review_flag_of row' = Some (PCheckbox true)
  /\ log_of row'
     = Some (PRichText [lit "Worker: no handler for type=" ++ t
                        ++ lit ". Marked Needs human review."]).
Proof.
  unfold status_of, review_flag_of, log_of, needs_review.
  repeat split; apply patch_page_lookup; lookup_props; reflexivity.
Qed.

Lemma filter_all {A} (f : A -> bool) l : (forall x, x ∈ l -> f x = true) -> List.filter f l = l.
Proof.
  induction l as [|x l IH]; intros Hall; [reflexivity|]. cbn.
  rewrite (Hall x ltac:(left)). f_equal. apply IH. intros y Hy. apply Hall. right. exact Hy.
Qed.

Lemma event_rows_elem e pages p :
  p ∈ event_rows e pages <->
  p ∈ pages /\ page_matches (RichTextEquals (lit "Event ID") e) p = true.
Proof. unfold event_rows. rewrite list_elem_of_In, List.filter_In, <- list_elem_of_In. tauto. Qed.

(** The worker reads the event id a row was filed under, when that id has no
    white space around it. *)
Lemma getRichText_event e p :
  e <> [] -> trim e = e ->
  page_matches (RichTextEquals (lit "Event ID") e) p = true ->
  getRichText p (lit "Event ID") = e.
Proof.
  intros He Ht. cbn [page_matches]. unfold getRichText.
  destruct (properties p !! lit "Event ID") as [[| segs | | | |]|]; try discriminate.
  intros Hm. apply bool_decide_eq_true_1 in Hm.
  destruct segs as [|s segs]; [cbn in Hm; congruence|]. rewrite Hm. exact Ht.
Qed.





(** Three records of one event, the store listing the latest first: after one
    run the earliest needs review and the other two are deduped. *)
Example three_records_of_one_event :
  let p1 := Examples.queued "p1" "2025-01-01T00:00:01.000Z" "evt_1" in
  let p2 := Examples.queued "p2" "2025-01-01T00:00:02.000Z" "evt_1" in
  let p3 := Examples.queued "p3" "2025-01-01T00:00:03.000Z" "evt_1" in
  let run :=
    @main Examples.platform Examples.env (lit "db1")
      (Examples.world_of [p3; p1; p2] [] []) in
  (fun p => (page_id p, status_of p, log_of p)) <$> rows (store run.2)
  = [ (lit "p3", Some (PSelect (lit "Deduped")),
       Some (PRichText [lit "Worker: deduped (keeper=p1) for eventId=evt_1"]));
      (lit "p1", Some (PSelect (lit "Needs human review")),
       Some (PRichText [lit "Worker: no handler for type=page.updated. Marked Needs human review."]));
      (lit "p2", Some (PSelect (lit "Deduped")),
       Some (PRichText [lit "Worker: deduped (keeper=p1) for eventId=evt_1"])) ].
Proof. vm_compute. reflexivity. Qed.

End WorkerDedupProps.

(* ===================================================================== *)
(** ** [String.prototype.trim] *)
(* ===================================================================== *)

Module TrimFacts.
Import JS.

Lemma rev_reverse {A} (l : list A) : rev l = reverse l.
Proof. rewrite rev_alt. reflexivity. Qed.

Lemma trim_start_head s c : head (trim_start s) = Some c -> is_space c = false.
Proof.
  induction s as [|x s IH]; cbn [trim_start]; [discriminate|].
  destruct (is_space x) eqn:Hx; [exact IH|].
  cbn [head]. intros [= <-]. exact Hx.
Qed.

Lemma trim_start_id s :
  (forall c, head s = Some c -> is_space c = false) -> trim_start s = s.
Proof.
  destruct s as [|x s]; [reflexivity|]. intros Hc. cbn [trim_start].
  rewrite (Hc x) by reflexivity. reflexivity.
Qed.

Lemma trim_start_split s :
  exists spaces, s = spaces ++ trim_start s /\ Forall (fun c => is_space c = true) spaces.
Proof.
  induction s as [|x s (spaces & Hs & Hall)]; [exists []; split; [reflexivity|constructor]|].
  cbn [trim_start]. destruct (is_space x) eqn:Hx.
  - exists (x :: spaces). split; [cbn; congruence | constructor; assumption].
  - exists []. split; [reflexivity | constructor].
Qed.

Lemma trim_head s c : head (trim s) = Some c -> is_space c = false.
Proof.
  unfold trim. intros Hc.
  destruct (trim_start_split (rev (trim_start s))) as (spaces & Hs & _).
  apply (f_equal (@rev N)) in Hs. rewrite rev_involutive, rev_app_distr in Hs.
  apply (trim_start_head s). rewrite Hs.
  destruct (rev (trim_start (rev (trim_start s)))); [discriminate | exact Hc].
Qed.

Lemma trim_last s c : last (trim s) = Some c -> is_space c = false.
Proof.
  unfold trim. intros Hc.
  apply (trim_start_head (rev (trim_start s))).
  rewrite rev_reverse, last_reverse in Hc. exact Hc.
Qed.

Lemma trim_idem s : trim (trim s) = trim s.
Proof.
  unfold trim at 1.
  rewrite (trim_start_id (trim s)) by apply trim_head.
  unfold trim. rewrite rev_involutive.
  rewrite (trim_start_id (trim_start (rev (trim_start s)))) by apply trim_start_head.
  reflexivity.
Qed.

End TrimFacts.

(* ===================================================================== *)
(** ** The signature helpers: digests and their comparison *)
(* ===================================================================== *)

Module DigestProps.
Import JS Crypto DigestSpec CryptoProps DigestFacts.

(** X1. The digest [hmacSha256Hex] returns is 64 lower-case hex digits, and
    decoding them gives back the 32 bytes of the MAC: nothing is lost between
    [digest("hex")] and [Buffer.from(.., "hex")]. *)
Theorem digest_is_64_hex_digits_that_decode_back (secret payload : jsstring) :
  let digest := hmacSha256Hex secret payload in
  length digest = 64%nat
  /\ Forall lower_hex digest
  /\ Buffer_from_hex digest = hmac_sha256 (utf8 secret) (utf8 payload)
  /\ length (Buffer_from_hex digest) = 32%nat.
Proof.
  cbn zeta. split; [apply hmacSha256Hex_length|].
  split; [apply hex_lower, hmac_sha256_bytes|].
  unfold hmacSha256Hex.
  rewrite Buffer_from_hex_hex by apply hmac_sha256_bytes.
  split; [reflexivity | apply hmac_sha256_length].
Qed.

(** X2. A signature that [timingSafeEqualHex] accepts against a digest decodes
    to the 32 bytes of the MAC, so it has 64 characters at least and each of
    its first 64 is a hex digit by its low eight bits, which is all the
    decoder reads of a character: an empty, short or undecodable signature
    is never accepted. *)
Theorem accepted_signature_decodes_to_the_mac (signature secret payload : jsstring) :
  timingSafeEqualHex signature (hmacSha256Hex secret payload) = true ->
  Buffer_from_hex signature = hmac_sha256 (utf8 secret) (utf8 payload)
  /\ (64 <= length signature)%nat
  /\ Forall (fun c => hex_char (c mod 256)) (take 64 signature).
Proof.
  intros Heq. rewrite timingSafeEqualHex_spec in Heq.
  apply bool_decide_eq_true in Heq.
  rewrite Buffer_from_hex_digest in Heq.
  destruct (Buffer_from_hex_digits signature) as [Hlen Hdig].
  rewrite Heq, hmac_sha256_length in Hlen, Hdig.
  split; [exact Heq|]. split; [lia|].
  eapply Forall_impl; [exact Hdig|]. intros c. apply unhex_hex_char.
Qed.

Lemma accepted_signature_decodes_to_the_mac_witness :
  let signature := lit "F7BC83F430538424B13298E6AA6FB143EF4D59A14946175997479DBC2D1A3CD8zz" in
  let payload := lit "The quick brown fox jumps over the lazy dog" in
  timingSafeEqualHex signature (hmacSha256Hex (lit "key") payload) = true
  /\ (64 <= length signature)%nat.
Proof.
  cbn zeta.
  assert (H : timingSafeEqualHex
                (lit "F7BC83F430538424B13298E6AA6FB143EF4D59A14946175997479DBC2D1A3CD8zz")
                (hmacSha256Hex (lit "key")
                   (lit "The quick brown fox jumps over the lazy dog")) = true)
    by (vm_compute; reflexivity).
  split; [exact H|].
  exact (proj1 (proj2 (accepted_signature_decodes_to_the_mac _ _ _ H))).
Defined.

(** A character above [U+00FF] is read by its low eight bits: [U+0131] and
    [U+0141] decode as [1A]. *)
Example Buffer_from_hex_low_bits :
  Buffer_from_hex [305; 321] = [26]
  /\ timingSafeEqualHex [305; 321] (lit "1a") = true
  /\ timingSafeEqualHex [305; 321] (lit "zz") = false.
Proof. vm_compute. repeat split; reflexivity. Qed.

(** X3. [timingSafeEqualHex] never throws and is an equivalence: it holds
    exactly when the two strings decode to the same bytes. Hence strings that
    differ may compare equal, and any two strings that decode to nothing do,
    as those that start with a pair that is not hex by its low bits. *)
Theorem timingSafeEqualHex_is_equality_of_decoded_bytes (a b c : jsstring) :
  (timingSafeEqualHex a b = true <-> Buffer_from_hex a = Buffer_from_hex b)
  /\ timingSafeEqualHex a a = true
  /\ timingSafeEqualHex a b = timingSafeEqualHex b a
  /\ (timingSafeEqualHex a b = true -> timingSafeEqualHex b c = true ->
      timingSafeEqualHex a c = true)
  /\ (Buffer_from_hex a = [] -> Buffer_from_hex b = [] -> timingSafeEqualHex a b = true).
Proof.
  rewrite !timingSafeEqualHex_spec. split; [apply bool_decide_eq_true|].
  split; [apply bool_decide_eq_true; reflexivity|].
  split; [apply bool_decide_ext; split; congruence|].
  split.
  - rewrite !bool_decide_eq_true. congruence.
  - intros Ha Hb. apply bool_decide_eq_true. congruence.
Qed.

Lemma timingSafeEqualHex_is_equality_of_decoded_bytes_witness :
  timingSafeEqualHex (lit "0a1B") (lit "0A1bxyz") = true
  /\ timingSafeEqualHex (lit "0A1bxyz") (lit "0a1b") = true
  /\ timingSafeEqualHex (lit "0a1B") (lit "0a1b") = true
  /\ timingSafeEqualHex (lit "not hex") (lit "zz") = true
  /\ timingSafeEqualHex [305; 321] (lit "1a") = true.
Proof.
  pose proof (timingSafeEqualHex_is_equality_of_decoded_bytes
                (lit "0a1B") (lit "0A1bxyz") (lit "0a1b")) as (H1 & _ & _ & H4 & _).
  pose proof (timingSafeEqualHex_is_equality_of_decoded_bytes
                (lit "not hex") (lit "zz") []) as (_ & _ & _ & _ & H5).
  pose proof (timingSafeEqualHex_is_equality_of_decoded_bytes
                [305; 321] (lit "1a") []) as (H6 & _).
  assert (Hab : timingSafeEqualHex (lit "0a1B") (lit "0A1bxyz") = true)
    by (apply H1; vm_compute; reflexivity).
  assert (Hbc : timingSafeEqualHex (lit "0A1bxyz") (lit "0a1b") = true)
    by (vm_compute; reflexivity).
  split; [exact Hab|]. split; [exact Hbc|].
  split; [exact (H4 Hab Hbc)|].
  split; [apply H5; vm_compute; reflexivity|].
  apply H6. vm_compute. reflexivity.
Defined.

End DigestProps.

(* ===================================================================== *)
(** ** The admin route and the life of a stored token *)
(* ===================================================================== *)

Module AdminRouteProps.
Import JS Model Http VerificationToken AdminRoute Spec JSFacts TokenChannelProps.

Lemma GET_authorized `{Platform} env req w expected :
  AQUEDUCT_ADMIN_SECRET env = Some expected -> expected <> [] ->
  x_aqueduct_admin_secret req = Some expected ->
  GET env req w
  = match consumeVerificationToken env w with
    | (Ok (Some t), w') =>
        (Ok (if truthy t
             then Response_json (JObj [(lit "verification_token", t)])
             else respond (lit "No token available") 404), w')
    | (Ok None, w') => (Ok (respond (lit "No token available") 404), w')
    | (Throw e, w') => (Throw e, w')
    end.
Proof.
  intros He Hne Hp. unfold GET. rewrite He, Hp.
  destruct expected as [|c expected]; [congruence|].
  cbn [default from_option id]. rewrite bool_decide_eq_true_2 by reflexivity.
  cbn [negb]. unfold mbind, M_bind.
  destruct (consumeVerificationToken env w) as [[[t|]|e] w']; try reflexivity.
  destruct (truthy t); reflexivity.
Qed.

Lemma GET_unauthorized `{Platform} env req w expected :
  AQUEDUCT_ADMIN_SECRET env = Some expected -> expected <> [] ->
  x_aqueduct_admin_secret req <> Some expected ->
  GET env req w = (Ok (respond (lit "Unauthorized") 401), w).
Proof.
  intros He Hne Hp. unfold GET. rewrite He.
  destruct expected as [|c expected]; [congruence|].
  rewrite bool_decide_eq_false_2; [reflexivity|].
  destruct (x_aqueduct_admin_secret req) as [p|]; cbn [default from_option id].
  - congruence.
  - discriminate.
Qed.

(** X4. The admin route answers 500 when no admin secret is configured and
    401 when the header is missing or differs from it; in both cases nothing
    is read or written, so a refused request does not use up the token. *)
Theorem refused_admin_request_changes_nothing `{Platform} (env : Env) (req : Request)
    (w : World) :
  (truthy_opt (AQUEDUCT_ADMIN_SECRET env) = false ->
     GET env req w = (Ok (respond (lit "Missing AQUEDUCT_ADMIN_SECRET") 500), w))
  /\ (forall expected,
        AQUEDUCT_ADMIN_SECRET env = Some expected -> expected <> [] ->
        x_aqueduct_admin_secret req <> Some expected ->
        GET env req w = (Ok (respond (lit "Unauthorized") 401), w)).
Proof.
  split.
  - intros Hs. unfold GET.
    destruct (AQUEDUCT_ADMIN_SECRET env) as [[|c s]|]; try reflexivity.
    discriminate.
  - intros expected. apply GET_unauthorized.
Qed.

Lemma refused_admin_request_changes_nothing_witness :
  let stored :=
    (storeVerificationToken Examples.env (lit "secret_tok_1") Examples.world).2 in
  let wrong :=
    {| text := []; x_notion_signature := None;
       x_aqueduct_admin_secret := Some (lit "admin_secre") |} in
  AQUEDUCT_ADMIN_SECRET Examples.env = Some (lit "admin_secret")
  /\ x_aqueduct_admin_secret wrong <> Some (lit "admin_secret")
  /\ @GET Examples.platform Examples.env wrong stored
     = (Ok (respond (lit "Unauthorized") 401), stored)
  /\ @GET Examples.platform Examples.env (Examples.request [] None) stored
     = (Ok (respond (lit "Unauthorized") 401), stored).
Proof.
  cbn zeta.
  split; [reflexivity|]. split; [vm_compute; discriminate|].
  split.
  - apply (proj2 (@refused_admin_request_changes_nothing Examples.platform
                    Examples.env _ _)
             (lit "admin_secret")).
    + reflexivity.
    + vm_compute; discriminate.
    + vm_compute; discriminate.
  - apply (proj2 (@refused_admin_request_changes_nothing Examples.platform
                    Examples.env _ _)
             (lit "admin_secret")).
    + reflexivity.
    + vm_compute; discriminate.
    + vm_compute; discriminate.
Defined.

(** X5. After [store(token)], a request with the wrong secret is refused and
    leaves the token. The first request with the right secret within the ten
    minutes gets [{ verification_token: v }], where [v] is the token as the
    client reads it back, when [v] is truthy, and 404 when it is not; a token
    that is not JSON text and not empty is read back as itself. Every request
    with the right secret after the first gets 404, whenever it comes. *)
Theorem admin_route_hands_the_token_out_once `{Platform} (env : Env) (w : World)
    (secret token : jsstring) (good bad : Request) (t : Z) :
  getRedis env = true ->
  AQUEDUCT_ADMIN_SECRET env = Some secret -> secret <> [] ->
  x_aqueduct_admin_secret good = Some secret ->
  x_aqueduct_admin_secret bad <> Some secret ->
  (t < now w + 600000)%Z ->
  let stored := with_now t (storeVerificationToken env token w).2 in
  let refused := GET env bad stored in
  let first := GET env good refused.2 in
  refused = (Ok (respond (lit "Unauthorized") 401), stored)
  /\ first.1
     = Ok (if truthy (parseResponse token)
           then Response_json (JObj [(lit "verification_token", parseResponse token)])
           else respond (lit "No token available") 404)
  /\ (token <> [] -> JSON_parse token = None ->
      first.1 = Ok (Response_json (JObj [(lit "verification_token", JStr token)])))
  /\ forall t',
       (GET env good (with_now t' first.2)).1
       = Ok (respond (lit "No token available") 404).
Proof.
  intros Hcfg Hs Hne Hgood Hbad Ht stored refused first.
  assert (Hr : refused = (Ok (respond (lit "Unauthorized") 401), stored))
    by (apply (GET_unauthorized env bad stored secret); assumption).
  split; [exact Hr|].
  destruct (consume_stored env w token t Hcfg Ht) as [Hk Hc].
  fold stored in Hk, Hc.
  assert (Hf : first = GET env good stored) by (subst first; rewrite Hr; reflexivity).
  rewrite (GET_authorized env good stored secret) in Hf by assumption.
  rewrite Hc in Hf.
  assert (H1 : first.1
     = Ok (if truthy (parseResponse token)
           then Response_json (JObj [(lit "verification_token", parseResponse token)])
           else respond (lit "No token available") 404)).
  { rewrite Hf. destruct (truthy (parseResponse token)) eqn:Hv; [rewrite Hv|];
      reflexivity. }
  split; [exact H1|]. split.
  - intros Htok Hp. rewrite H1, (parseResponse_plain token Hp).
    cbn [truthy]. rewrite (truthy_string_ne token Htok). reflexivity.
  - intros t'. rewrite (GET_authorized env good _ secret) by assumption.
    destruct (truthy (parseResponse token)) eqn:Hv; rewrite Hf; cbn [snd].
    + rewrite consume_absent; [reflexivity|].
      cbn [redis with_redis with_now]. apply lookup_delete_eq.
    + rewrite (consume_falsy env _ token (now w + 600000)%Z); [reflexivity| |exact Hv].
      exact Hk.
Qed.

Lemma admin_route_hands_the_token_out_once_witness :
  let token := lit "secret_tok_0123456789abcdef" in
  let bad := Examples.request [] None in
  let stored := with_now 500000 (storeVerificationToken Examples.env token Examples.world).2 in
  let first := @GET Examples.platform Examples.env Examples.admin_request
                 (@GET Examples.platform Examples.env bad stored).2 in
  let stored' := with_now 500000
                   (storeVerificationToken Examples.env (lit "12345") Examples.world).2 in
  let first' := @GET Examples.platform Examples.env Examples.admin_request
                  (@GET Examples.platform Examples.env bad stored').2 in
  getRedis Examples.env = true
  /\ AQUEDUCT_ADMIN_SECRET Examples.env = Some (lit "admin_secret")
  /\ (500000 < now Examples.world + 600000)%Z
  /\ @JSON_parse Examples.platform token = None
  /\ first.1 = Ok (Response_json (JObj [(lit "verification_token", JStr token)]))
  /\ (@GET Examples.platform Examples.env Examples.admin_request
        (with_now 500001 first.2)).1
     = Ok (respond (lit "No token available") 404)
  /\ first'.1 = Ok (Response_json (JObj [(lit "verification_token", JNum 12345)])).
Proof.
  cbn zeta.
  pose proof (@admin_route_hands_the_token_out_once Examples.platform
                Examples.env Examples.world
                (lit "admin_secret") (lit "secret_tok_0123456789abcdef")
                Examples.admin_request (Examples.request [] None) 500000
                ltac:(reflexivity) ltac:(reflexivity) ltac:(vm_compute; discriminate)
                ltac:(reflexivity)
                ltac:(vm_compute; discriminate) ltac:(reflexivity))
    as (_ & _ & Hfirst & Hlater).
  pose proof (@admin_route_hands_the_token_out_once Examples.platform
                Examples.env Examples.world
                (lit "admin_secret") (lit "12345")
                Examples.admin_request (Examples.request [] None) 500000
                ltac:(reflexivity) ltac:(reflexivity) ltac:(vm_compute; discriminate)
                ltac:(reflexivity)
                ltac:(vm_compute; discriminate) ltac:(reflexivity))
    as (_ & Hnum & _ & _).
  split; [reflexivity|]. split; [reflexivity|]. split; [reflexivity|].
  split; [vm_compute; reflexivity|].
  split; [apply Hfirst; [vm_compute; discriminate | vm_compute; reflexivity]|].
  split; [exact (Hlater 500001%Z) | exact Hnum].
Defined.

(** X6. A stored token is lost without a trace in three cases: without a
    backend [store] does nothing; ten minutes after [store] the token has
    expired; and an empty token is never handed out. In the last two
    [consume()] returns absent and writes nothing, not even the used marker. *)
Theorem stored_token_can_be_lost `{Platform} (env : Env) (w : World) (token : jsstring)
    (t : Z) :
  (getRedis env = false -> storeVerificationToken env token w = (Ok (), w))
  /\ (getRedis env = true -> (now w + 600000 <= t)%Z ->
      let stored := with_now t (storeVerificationToken env token w).2 in
      consumeVerificationToken env stored = (Ok None, stored))
  /\ (getRedis env = true ->
      let stored := with_now t (storeVerificationToken env [] w).2 in
      consumeVerificationToken env stored = (Ok None, stored)).
Proof.
  split; [|split].
  - intros Hcfg. unfold storeVerificationToken. rewrite Hcfg. reflexivity.
  - intros Hcfg Ht stored. subst stored.
    unfold consumeVerificationToken, storeVerificationToken.
    rewrite Hcfg. cbn [negb].
    unfold mbind, M_bind, redis_get, redis_set, redis_del, gets, modify, mret, M_ret.
    cbn [fst snd redis now with_now with_redis].
    rewrite lookup_delete_eq. cbv beta iota delta [truthy_value].
    cbn [fst snd redis now with_now with_redis].
    rewrite lookup_delete_ne by (apply not_eq_sym, KEY_neq_USED_KEY).
    rewrite lookup_insert_eq.
    replace (t <? now w + 10 * 60 * 1000)%Z with false by (symmetry; apply Z.ltb_ge; lia).
    reflexivity.
  - intros Hcfg stored. subst stored.
    unfold consumeVerificationToken, storeVerificationToken.
    rewrite Hcfg. cbn [negb].
    unfold mbind, M_bind, redis_get, redis_set, redis_del, gets, modify, mret, M_ret.
    cbn [fst snd redis now with_now with_redis].
    rewrite lookup_delete_eq. cbv beta iota delta [truthy_value].
    cbn [fst snd redis now with_now with_redis].
    rewrite lookup_delete_ne by (apply not_eq_sym, KEY_neq_USED_KEY).
    rewrite lookup_insert_eq.
    destruct (t <? now w + 10 * 60 * 1000)%Z; reflexivity.
Qed.

Lemma stored_token_can_be_lost_witness :
  let token := lit "secret_tok_0123456789abcdef" in
  let late := with_now 601000 (storeVerificationToken Examples.env token Examples.world).2 in
  getRedis Examples.env_local = false
  /\ getRedis Examples.env = true
  /\ (now Examples.world + 600000 <= 601000)%Z
  /\ storeVerificationToken Examples.env_local token Examples.world = (Ok (), Examples.world)
  /\ @consumeVerificationToken Examples.platform Examples.env late = (Ok None, late).
Proof.
  cbn zeta.
  pose proof (@stored_token_can_be_lost Examples.platform Examples.env_local Examples.world
                (lit "secret_tok_0123456789abcdef") 0) as (Hlocal & _ & _).
  pose proof (@stored_token_can_be_lost Examples.platform Examples.env Examples.world
                (lit "secret_tok_0123456789abcdef") 601000) as (_ & Hlate & _).
  split; [reflexivity|]. split; [reflexivity|]. split; [vm_compute; discriminate|].
  split.
  - apply Hlocal. reflexivity.
  - apply Hlate; [reflexivity | vm_compute; discriminate].
Defined.

End AdminRouteProps.

(* ===================================================================== *)
(** ** The webhook route: what a request can and cannot reach *)
(* ===================================================================== *)

Module WebhookGuardProps.
Import JS Crypto Model Http Notion Webhook WebhookSpec GuardSpec Spec JSFacts TrimFacts
  WorldFacts CryptoProps WebhookProps QueueWriteProps.

Lemma signed_check env req :
  signed env req ->
  exists secret,
    WEBHOOK_VERIFICATION_TOKEN env = Some secret
    /\ truthy_opt (Some secret) = true
    /\ negb (truthy_string (default [] (x_notion_signature req)))
       || negb (timingSafeEqualHex (default [] (x_notion_signature req))
                  (hmacSha256Hex secret (text req))) = false.
Proof.
  intros (secret & signature & Hs & Hne & Hsig & Hsne & Heq).
  exists secret. split; [exact Hs|]. split; [apply truthy_string_ne, Hne|].
  rewrite Hsig. cbn [default from_option id].
  rewrite (truthy_string_ne signature Hsne).
  rewrite timingSafeEqualHex_spec, bool_decide_eq_true_2 by exact Heq.
  reflexivity.
Qed.

Lemma check_signed env req secret :
  WEBHOOK_VERIFICATION_TOKEN env = Some secret ->
  truthy_opt (Some secret) = true ->
  negb (truthy_string (default [] (x_notion_signature req)))
  || negb (timingSafeEqualHex (default [] (x_notion_signature req))
             (hmacSha256Hex secret (text req))) = false ->
  signed env req.
Proof.
  intros Hs Ht Hc. apply orb_false_iff in Hc as [H1 H2].
  apply negb_false_iff in H1, H2.
  rewrite timingSafeEqualHex_spec in H2. apply bool_decide_eq_true in H2.
  destruct (x_notion_signature req) as [signature|] eqn:Hsig; [|discriminate].
  cbn [default from_option id] in *.
  exists secret, signature.
  split; [exact Hs|]. split; [apply truthy_string_true, Ht|].
  split; [exact Hsig|]. split; [apply truthy_string_true, H1 | exact H2].
Qed.

Lemma POST_no_secret `{Platform} env req w :
  handshake_token req = None ->
  truthy_opt (WEBHOOK_VERIFICATION_TOKEN env) = false ->
  POST env req w
  = (Ok (respond (lit "Missing NOTION_WEBHOOK_VERIFICATION_TOKEN") 500), w).
Proof.
  intros Hh Hs. rewrite POST_not_handshake by exact Hh.
  unfold POST_event. rewrite Hs. reflexivity.
Qed.

Lemma POST_unsigned `{Platform} env req w :
  handshake_token req = None ->
  truthy_opt (WEBHOOK_VERIFICATION_TOKEN env) = true ->
  ~ signed env req ->
  POST env req w = (Ok (respond (lit "Invalid signature") 401), w).
Proof.
  intros Hh Hs Hn. rewrite POST_not_handshake by exact Hh.
  unfold POST_event. rewrite Hs. cbn [negb].
  destruct (WEBHOOK_VERIFICATION_TOKEN env) as [secret|] eqn:Hsec; [|discriminate].
  cbn [default from_option id].
  destruct (negb (truthy_string (default [] (x_notion_signature req)))
            || negb (timingSafeEqualHex (default [] (x_notion_signature req))
                       (hmacSha256Hex secret (text req)))) eqn:Hc; [reflexivity|].
  destruct Hn. eapply check_signed; eassumption.
Qed.

(** Past the signature check. *)
Ltac pass_signature Hh Hsg :=
  rewrite POST_not_handshake by exact Hh;
  unfold POST_event;
  let secret := fresh "secret" in
  let Hs := fresh "Hs" in
  let Ht := fresh "Ht" in
  let Hc := fresh "Hc" in
  destruct (signed_check _ _ Hsg) as (secret & Hs & Ht & Hc);
  rewrite Hs, Ht; cbn [negb default from_option id]; rewrite Hc.

Lemma POST_invalid_json `{Platform} env req w :
  handshake_token req = None -> signed env req ->
  JSON_parse (text req) = None ->
  POST env req w = (Ok (respond (lit "Invalid JSON") 400), w).
Proof.
  intros Hh Hsg Hp. pass_signature Hh Hsg. rewrite Hp. reflexivity.
Qed.

Lemma POST_no_database `{Platform} env req w payload :
  handshake_token req = None -> signed env req ->
  JSON_parse (text req) = Some payload ->
  truthy_opt (EVENTS_QUEUE_DB_ID env) = false ->
  POST env req w = (Ok (respond (lit "Missing NOTION_EVENTS_QUEUE_DB_ID") 500), w).
Proof.
  intros Hh Hsg Hp Hdb. pass_signature Hh Hsg. rewrite Hp.
  destruct (EVENTS_QUEUE_DB_ID env) as [[|c db]|]; try reflexivity. discriminate.
Qed.

Lemma POST_null `{Platform} env req w :
  handshake_token req = None -> signed env req ->
  JSON_parse (text req) = Some JNull ->
  truthy_opt (EVENTS_QUEUE_DB_ID env) = true ->
  POST env req w
  = (Throw (TypeError (lit "Cannot read properties of null (reading 'id')")), w).
Proof.
  intros Hh Hsg Hp Hdb. pass_signature Hh Hsg. rewrite Hp.
  destruct (EVENTS_QUEUE_DB_ID env) as [[|c db]|]; try discriminate. reflexivity.
Qed.

Lemma falsy_field_str k v : falsy_field k v -> str_field k v = None \/ str_field k v = Some [].
Proof.
  unfold falsy_field, str_field. destruct (get k v) as [[| | |s| |]|]; auto.
  destruct s; [auto | discriminate].
Qed.

Lemma POST_no_id `{Platform} env req w payload :
  handshake_token req = None -> signed env req ->
  JSON_parse (text req) = Some payload -> payload <> JNull ->
  truthy_opt (EVENTS_QUEUE_DB_ID env) = true ->
  str_field (lit "id") payload = None \/ str_field (lit "id") payload = Some [] ->
  POST env req w = (Ok (respond (lit "Missing event id") 400), w).
Proof.
  intros Hh Hsg Hp Hnn Hdb Hid. pass_signature Hh Hsg. rewrite Hp.
  destruct (EVENTS_QUEUE_DB_ID env) as [[|c db]|]; try discriminate.
  destruct payload; try congruence; destruct Hid as [-> | ->]; reflexivity.
Qed.

Lemma POST_accepted `{Platform} env req w payload db e :
  handshake_token req = None -> signed env req ->
  JSON_parse (text req) = Some payload -> payload <> JNull ->
  EVENTS_QUEUE_DB_ID env = Some db -> db <> [] ->
  str_field (lit "id") payload = Some e -> e <> [] ->
  POST env req w
  = (dsId ← getDatabaseDataSourceId env db;
     exists_ ← eventExists env dsId e;
     if (exists_ : bool)
     then mret (Response_json (JObj [(lit "ok", JBool true); (lit "deduped", JBool true)]))
     else
       writeEventToQueue env
         {| databaseId := db;
            type := default (lit "Other") (str_field (lit "type") payload);
            eventId := e;
            objectType := str_field (lit "type") (default JNull (get (lit "entity") payload));
            objectId := str_field (lit "id") (default JNull (get (lit "entity") payload));
            sourceUrl := None;
            payloadJson := JSON_stringify payload |};;
       mret (Response_json (JObj [(lit "ok", JBool true)]))) w.
Proof.
  intros Hh Hsg Hp Hnn Hdb Hdbne Hid Hne. pass_signature Hh Hsg. rewrite Hp, Hdb, Hid.
  destruct db as [|c db]; [congruence|]. destruct e as [|c' e]; [congruence|].
  destruct payload; first [congruence | reflexivity].
Qed.

(** *** The store under the calls of the route *)

Lemma client_notionFetch_store `{Platform} env c w :
  store (notionFetch env c w).2 = store w
  \/ exists t, store (notionFetch env c w).2 = (serve c t (store w)).2.
Proof.
  destruct (truthy_opt (NOTION_API_KEY env)) eqn:Hkey.
  - destruct (client_notionFetch_spec env c w Hkey) as (t & w' & _ & Hm).
    destruct (head (faults w)) as [[f|]|]; destruct Hm as [Hst ->]; cbn [snd];
      first [left; exact Hst | right; exists t; exact Hst].
  - left. unfold notionFetch. rewrite Hkey. reflexivity.
Qed.

Lemma client_notionFetch_reads `{Platform} env c :
  (forall t st, (serve c t st).2 = st) -> read_only (notionFetch env c).
Proof.
  intros Hc w. destruct (client_notionFetch_store env c w) as [Hst | [t Hst]].
  - exact Hst.
  - rewrite Hst. apply Hc.
Qed.

Lemma serve_GetDatabase `{Platform} db t st : (serve (GetDatabase db) t st).2 = st.
Proof. cbn [serve]. destruct (bool_decide _); reflexivity. Qed.

Lemma serve_QueryDataSource `{Platform} ds n f sorted t st :
  (serve (QueryDataSource ds n f sorted) t st).2 = st.
Proof. cbn [serve]. destruct (bool_decide _); reflexivity. Qed.

Lemma getDatabaseDataSourceId_reads `{Platform} env db :
  read_only (getDatabaseDataSourceId env db).
Proof.
  intros w. unfold getDatabaseDataSourceId. rewrite bind_run.
  pose proof (client_notionFetch_reads env (GetDatabase db) (serve_GetDatabase db) w) as Hst.
  destruct (notionFetch env (GetDatabase db) w) as [[r|e] w1]; [|exact Hst].
  cbn [snd] in Hst.
  destruct r as [[|ds dss]| |]; try exact Hst.
  destruct (truthy_string ds); exact Hst.
Qed.

Lemma eventExists_reads `{Platform} env ds e : read_only (eventExists env ds e).
Proof.
  intros w. unfold eventExists. rewrite bind_run.
  pose proof (client_notionFetch_reads env
                (QueryDataSource ds 1 (RichTextEquals (lit "Event ID") e) false)
                (serve_QueryDataSource ds 1 _ false) w) as Hst.
  destruct (notionFetch env _ w) as [[r|e'] w1]; exact Hst.
Qed.

(** The page [POST /pages] files for [params] when the clock reads [t_sent]
    at the call and [t_served] at the store. *)
Lemma writeEventToQueue_store `{Platform} env params w :
  let props := strip_undefined (page_properties params (toISOString (now w))) in
  store (writeEventToQueue env params w).2 = store w
  \/ exists t,
       store (writeEventToQueue env params w).2
       = {| database := database (store w); data_sources := data_sources (store w);
            rows := rows (store w)
                    ++ [ {| page_id := lit "page-" ++ lit (pretty (next_row (store w)));
                            created_time := toISOString t;
                            properties := list_to_map (defined_props props) |} ];
            next_row := next_row (store w) + 1 |}.
Proof.
  intros props. unfold writeEventToQueue. rewrite bind_run.
  unfold gets. cbn beta iota. fold props.
  assert (Hret : forall m : M Reply,
            store ((m;; mret ()) w).2 = store (m w).2).
  { intros m. rewrite bind_run. destruct (m w) as [[r|e] w1]; reflexivity. }
  rewrite Hret.
  destruct (client_notionFetch_store env (CreatePage (databaseId params) props) w)
    as [Hst | [t Hst]]; [left; exact Hst|].
  cbn [serve] in Hst.
  destruct (bool_decide (databaseId params = database (store w)));
    cbn [snd] in Hst; [right; exists t; exact Hst | left; exact Hst].
Qed.

(** Steps 4 and 5: what they answer and what they do to the store. *)
Lemma dedup_and_enqueue `{Platform} env db e params w :
  let run :=
    (dsId ← getDatabaseDataSourceId env db;
     exists_ ← eventExists env dsId e;
     if (exists_ : bool)
     then mret (Response_json (JObj [(lit "ok", JBool true); (lit "deduped", JBool true)]))
     else
       writeEventToQueue env params;;
       mret (Response_json (JObj [(lit "ok", JBool true)]))) w in
  (forall r, run.1 = Ok r -> status r = 200)
  /\ (store run.2 = store w
      \/ exists t now_,
           store run.2
           = {| database := database (store w); data_sources := data_sources (store w);
                rows := rows (store w)
                        ++ [ {| page_id := lit "page-" ++ lit (pretty (next_row (store w)));
                                created_time := toISOString t;
                                properties :=
                                  list_to_map (defined_props
                                    (strip_undefined (page_properties params now_))) |} ];
                next_row := next_row (store w) + 1 |}).
Proof.
  cbn zeta. rewrite bind_run.
  pose proof (getDatabaseDataSourceId_reads env db w) as H1.
  destruct (getDatabaseDataSourceId env db w) as [[ds|e1] w1]; cbn [snd] in H1;
    [|split; [discriminate | left; exact H1]].
  rewrite bind_run.
  pose proof (eventExists_reads env ds e w1) as H2.
  destruct (eventExists env ds e w1) as [[[|]|e2] w2]; cbn [snd] in H2.
  - split; [intros r [= <-]; reflexivity | left; cbn; congruence].
  - rewrite bind_run.
    pose proof (writeEventToQueue_store env params w2) as H3.
    destruct (writeEventToQueue env params w2) as [[[]|e3] w3];
      unfold mret, M_ret; cbn [snd fst] in *.
    + split; [intros r [= <-]; reflexivity|].
      destruct H3 as [H3 | [t H3]]; [left; congruence|].
      right. exists t, (toISOString (now w2)). rewrite H3, H2, H1. reflexivity.
    + split; [discriminate|].
      destruct H3 as [H3 | [t H3]]; [left; congruence|].
      right. exists t, (toISOString (now w2)). rewrite H3, H2, H1. reflexivity.
  - split; [discriminate | left; cbn; congruence].
Qed.

(** How [POST] ends: every way out of the route. *)
Lemma POST_cases `{Platform} env req w :
  (exists v, handshake_token req = Some v)
  \/ (exists r, POST env req w = (Ok r, w)
                /\ (status r = 400 \/ status r = 401 \/ status r = 500))
  \/ (exists e, POST env req w = (Throw e, w))
  \/ (signed env req
      /\ exists payload db e,
           JSON_parse (text req) = Some payload
           /\ str_field (lit "id") payload = Some e /\ e <> []
           /\ POST env req w
              = (dsId ← getDatabaseDataSourceId env db;
                 exists_ ← eventExists env dsId e;
                 if (exists_ : bool)
                 then mret (Response_json
                              (JObj [(lit "ok", JBool true); (lit "deduped", JBool true)]))
                 else
                   writeEventToQueue env
                     {| databaseId := db;
                        type := default (lit "Other") (str_field (lit "type") payload);
                        eventId := e;
                        objectType :=
                          str_field (lit "type") (default JNull (get (lit "entity") payload));
                        objectId :=
                          str_field (lit "id") (default JNull (get (lit "entity") payload));
                        sourceUrl := None;
                        payloadJson := JSON_stringify payload |};;
                   mret (Response_json (JObj [(lit "ok", JBool true)]))) w).
Proof.
  destruct (handshake_token req) as [v|] eqn:Hh; [left; eauto|]. right.
  destruct (truthy_opt (WEBHOOK_VERIFICATION_TOKEN env)) eqn:Hs.
  2:{ left. eexists. split; [apply POST_no_secret; assumption|]. cbn [status respond]; auto. }
  destruct (WEBHOOK_VERIFICATION_TOKEN env) as [secret|] eqn:Hsec; [|discriminate].
  destruct (negb (truthy_string (default [] (x_notion_signature req)))
            || negb (timingSafeEqualHex (default [] (x_notion_signature req))
                       (hmacSha256Hex secret (text req)))) eqn:Hc.
  { left. eexists. split.
    - rewrite POST_not_handshake by exact Hh. unfold POST_event.
      rewrite Hsec, Hs. cbn [negb default from_option id]. rewrite Hc. reflexivity.
    - cbn [status respond]; auto. }
  assert (Hsg : signed env req) by (eapply check_signed; eassumption).
  destruct (JSON_parse (text req)) as [payload|] eqn:Hp.
  2:{ left. eexists. split; [apply POST_invalid_json; assumption|]. cbn [status respond]; auto. }
  destruct (truthy_opt (EVENTS_QUEUE_DB_ID env)) eqn:Hdb.
  2:{ left. eexists. split; [eapply POST_no_database; eassumption|]. cbn [status respond]; auto. }
  assert (Hnull : payload = JNull \/ payload <> JNull)
    by (destruct payload; first [left; reflexivity | right; discriminate]).
  destruct Hnull as [->|Hnn].
  { right. left. eexists. apply POST_null; assumption. }
  destruct (EVENTS_QUEUE_DB_ID env) as [db|] eqn:Hdbid; [|discriminate].
  destruct (str_field (lit "id") payload) as [[|c e]|] eqn:Hid.
  - left. eexists. split;
      [eapply POST_no_id; try eassumption; [rewrite Hdbid; exact Hdb | auto]
      |cbn [status respond]; auto].
  - right. right. split; [exact Hsg|]. exists payload, db, (c :: e).
    split; [reflexivity|]. split; [exact Hid|]. split; [discriminate|].
    eapply POST_accepted; try eassumption; [|discriminate].
    intros ->. discriminate.
  - left. eexists. split;
      [eapply POST_no_id; try eassumption; [rewrite Hdbid; exact Hdb | auto]
      |cbn [status respond]; auto].
Qed.

(** X7. A request that is not validly signed reaches nothing: no call is sent
    upstream, the store and Redis are left as they are, and the rate limiter
    is not asked. If it is not a verification handshake it is answered 500
    (no signing secret configured) or 401. *)
Theorem unsigned_request_reaches_nothing `{Platform} (env : Env) (req : Request)
    (w : World) :
  ~ signed env req ->
  let w' := (POST env req w).2 in
  calls w' = calls w /\ store w' = store w /\ redis w' = redis w
  /\ faults w' = faults w /\ counter w' = counter w /\ sleeps w' = sleeps w
  /\ (handshake_token req = None ->
      POST env req w
      = (Ok (respond (lit "Missing NOTION_WEBHOOK_VERIFICATION_TOKEN") 500), w)
      \/ POST env req w = (Ok (respond (lit "Invalid signature") 401), w)).
Proof.
  intros Hn. cbn zeta.
  destruct (handshake_token req) as [v|] eqn:Hh.
  - rewrite (POST_handshake env req w v Hh). cbn [snd].
    repeat (split; [reflexivity|]). discriminate.
  - destruct (truthy_opt (WEBHOOK_VERIFICATION_TOKEN env)) eqn:Hs.
    + rewrite (POST_unsigned env req w Hh Hs Hn). cbn [snd].
      repeat (split; [reflexivity|]). auto.
    + rewrite (POST_no_secret env req w Hh Hs). cbn [snd].
      repeat (split; [reflexivity|]). auto.
Qed.

Lemma unsigned_request_reaches_nothing_witness :
  let req := Examples.request Examples.body_evt1 None in
  let w := Examples.world_of [] [] [Examples.denied 5000] in
  ~ signed Examples.env req
  /\ calls (@POST Examples.platform Examples.env req w).2 = []
  /\ counter (@POST Examples.platform Examples.env req w).2 = [Examples.denied 5000].
Proof.
  cbn zeta.
  assert (Hn : ~ signed Examples.env (Examples.request Examples.body_evt1 None)).
  { intros (secret & signature & _ & _ & Hsig & _). discriminate Hsig. }
  split; [exact Hn|].
  pose proof (@unsigned_request_reaches_nothing Examples.platform Examples.env
                (Examples.request Examples.body_evt1 None)
                (Examples.world_of [] [] [Examples.denied 5000]) Hn)
    as (Hcalls & _ & _ & _ & Hcounter & _).
  split; [exact Hcalls | exact Hcounter].
Defined.

(** X8. Whenever [POST] answers with a status other than 200, the status is
    400, 401 or 500 and nothing has happened: no call was sent, nothing was
    logged, stored or waited for. *)
Theorem rejected_request_changes_nothing `{Platform} (env : Env) (req : Request)
    (w w' : World) (r : Response) :
  POST env req w = (Ok r, w') ->
  status r <> 200 ->
  w' = w /\ (status r = 400 \/ status r = 401 \/ status r = 500).
Proof.
  intros HP Hst.
  destruct (POST_cases env req w)
    as [[v Hh] | [(r0 & Hr & Hs) | [[e He] | (_ & payload & db & e & _ & _ & _ & Hup)]]].
  - rewrite (POST_handshake env req w v Hh) in HP. injection HP as <- <-.
    destruct Hst. reflexivity.
  - rewrite Hr in HP. injection HP as <- <-. auto.
  - rewrite He in HP. discriminate.
  - match type of Hup with _ = ?m w =>
      destruct (dedup_and_enqueue env db e
                  {| databaseId := db;
                     type := default (lit "Other") (str_field (lit "type") payload);
                     eventId := e;
                     objectType :=
                       str_field (lit "type") (default JNull (get (lit "entity") payload));
                     objectId :=
                       str_field (lit "id") (default JNull (get (lit "entity") payload));
                     sourceUrl := None;
                     payloadJson := JSON_stringify payload |} w) as [H200 _]
    end.
    rewrite <- Hup, HP in H200. destruct Hst. apply H200. reflexivity.
Qed.

Lemma rejected_request_changes_nothing_witness :
  let req := Examples.request (lit "not json") (Some (lit "00ff")) in
  let w := Examples.world_of [] [Some NetworkError] [Examples.denied 5000] in
  @POST Examples.platform Examples.env req w
  = (Ok (respond (lit "Invalid signature") 401), w)
  /\ (@POST Examples.platform Examples.env req w).2 = w.
Proof.
  cbn zeta.
  assert (HP : @POST Examples.platform Examples.env
                 (Examples.request (lit "not json") (Some (lit "00ff")))
                 (Examples.world_of [] [Some NetworkError] [Examples.denied 5000])
               = (Ok (respond (lit "Invalid signature") 401),
                  Examples.world_of [] [Some NetworkError] [Examples.denied 5000]))
    by (vm_compute; reflexivity).
  split; [exact HP|].
  rewrite HP.
  exact (proj1 (@rejected_request_changes_nothing Examples.platform _ _ _ _ _ HP
                  ltac:(vm_compute; discriminate))).
Defined.

(** X9. The checks of [POST] on a request that is not a handshake, in the
    order they answer: no signing secret, 500; a bad signature, 401, before
    the body is parsed; then a body that is not JSON, 400; no queue database
    configured, 500; the body [null], a TypeError is thrown; an [id] that is
    absent or falsy, 400. None of them changes anything. *)
Theorem rejections_in_order `{Platform} (env : Env) (req : Request) (w : World) :
  handshake_token req = None ->
  (truthy_opt (WEBHOOK_VERIFICATION_TOKEN env) = false ->
     POST env req w
     = (Ok (respond (lit "Missing NOTION_WEBHOOK_VERIFICATION_TOKEN") 500), w))
  /\ (truthy_opt (WEBHOOK_VERIFICATION_TOKEN env) = true -> ~ signed env req ->
      POST env req w = (Ok (respond (lit "Invalid signature") 401), w))
  /\ (signed env req -> JSON_parse (text req) = None ->
      POST env req w = (Ok (respond (lit "Invalid JSON") 400), w))
  /\ (forall payload,
        signed env req -> JSON_parse (text req) = Some payload ->
        (truthy_opt (EVENTS_QUEUE_DB_ID env) = false ->
           POST env req w
           = (Ok (respond (lit "Missing NOTION_EVENTS_QUEUE_DB_ID") 500), w))
        /\ (truthy_opt (EVENTS_QUEUE_DB_ID env) = true -> payload = JNull ->
            POST env req w
            = (Throw (TypeError (lit "Cannot read properties of null (reading 'id')")), w))
        /\ (truthy_opt (EVENTS_QUEUE_DB_ID env) = true -> payload <> JNull ->
            falsy_field (lit "id") payload ->
            POST env req w = (Ok (respond (lit "Missing event id") 400), w))).
Proof.
  intros Hh. split; [apply POST_no_secret, Hh|].
  split; [apply POST_unsigned, Hh|].
  split; [apply POST_invalid_json, Hh|].
  intros payload Hsg Hp. split; [|split].
  - intros Hdb. eapply POST_no_database; eassumption.
  - intros Hdb ->. apply POST_null; assumption.
  - intros Hdb Hnn Hid. eapply POST_no_id; try eassumption.
    apply falsy_field_str, Hid.
Qed.

Lemma rejections_in_order_witness :
  let body_ := lit "not json" in
  let req := Examples.request body_ (Some (hmacSha256Hex (lit "key") body_)) in
  @handshake_token Examples.platform req = None
  /\ signed Examples.env req
  /\ @JSON_parse Examples.platform (text req) = None
  /\ @POST Examples.platform Examples.env req Examples.world
     = (Ok (respond (lit "Invalid JSON") 400), Examples.world).
Proof.
  cbn zeta.
  assert (Hh : @handshake_token Examples.platform
                 (Examples.request (lit "not json")
                    (Some (hmacSha256Hex (lit "key") (lit "not json")))) = None)
    by (vm_compute; reflexivity).
  assert (Hsg : signed Examples.env
                  (Examples.request (lit "not json")
                     (Some (hmacSha256Hex (lit "key") (lit "not json"))))).
  { exists (lit "key"), (hmacSha256Hex (lit "key") (lit "not json")).
    split; [reflexivity|]. split; [vm_compute; discriminate|].
    split; [reflexivity|]. split; [vm_compute; discriminate | reflexivity]. }
  assert (Hp : @JSON_parse Examples.platform (lit "not json") = None)
    by (vm_compute; reflexivity).
  split; [exact Hh|]. split; [exact Hsg|]. split; [exact Hp|].
  exact (proj1 (proj2 (proj2 (@rejections_in_order Examples.platform Examples.env _
                                Examples.world Hh))) Hsg Hp).
Defined.

(** X10. The signing secret is [NOTION_WEBHOOK_VERIFICATION_TOKEN ??
    NOTION_WEBHOOK_SECRET]: the second is read only when the first is not set
    at all. Set to the empty string, the first hides the second and every
    event is answered 500; not set, a request signed with the second passes
    the signature check. *)
Theorem signing_secret_falls_back_only_when_unset `{Platform} (env : Env)
    (req : Request) (w : World) :
  handshake_token req = None ->
  (NOTION_WEBHOOK_VERIFICATION_TOKEN env = Some [] ->
     POST env req w
     = (Ok (respond (lit "Missing NOTION_WEBHOOK_VERIFICATION_TOKEN") 500), w))
  /\ (forall secret,
        NOTION_WEBHOOK_VERIFICATION_TOKEN env = None ->
        NOTION_WEBHOOK_SECRET env = Some secret -> secret <> [] ->
        x_notion_signature req = Some (hmacSha256Hex secret (text req)) ->
        signed env req
        /\ forall r w', POST env req w = (Ok r, w') -> status r <> 401).
Proof.
  intros Hh. split.
  - intros Hp. apply POST_no_secret; [exact Hh|].
    unfold WEBHOOK_VERIFICATION_TOKEN. rewrite Hp. reflexivity.
  - intros secret Hp Hs Hne Hsig.
    assert (Hsec : WEBHOOK_VERIFICATION_TOKEN env = Some secret)
      by (unfold WEBHOOK_VERIFICATION_TOKEN; rewrite Hp; exact Hs).
    assert (Hsne : hmacSha256Hex secret (text req) <> []).
    { intros Hnil. pose proof (hmacSha256Hex_length secret (text req)) as Hlen.
      rewrite Hnil in Hlen. discriminate. }
    split.
    + exists secret, (hmacSha256Hex secret (text req)). auto.
    + apply (proj2 (POST_signature env req w secret Hh Hsec Hne)).
      * rewrite Hsig. exact Hsne.
      * rewrite Hsig. reflexivity.
Qed.

Lemma signing_secret_falls_back_only_when_unset_witness :
  let hidden :=
    {| NOTION_API_KEY := Some (lit "ntn_key");
       NOTION_EVENTS_QUEUE_DB_ID := Some (lit "db1");
       NOTION_WEBHOOK_VERIFICATION_TOKEN := Some [];
       NOTION_WEBHOOK_SECRET := Some (lit "key");
       UPSTASH_REDIS_REST_URL := None; UPSTASH_REDIS_REST_TOKEN := None;
       AQUEDUCT_ADMIN_SECRET := None |} in
  let req :=
    Examples.request Examples.body_evt1
      (Some (hmacSha256Hex (lit "key") Examples.body_evt1)) in
  @handshake_token Examples.platform req = None
  /\ NOTION_WEBHOOK_VERIFICATION_TOKEN hidden = Some []
  /\ @POST Examples.platform hidden req Examples.world
     = (Ok (respond (lit "Missing NOTION_WEBHOOK_VERIFICATION_TOKEN") 500), Examples.world).
Proof.
  cbn zeta.
  assert (Hh : @handshake_token Examples.platform
                 (Examples.request Examples.body_evt1
                    (Some (hmacSha256Hex (lit "key") Examples.body_evt1))) = None)
    by (vm_compute; reflexivity).
  split; [exact Hh|]. split; [reflexivity|].
  apply (proj1 (@signing_secret_falls_back_only_when_unset Examples.platform _ _ _ Hh)).
  reflexivity.
Defined.

(** X11. Whatever the request and whatever the network does, [POST] never
    rewrites or removes a row of the queue: the store is left as it is, or one
    row is added at the end. A row is added for a validly signed event only;
    it holds the id of the event, which is not empty, and is filed as New and
    not for review. *)
Theorem receiver_only_appends `{Platform} (env : Env) (req : Request) (w : World) :
  let st := store w in
  let st' := store (POST env req w).2 in
  st' = st
  \/ (signed env req
      /\ exists p payload,
           st' = {| database := database st; data_sources := data_sources st;
                    rows := rows st ++ [p]; next_row := next_row st + 1 |}
           /\ JSON_parse (text req) = Some payload
           /\ (forall e, str_field (lit "id") payload = Some e ->
                 e <> [] /\ properties p !! lit "Event ID" = Some (PRichText [e]))
           /\ status_of p = Some (PSelect (lit "New"))
           /\ review_flag_of p = Some (PCheckbox false)).
Proof.
  cbn zeta.
  destruct (POST_cases env req w)
    as [[v Hh] | [(r0 & Hr & _) | [[e He] | (Hsg & payload & db & e & Hp & Hid & Hne & Hup)]]].
  - left. rewrite (POST_handshake env req w v Hh). reflexivity.
  - left. rewrite Hr. reflexivity.
  - left. rewrite He. reflexivity.
  - rewrite Hup.
    match goal with |- context [writeEventToQueue env ?params] =>
      destruct (dedup_and_enqueue env db e params w) as [_ [Hst | (t & now_ & Hst)]];
      [left; exact Hst | right];
      destruct (created_page_props params now_) as (Hev & Hstatus & Hflag & _)
    end.
    split; [exact Hsg|].
    eexists _, payload. split; [exact Hst|]. split; [exact Hp|].
    split; [|split; [exact Hstatus | exact Hflag]].
    intros e' He'. rewrite Hid in He'. injection He' as <-.
    split; [exact Hne | exact Hev].
Qed.

Lemma receiver_only_appends_witness :
  let req :=
    Examples.request Examples.body_evt1
      (Some (hmacSha256Hex (lit "key") Examples.body_evt1)) in
  let old := Examples.queued "p1" "2025-01-01T00:00:01.000Z" "evt_0" in
  let w := Examples.world_of [old] [] [] in
  exists p,
    rows (store (@POST Examples.platform Examples.env req w).2) = [old; p]
    /\ properties p !! lit "Event ID" = Some (PRichText [lit "evt_1"])
    /\ status_of p = Some (PSelect (lit "New")).
Proof.
  intros req old w.
  destruct (@receiver_only_appends Examples.platform Examples.env req w)
    as [Hsame | (_ & p & payload & Hst & Hp & Hid & Hstatus & _)].
  - apply (f_equal (fun st => length (rows st))) in Hsame.
    vm_compute in Hsame. discriminate Hsame.
  - exists p. rewrite Hst. split; [reflexivity|]. split; [|exact Hstatus].
    assert (Hparse : @JSON_parse Examples.platform (text req) = Some Examples.json_evt1)
      by (vm_compute; reflexivity).
    rewrite Hparse in Hp. injection Hp as <-.
    exact (proj2 (Hid (lit "evt_1") ltac:(vm_compute; reflexivity))).
Defined.

(** X12. The two long texts of a new row are cut before they are sent: the
    title is the first 200 code units of the trimmed name, the payload the
    first 1900 of the serialised event. The title never starts with white
    space. *)
Theorem filed_title_and_payload_are_cut `{Platform} (env : Env) (params : Params)
    (w : World) :
  truthy_opt (NOTION_API_KEY env) = true ->
  exists props name payload,
    called [CreatePage (databaseId params) props] w (writeEventToQueue env params w).2
    /\ (lit "Name", Some (PTitle name)) ∈ props
    /\ (lit "Payload (json)", Some (PRichText [payload])) ∈ props
    /\ name = take 200 (trim (type params ++ lit " " ++ [8226] ++ lit " "
                              ++ default (lit "object") (objectType params)
                              ++ lit ":" ++ default [] (objectId params)))
    /\ (length name <= 200)%nat
    /\ payload = take 1900 (payloadJson params)
    /\ (length payload <= 1900)%nat
    /\ (forall c, head name = Some c -> is_space c = false).
Proof.
  intros Hkey.
  exists (strip_undefined (page_properties params (toISOString (now w)))),
         (slice_to 200 (page_name params)), (slice_to 1900 (payloadJson params)).
  split; [|split; [|split; [|split; [|split; [|split; [|split]]]]]].
  - unfold writeEventToQueue. rewrite bind_run. cbn [gets].
    destruct (client_notionFetch_spec env
                (CreatePage (databaseId params)
                   (strip_undefined (page_properties params (toISOString (now w))))) w Hkey)
      as (t & w' & Hc & Hm).
    rewrite bind_run.
    destruct (head (faults w)) as [[f|]|]; destruct Hm as [_ ->];
      try (destruct (serve _ t (store w)).1); exact Hc.
  - apply strip_undefined_keeps. unfold page_properties.
    repeat first [apply list_elem_of_here | apply list_elem_of_further].
  - apply strip_undefined_keeps. unfold page_properties.
    repeat first [apply list_elem_of_here | apply list_elem_of_further].
  - reflexivity.
  - unfold slice_to. rewrite length_take. lia.
  - reflexivity.
  - unfold slice_to. rewrite length_take. lia.
  - intros c Hc. apply (trim_head (type params ++ lit " " ++ [8226] ++ lit " "
                              ++ default (lit "object") (objectType params)
                              ++ lit ":" ++ default [] (objectId params))).
    fold (page_name params). unfold slice_to in Hc.
    destruct (page_name params); [discriminate | exact Hc].
Qed.

Lemma filed_title_and_payload_are_cut_witness :
  let params :=
    {| databaseId := lit "db1"; type := lit "  page.updated"; eventId := lit "evt_1";
       objectType := None; objectId := None; sourceUrl := None;
       payloadJson := Examples.body_evt1 |} in
  truthy_opt (NOTION_API_KEY Examples.env) = true
  /\ exists props name,
       calls (@writeEventToQueue Examples.platform Examples.env params Examples.world).2
       = [CreatePage (lit "db1") props]
       /\ (lit "Name", Some (PTitle name)) ∈ props
       /\ name = lit "page.updated " ++ [8226] ++ lit " object:".
Proof.
  cbn zeta.
  split; [reflexivity|].
  destruct (@filed_title_and_payload_are_cut Examples.platform Examples.env
              {| databaseId := lit "db1"; type := lit "  page.updated";
                 eventId := lit "evt_1"; objectType := None; objectId := None;
                 sourceUrl := None; payloadJson := Examples.body_evt1 |}
              Examples.world ltac:(reflexivity))
    as (props & name & payload & Hc & Hname & _ & Hn & _).
  exists props, name. split; [exact (proj1 Hc)|]. split; [exact Hname|].
  rewrite Hn. vm_compute. reflexivity.
Defined.

(** *** What an answer of the route says about the queue *)

Lemma client_notionFetch_ok `{Platform} env c w r w' :
  notionFetch env c w = (Ok r, w') ->
  exists t, (serve c t (store w)).1 = inr r /\ store w' = (serve c t (store w)).2.
Proof.
  intros Hrun.
  destruct (truthy_opt (NOTION_API_KEY env)) eqn:Hkey.
  - destruct (client_notionFetch_spec env c w Hkey) as (t & w1 & _ & Hm).
    destruct (head (faults w)) as [[f|]|]; destruct Hm as [Hst Hm];
      rewrite Hm in Hrun; try discriminate;
      destruct (serve c t (store w)).1 as [f|r'] eqn:Hs; try discriminate;
      injection Hrun as <- <-; exists t; rewrite Hs; auto.
  - unfold notionFetch in Hrun. rewrite Hkey in Hrun. discriminate.
Qed.

Lemma eventExists_true `{Platform} env ds e w w' :
  eventExists env ds e w = (Ok true, w') -> event_rows e (rows (store w)) <> [].
Proof.
  unfold eventExists. rewrite bind_run.
  destruct (notionFetch env _ w) as [[q|err] w1] eqn:Hrun; [|discriminate].
  intros [= Hlen <-].
  destruct (client_notionFetch_ok _ _ _ _ _ Hrun) as (t & Hs & _).
  cbn [serve] in Hs. destruct (bool_decide _); [|discriminate].
  cbn [fst] in Hs. injection Hs as <-. cbn [results_of] in Hlen.
  unfold run_query in Hlen. fold (event_rows e (rows (store w))) in Hlen.
  intros Hnil. rewrite Hnil in Hlen. discriminate.
Qed.

Lemma writeEventToQueue_done `{Platform} env params w w' :
  writeEventToQueue env params w = (Ok (), w') ->
  exists t,
    store w'
    = {| database := database (store w); data_sources := data_sources (store w);
         rows := rows (store w)
                 ++ [ {| page_id := lit "page-" ++ lit (pretty (next_row (store w)));
                         created_time := toISOString t;
                         properties :=
                           list_to_map (defined_props
                             (strip_undefined
                                (page_properties params (toISOString (now w))))) |} ];
         next_row := next_row (store w) + 1 |}.
Proof.
  unfold writeEventToQueue. rewrite bind_run. unfold gets. cbn beta iota.
  rewrite bind_run.
  destruct (notionFetch env _ w) as [[r|err] w1] eqn:Hrun; [|discriminate].
  intros [= <-].
  destruct (client_notionFetch_ok _ _ _ _ _ Hrun) as (t & Hs & Hst).
  cbn [serve] in Hs, Hst. destruct (bool_decide _); [|discriminate].
  exists t. exact Hst.
Qed.

(** X13. An answer of [POST] can be relied on, whatever the network does.
    When it answers [{ ok: true }], the row of the event has been created: the
    queue is the one before with one New row more, which holds the event id.
    When it answers [{ ok: true, deduped: true }], nothing was written and
    the queue already held a row with that event id. *)
Theorem acknowledged_event_is_in_the_queue `{Platform} (env : Env) (req : Request)
    (w w' : World) (r : Response) :
  POST env req w = (Ok r, w') ->
  (r = Response_json (JObj [(lit "ok", JBool true)]) ->
     exists p,
       rows (store w') = rows (store w) ++ [p]
       /\ status_of p = Some (PSelect (lit "New"))
       /\ forall payload e,
            JSON_parse (text req) = Some payload ->
            str_field (lit "id") payload = Some e ->
            properties p !! lit "Event ID" = Some (PRichText [e]))
  /\ (r = Response_json (JObj [(lit "ok", JBool true); (lit "deduped", JBool true)]) ->
      store w' = store w
      /\ forall payload e,
           JSON_parse (text req) = Some payload ->
           str_field (lit "id") payload = Some e ->
           event_rows e (rows (store w)) <> []).
Proof.
  intros HP.
  destruct (POST_cases env req w)
    as [[v Hh] | [(r0 & Hr & Hs) | [[e He] | (_ & payload & db & e & Hp & Hid & Hne & Hup)]]].
  - rewrite (POST_handshake env req w v Hh) in HP. injection HP as <- <-.
    split; intros Heq; injection Heq as Hk _; vm_compute in Hk; discriminate Hk.
  - rewrite Hr in HP. injection HP as <- <-.
    split; intros ->; cbn in Hs; destruct Hs as [Hs|[Hs|Hs]]; discriminate Hs.
  - rewrite He in HP. discriminate.
  - rewrite Hup, bind_run in HP.
    pose proof (getDatabaseDataSourceId_reads env db w) as H1.
    destruct (getDatabaseDataSourceId env db w) as [[ds|e1] w1]; [|discriminate].
    cbn [snd] in H1. rewrite bind_run in HP.
    pose proof (eventExists_reads env ds e w1) as H2.
    destruct (eventExists env ds e w1) as [[[|]|e2] w2] eqn:Hex; [| |discriminate];
      cbn [snd] in H2.
    + injection HP as <- <-. split; [discriminate|]. intros _.
      split; [congruence|]. intros payload' e' Hp' Hid'.
      rewrite Hp in Hp'. injection Hp' as <-. rewrite Hid in Hid'. injection Hid' as <-.
      rewrite <- H1. eapply eventExists_true. exact Hex.
    + rewrite bind_run in HP.
      match type of HP with context [writeEventToQueue env ?params] =>
        destruct (writeEventToQueue env params w2) as [[[]|e3] w3] eqn:Hw;
          [|discriminate];
        destruct (writeEventToQueue_done _ _ _ _ Hw) as (t & Hst);
        destruct (created_page_props params (toISOString (now w2)))
          as (Hev & Hstatus & _)
      end.
      injection HP as <- <-. split; [|discriminate]. intros _.
      eexists. split; [rewrite Hst; cbn [rows]; rewrite H2, H1; reflexivity|].
      split; [exact Hstatus|]. intros payload' e' Hp' Hid'.
      rewrite Hp in Hp'. injection Hp' as <-. rewrite Hid in Hid'. injection Hid' as <-.
      exact Hev.
Qed.

Lemma acknowledged_event_is_in_the_queue_witness :
  let req :=
    Examples.request Examples.body_evt1
      (Some (hmacSha256Hex (lit "key") Examples.body_evt1)) in
  let first := @POST Examples.platform Examples.env req Examples.world in
  let again := @POST Examples.platform Examples.env req first.2 in
  first.1 = Ok (Response_json (JObj [(lit "ok", JBool true)]))
  /\ again.1 = Ok (Response_json (JObj [(lit "ok", JBool true); (lit "deduped", JBool true)]))
  /\ (exists p, rows (store first.2) = [p] /\ status_of p = Some (PSelect (lit "New")))
  /\ store again.2 = store first.2.
Proof.
  cbn zeta.
  set (req := Examples.request Examples.body_evt1
                (Some (hmacSha256Hex (lit "key") Examples.body_evt1))).
  destruct (@POST Examples.platform Examples.env req Examples.world) as [r1 w1] eqn:H1.
  cbn [fst snd].
  destruct (@POST Examples.platform Examples.env req w1) as [r2 w2] eqn:H2.
  assert (Hr1 : r1 = Ok (Response_json (JObj [(lit "ok", JBool true)]))).
  { pose proof (f_equal fst H1) as Hf. cbn [fst] in Hf. rewrite <- Hf.
    vm_compute. reflexivity. }
  assert (Hr2 : r2 = Ok (Response_json
                           (JObj [(lit "ok", JBool true); (lit "deduped", JBool true)]))).
  { pose proof (f_equal fst H2) as Hf. pose proof (f_equal snd H1) as Hs.
    cbn [fst snd] in Hf, Hs. rewrite <- Hf, <- Hs. vm_compute. reflexivity. }
  subst r1 r2. cbn [fst snd].
  split; [reflexivity|]. split; [reflexivity|].
  destruct (proj1 (@acknowledged_event_is_in_the_queue Examples.platform _ _ _ _ _ H1)
              eq_refl) as (p & Hrows & Hstatus & _).
  destruct (proj2 (@acknowledged_event_is_in_the_queue Examples.platform _ _ _ _ _ H2)
              eq_refl) as (Hst & _).
  split; [exists p; split; [exact Hrows | exact Hstatus] | exact Hst].
Defined.

(** A call of the client is sent, unless the API key is missing. *)
Lemma client_notionFetch_sent `{Platform} env c w :
  (exists e, notionFetch env c w = (Throw e, w))
  \/ calls (notionFetch env c w).2 = calls w ++ [c].
Proof.
  destruct (truthy_opt (NOTION_API_KEY env)) eqn:Hkey.
  - right. destruct (client_notionFetch_spec env c w Hkey) as (t & w' & Hc & Hm).
    destruct (head (faults w)) as [[f|]|]; destruct Hm as [_ ->]; apply Hc.
  - left. unfold notionFetch. rewrite Hkey. eexists. reflexivity.
Qed.

Lemma getDatabaseDataSourceId_sent `{Platform} env db w :
  (exists e, getDatabaseDataSourceId env db w = (Throw e, w))
  \/ calls (getDatabaseDataSourceId env db w).2 = calls w ++ [GetDatabase db].
Proof.
  unfold getDatabaseDataSourceId. rewrite bind_run.
  destruct (client_notionFetch_sent env (GetDatabase db) w) as [[e He] | Hc].
  - left. rewrite He. eauto.
  - right. destruct (notionFetch env (GetDatabase db) w) as [[r|e] w1];
      cbn [snd] in Hc; [|exact Hc].
    destruct r as [[|ds dss]| |]; try exact Hc.
    destruct (truthy_string ds); exact Hc.
Qed.

Lemma eventExists_sent `{Platform} env ds e w :
  (exists err, eventExists env ds e w = (Throw err, w))
  \/ calls (eventExists env ds e w).2
     = calls w ++ [QueryDataSource ds 1 (RichTextEquals (lit "Event ID") e) false].
Proof.
  unfold eventExists. rewrite bind_run.
  destruct (client_notionFetch_sent env
              (QueryDataSource ds 1 (RichTextEquals (lit "Event ID") e) false) w)
    as [[err He] | Hc].
  - left. rewrite He. eauto.
  - right. destruct (notionFetch env _ w) as [[r|err] w1]; exact Hc.
Qed.

Lemma writeEventToQueue_sent `{Platform} env params w :
  (exists err, writeEventToQueue env params w = (Throw err, w))
  \/ exists props,
       calls (writeEventToQueue env params w).2
       = calls w ++ [CreatePage (databaseId params) props].
Proof.
  unfold writeEventToQueue. rewrite bind_run. unfold gets. cbn beta iota.
  rewrite bind_run.
  destruct (client_notionFetch_sent env
              (CreatePage (databaseId params)
                 (strip_undefined (page_properties params (toISOString (now w))))) w)
    as [[err He] | Hc].
  - left. rewrite He. eauto.
  - right. eexists.
    destruct (notionFetch env _ w) as [[r|err] w1]; exact Hc.
Qed.

(** X14. [POST] sends the call that files a row once at most, and as its
    last call. Either it has sent calls that read the store only, and the
    store is as it was; or it has sent such calls and then the one that files
    the row, and it answers [{ ok: true }] or throws, as that call went. So
    an answer other than [{ ok: true }] was given without an attempt to
    write. *)
Theorem row_is_filed_by_the_last_call_only `{Platform} (env : Env) (req : Request)
    (w : World) :
  let run := POST env req w in
  (exists reads,
     Forall is_read reads
     /\ ((calls run.2 = calls w ++ reads /\ store run.2 = store w)
         \/ exists db props,
              calls run.2 = calls w ++ reads ++ [CreatePage db props]
              /\ (run.1 = Ok (Response_json (JObj [(lit "ok", JBool true)]))
                  \/ exists e, run.1 = Throw e)))
  /\ (forall r, run.1 = Ok r ->
      r <> Response_json (JObj [(lit "ok", JBool true)]) ->
      store run.2 = store w
      /\ exists reads, Forall is_read reads /\ calls run.2 = calls w ++ reads).
Proof.
  cbn zeta.
  assert (Hmain : exists reads,
     Forall is_read reads
     /\ ((calls (POST env req w).2 = calls w ++ reads
          /\ store (POST env req w).2 = store w)
         \/ exists db props,
              calls (POST env req w).2 = calls w ++ reads ++ [CreatePage db props]
              /\ ((POST env req w).1 = Ok (Response_json (JObj [(lit "ok", JBool true)]))
                  \/ exists e, (POST env req w).1 = Throw e))).
  { assert (Hnone : forall w', calls w' = calls w -> store w' = store w ->
              exists reads,
                Forall is_read reads
                /\ ((calls w' = calls w ++ reads /\ store w' = store w)
                    \/ exists db props,
                         calls w' = calls w ++ reads ++ [CreatePage db props]
                         /\ ((POST env req w).1
                             = Ok (Response_json (JObj [(lit "ok", JBool true)]))
                             \/ exists e, (POST env req w).1 = Throw e))).
    { intros w' Hc Hs. exists []. split; [constructor|]. left.
      rewrite app_nil_r. auto. }
    destruct (POST_cases env req w)
      as [[v Hh] | [(r0 & Hr & _) | [[e He] | (_ & payload & db & e & _ & _ & _ & Hup)]]].
    - apply Hnone; rewrite (POST_handshake env req w v Hh); reflexivity.
    - apply Hnone; rewrite Hr; reflexivity.
    - apply Hnone; rewrite He; reflexivity.
    - rewrite Hup. clear Hup Hnone. rewrite bind_run.
      pose proof (getDatabaseDataSourceId_reads env db w) as Hs1.
      assert (Hc1 : exists cs1, Forall is_read cs1
                /\ calls (getDatabaseDataSourceId env db w).2 = calls w ++ cs1).
      { destruct (getDatabaseDataSourceId_sent env db w) as [[e1 He1] | Hc].
        - exists []. split; [constructor|]. rewrite He1, app_nil_r. reflexivity.
        - exists [GetDatabase db]. split; [repeat constructor | exact Hc]. }
      destruct Hc1 as (cs1 & Hr1 & Hc1).
      destruct (getDatabaseDataSourceId env db w) as [[ds|e1] w1]; cbn [snd] in *.
      2:{ exists cs1. split; [exact Hr1|]. left. auto. }
      rewrite bind_run.
      pose proof (eventExists_reads env ds e w1) as Hs2.
      assert (Hc2 : exists cs2, Forall is_read cs2
                /\ calls (eventExists env ds e w1).2 = calls w1 ++ cs2).
      { destruct (eventExists_sent env ds e w1) as [[e2 He2] | Hc].
        - exists []. split; [constructor|]. rewrite He2, app_nil_r. reflexivity.
        - eexists [_]. split; [|exact Hc]. repeat constructor. }
      destruct Hc2 as (cs2 & Hr2 & Hc2).
      assert (Hr12 : Forall is_read (cs1 ++ cs2)) by (apply Forall_app; auto).
      destruct (eventExists env ds e w1) as [[[|]|e2] w2]; cbn [snd] in *.
      + exists (cs1 ++ cs2). split; [exact Hr12|]. left.
        unfold mret, M_ret. cbn [snd].
        rewrite Hc2, Hc1, app_assoc. split; [reflexivity | congruence].
      + rewrite bind_run.
        set (params := {| databaseId := db; type := _; eventId := e;
                          objectType := _; objectId := _; sourceUrl := None;
                          payloadJson := _ |}).
        exists (cs1 ++ cs2). split; [exact Hr12|].
        destruct (writeEventToQueue_sent env params w2) as [[e3 He3] | [props Hc3]].
        * left. rewrite He3. cbn [snd].
          rewrite Hc2, Hc1, app_assoc. split; [reflexivity | congruence].
        * right. exists (databaseId params), props.
          destruct (writeEventToQueue env params w2) as [[[]|e3] w3];
            unfold mret, M_ret; cbn [fst snd] in *.
          -- rewrite Hc3, Hc2, Hc1, <- !app_assoc. split; [reflexivity|].
             left. reflexivity.
          -- rewrite Hc3, Hc2, Hc1, <- !app_assoc. split; [reflexivity|].
             right. eauto.
      + exists (cs1 ++ cs2). split; [exact Hr12|]. left.
        rewrite Hc2, Hc1, app_assoc. split; [reflexivity | congruence]. }
  split; [exact Hmain|].
  intros r Hr Hne. destruct Hmain as (reads & Hreads & [[Hc Hs] | Hw]).
  - split; [exact Hs|]. exists reads. auto.
  - destruct Hw as (db & props & _ & [Hack | [e He]]); rewrite Hr in *.
    + injection Hack as ->. destruct Hne. reflexivity.
    + discriminate.
Qed.

(** X14 at an event already queued, and at one whose create call meets a
    network failure. *)
Lemma row_is_filed_by_the_last_call_only_witness :
  let req :=
    Examples.request Examples.body_evt1
      (Some (hmacSha256Hex (lit "key") Examples.body_evt1)) in
  let queued := Examples.queued "p1" "2025-01-01T00:00:01.000Z" "evt_1" in
  let again := @POST Examples.platform Examples.env req (Examples.world_of [queued] [] []) in
  let failed :=
    @POST Examples.platform Examples.env req
      (Examples.world_of [] [None; None; Some NetworkError] []) in
  again.1 = Ok (Response_json (JObj [(lit "ok", JBool true); (lit "deduped", JBool true)]))
  /\ store again.2 = store (Examples.world_of [queued] [] [])
  /\ failed.1 = Throw (TypeError (lit "fetch failed"))
  /\ is_read <$> calls failed.2 = [True; True; False].
Proof.
  intros req queued again failed.
  assert (Hrun : again.1
            = Ok (Response_json (JObj [(lit "ok", JBool true); (lit "deduped", JBool true)])))
    by (vm_compute; reflexivity).
  split; [exact Hrun|]. split.
  - apply (proj2 (@row_is_filed_by_the_last_call_only Examples.platform Examples.env req
                    (Examples.world_of [queued] [] [])) _ Hrun).
    discriminate.
  - split; vm_compute; reflexivity.
Defined.

End WebhookGuardProps.

(* ===================================================================== *)
(** ** The upstream client, in the library and in the worker *)
(* ===================================================================== *)

Module ClientProps.
Import JS Model Spec WorkerSpec JSFacts WorldFacts RateLimiterProps QueueWriteProps.

Lemma throttle_rounds_agree env rounds : forall w,
  Notion.getRedis env = true ->
  Worker.throttle_rounds rounds w
  = Notion.throttleOrWait_rounds rounds (Notion.getLimiter env Notion.notion) (lit "global") w.
Proof.
  induction rounds as [|rounds IH]; intros w Hcfg; [reflexivity|].
  cbn [Worker.throttle_rounds Notion.throttleOrWait_rounds].
  rewrite (getLimiter_configured env Notion.notion (lit "global") w Hcfg).
  unfold Ratelimit_limit.
  destruct (counter w) as [|r rest].
  - reflexivity.
  - cbn [Notion.ok Notion.resetMs default from_option id].
    destruct (success r); [reflexivity|]. apply IH, Hcfg.
Qed.

Lemma throttle_agrees env w :
  Worker.throttle env w
  = Notion.throttleOrWait (Notion.getLimiter env Notion.notion) (lit "global") w.
Proof.
  unfold Worker.throttle, Notion.throttleOrWait.
  change (Worker.limiter_configured env) with (Notion.getRedis env).
  destruct (Notion.getRedis env) eqn:Hcfg; cbn [negb].
  - rewrite (throttle_rounds_agree env) by exact Hcfg. reflexivity.
  - cbn [Notion.throttleOrWait_rounds].
    rewrite (getLimiter_unconfigured env Notion.notion (lit "global") w Hcfg).
    reflexivity.
Qed.

Lemma notionFetch_agrees `{Platform} env c w :
  truthy_opt (NOTION_API_KEY env) = true ->
  Worker.notionFetch env c w = Notion.notionFetch env c w.
Proof.
  intros Hkey. unfold Worker.notionFetch, Notion.notionFetch.
  rewrite Hkey. cbn [negb]. rewrite !bind_run, (throttle_agrees env). reflexivity.
Qed.

(** X15. The library's [notionFetch] without an API key throws before it
    does anything: the limiter is not asked and no call is sent. With a key,
    one call is sent each time, whatever the answer; a non-2xx answer is
    thrown as [Notion API error <status>: <text>] and leaves the store as it
    was. *)
Theorem client_fetch_failures `{Platform} (env : Env) (c : Call) (w : World) :
  (truthy_opt (NOTION_API_KEY env) = false ->
     Notion.notionFetch env c w = (Throw (Error (lit "Missing NOTION_API_KEY")), w))
  /\ (truthy_opt (NOTION_API_KEY env) = true ->
      calls (Notion.notionFetch env c w).2 = calls w ++ [c]
      /\ forall status text,
           head (faults w) = Some (Some (HttpError status text)) ->
           (Notion.notionFetch env c w).1
           = Throw (Error (lit "Notion API error " ++ lit (pretty status)
                           ++ lit ": " ++ text))
           /\ store (Notion.notionFetch env c w).2 = store w).
Proof.
  split.
  - intros Hkey. unfold Notion.notionFetch. rewrite Hkey. reflexivity.
  - intros Hkey.
    destruct (client_notionFetch_spec env c w Hkey) as (t & w' & Hc & Hm).
    split.
    + destruct (head (faults w)) as [[f|]|]; destruct Hm as [_ ->]; exact (proj1 Hc).
    + intros status text Hf. rewrite Hf in Hm. destruct Hm as [Hst ->].
      split; [reflexivity | exact Hst].
Qed.

Lemma client_fetch_failures_witness :
  let w := Examples.world_of [] [Some (HttpError 429 (lit "rate_limited"))] [] in
  let c := GetDatabase (lit "db1") in
  truthy_opt (NOTION_API_KEY Examples.env) = true
  /\ head (faults w) = Some (Some (HttpError 429 (lit "rate_limited")))
  /\ (@Notion.notionFetch Examples.platform Examples.env c w).1
     = Throw (Error (lit "Notion API error 429: rate_limited"))
  /\ calls (@Notion.notionFetch Examples.platform Examples.env c w).2 = [c].
Proof.
  cbn zeta.
  pose proof (proj2 (@client_fetch_failures Examples.platform Examples.env
                       (GetDatabase (lit "db1"))
                       (Examples.world_of [] [Some (HttpError 429 (lit "rate_limited"))] []))
                ltac:(reflexivity)) as [Hcalls Hthrow].
  split; [reflexivity|]. split; [reflexivity|].
  split; [exact (proj1 (Hthrow 429 (lit "rate_limited") ltac:(reflexivity))) | exact Hcalls].
Defined.

(** X16. [getDatabaseDataSourceId] on the database of the store, when the
    fetch goes through: it returns the id of the first data source, and
    throws [Database has no data_sources[0].id] when the database lists none
    or the first id is empty. It sends the one call and never changes the
    store. *)
Theorem data_source_lookup `{Platform} (env : Env) (w : World) :
  truthy_opt (NOTION_API_KEY env) = true ->
  next_fetch_goes_through w ->
  let run := Notion.getDatabaseDataSourceId env (database (store w)) w in
  run.1 = match data_sources (store w) with
          | ds :: _ =>
              if truthy_string ds then Ok ds
              else Throw (Error (lit "Database has no data_sources[0].id"))
          | [] => Throw (Error (lit "Database has no data_sources[0].id"))
          end
  /\ store run.2 = store w
  /\ calls run.2 = calls w ++ [GetDatabase (database (store w))].
Proof.
  intros Hkey Hgo. cbn zeta. unfold Notion.getDatabaseDataSourceId. rewrite bind_run.
  destruct (client_notionFetch_spec env (GetDatabase (database (store w))) w Hkey)
    as (t & w' & Hc & Hm).
  unfold next_fetch_goes_through in Hgo.
  assert (Hrun : Notion.notionFetch env (GetDatabase (database (store w))) w
                 = (Ok (RDatabase (data_sources (store w))), w')
                 /\ store w' = store w).
  { destruct (head (faults w)) as [[f|]|]; [destruct Hgo| |];
      destruct Hm as [Hst ->]; cbn [serve] in *;
      rewrite bool_decide_eq_true_2 in * by reflexivity; auto. }
  destruct Hrun as [-> Hst].
  destruct (data_sources (store w)) as [|ds dss]; [|destruct (truthy_string ds)];
    (split; [reflexivity|]; split; [exact Hst | exact (proj1 Hc)]).
Qed.

Lemma data_source_lookup_witness :
  let w :=
    {| now := 0;
       store := {| database := lit "db1"; data_sources := []; rows := []; next_row := 0 |};
       faults := []; calls := []; redis := ∅; counter := []; sleeps := []; console := [] |} in
  truthy_opt (NOTION_API_KEY Examples.env) = true
  /\ next_fetch_goes_through w
  /\ (@Notion.getDatabaseDataSourceId Examples.platform Examples.env (lit "db1") w).1
     = Throw (Error (lit "Database has no data_sources[0].id")).
Proof.
  cbn zeta. split; [reflexivity|]. split; [exact I|].
  exact (proj1 (@data_source_lookup Examples.platform Examples.env
                  {| now := 0;
                     store := {| database := lit "db1"; data_sources := [];
                                 rows := []; next_row := 0 |};
                     faults := []; calls := []; redis := ∅; counter := [];
                     sleeps := []; console := [] |}
                  ltac:(reflexivity) I)).
Defined.

(** X17. The worker carries its own copy of the limiter loop and of the
    client. They behave as the library's: [throttle()] is
    [throttleOrWait(getLimiter("notion"), "global")], and with an API key set
    [notionFetch] and [getDataSourceId] are the library's [notionFetch] and
    [getDatabaseDataSourceId], result and effects alike. *)
Theorem worker_client_is_the_library_client `{Platform} (env : Env) (w : World) :
  Worker.throttle env w
  = Notion.throttleOrWait (Notion.getLimiter env Notion.notion) (lit "global") w
  /\ (truthy_opt (NOTION_API_KEY env) = true ->
      (forall c, Worker.notionFetch env c w = Notion.notionFetch env c w)
      /\ (forall databaseId,
            Worker.getDataSourceId env databaseId w
            = Notion.getDatabaseDataSourceId env databaseId w)).
Proof.
  split; [apply throttle_agrees|].
  intros Hkey. split.
  - intros c. apply notionFetch_agrees, Hkey.
  - intros databaseId. unfold Worker.getDataSourceId, Notion.getDatabaseDataSourceId.
    rewrite !bind_run, notionFetch_agrees by exact Hkey. reflexivity.
Qed.

Lemma worker_client_is_the_library_client_witness :
  let w :=
    Examples.world_of [] [None] [Examples.denied 1100; Examples.denied 2000] in
  truthy_opt (NOTION_API_KEY Examples.env) = true
  /\ @Worker.getDataSourceId Examples.platform Examples.env (lit "db1") w
     = @Notion.getDatabaseDataSourceId Examples.platform Examples.env (lit "db1") w
  /\ sleeps (@Worker.getDataSourceId Examples.platform Examples.env (lit "db1") w).2
     = [250; 750]%Z.
Proof.
  cbn zeta.
  pose proof (proj2 (proj2 (@worker_client_is_the_library_client Examples.platform
                              Examples.env
                              (Examples.world_of [] [None]
                                 [Examples.denied 1100; Examples.denied 2000]))
                       ltac:(reflexivity)) (lit "db1")) as Hagree.
  split; [reflexivity|]. split; [exact Hagree|].
  vm_compute. reflexivity.
Defined.

End ClientProps.

(* ===================================================================== *)
(** ** The worker: what a run can do to the queue *)
(* ===================================================================== *)

Module WorkerInvariantProps.
Import JS Model Worker Spec WorkerSpec WorkerRunSpec JSFacts WorldFacts WorkerFacts
  WorkerDedupFacts.

(** What a fetch of the worker does to the store: nothing, or what the store
    does when it serves the call. *)
Lemma worker_fetch_store `{Platform} env c w :
  store (notionFetch env c w).2 = store w
  \/ exists t, store (notionFetch env c w).2 = (serve c t (store w)).2.
Proof.
  destruct (notionFetch_spec env c w) as (t & w' & _ & Hm).
  destruct (head (faults w)) as [[f|]|]; destruct Hm as [Hst ->]; cbn [snd];
    first [left; exact Hst | right; exists t; exact Hst].
Qed.

Lemma worker_read `{Platform} env c w :
  (forall t st, (serve c t st).2 = st) ->
  store (notionFetch env c w).2 = store w /\ called [c] w (notionFetch env c w).2.
Proof.
  intros Hc. split; [|apply notionFetch_called].
  destruct (worker_fetch_store env c w) as [Hst | [t Hst]]; rewrite Hst; [reflexivity|].
  apply Hc.
Qed.

Lemma getDataSourceId_read `{Platform} env db w :
  store (getDataSourceId env db w).2 = store w
  /\ called [GetDatabase db] w (getDataSourceId env db w).2.
Proof.
  unfold getDataSourceId. rewrite bind_run.
  destruct (worker_read env (GetDatabase db) w) as [Hst Hc].
  { intros t st. cbn [serve]. destruct (bool_decide _); reflexivity. }
  destruct (notionFetch env (GetDatabase db) w) as [[r|e] w1]; cbn [snd] in *; [|auto].
  destruct r as [[|ds dss]| |]; try (split; assumption).
  destruct (truthy_string ds); split; assumption.
Qed.

Lemma query_read `{Platform} env ds n f sorted w :
  store (notionFetch env (QueryDataSource ds n f sorted) w).2 = store w
  /\ called [QueryDataSource ds n f sorted] w
            (notionFetch env (QueryDataSource ds n f sorted) w).2.
Proof.
  apply worker_read. intros t st. cbn [serve]. destruct (bool_decide _); reflexivity.
Qed.

(** The rows a query of the worker returns are rows the store selects. *)
Lemma query_results `{Platform} env ds n f sorted w q w' :
  notionFetch env (QueryDataSource ds n f sorted) w = (Ok q, w') ->
  results_of q = run_query n f sorted (rows (store w)).
Proof.
  intros Hrun.
  destruct (notionFetch_spec env (QueryDataSource ds n f sorted) w) as (t & w1 & _ & Hm).
  destruct (head (faults w)) as [[flt|]|]; destruct Hm as [_ Hm];
    rewrite Hm in Hrun; try discriminate;
    cbn [serve] in Hrun; destruct (bool_decide _); cbn [fst] in Hrun;
    try discriminate; injection Hrun as <- _; reflexivity.
Qed.

Lemma Forall2_insert_self {A} (R : A -> A -> Prop) (l : list A) : forall i x y,
  (forall a, R a a) -> l !! i = Some x -> R x y -> Forall2 R l (<[i := y]> l).
Proof.
  induction l as [|z l IH]; intros i x y Hrefl Hi Hxy; [discriminate|].
  destruct i as [|i]; cbn in Hi.
  - injection Hi as ->. cbn. constructor; [exact Hxy|].
    apply Forall2_same_length_lookup_2; [reflexivity|].
    intros j a b Ha Hb. rewrite Ha in Hb. injection Hb as <-. apply Hrefl.
  - change (<[S i := y]> (z :: l)) with (z :: <[i := y]> l).
    constructor; [apply Hrefl | eapply IH; eassumption].
Qed.

Ltac in_worker_props :=
  let k := fresh "k" in
  let Hk := fresh "Hk" in
  intros k Hk; cbn in Hk; unfold worker_props;
  repeat (apply elem_of_cons in Hk as [-> | Hk];
          [repeat first [apply list_elem_of_here | apply list_elem_of_further]|]);
  inversion Hk.

Lemma in_progress_props : in_progress.*1 ⊆ worker_props.
Proof. in_worker_props. Qed.

Lemma deduped_props keeper e : (deduped keeper e).*1 ⊆ worker_props.
Proof. in_worker_props. Qed.

Lemma needs_review_props t : (needs_review t).*1 ⊆ worker_props.
Proof. in_worker_props. Qed.

Lemma failed_props err : (failed err).*1 ⊆ worker_props.
Proof. in_worker_props. Qed.

(** *** A relation on stores that the patches of the worker keep *)

Section Frame.
Context `{Platform} (R : Store -> Store -> Prop).
Hypothesis R_refl : forall st, R st st.
Hypothesis R_trans : forall st1 st2 st3, R st1 st2 -> R st2 st3 -> R st1 st3.

Lemma keeps_bind {A B} (m : M A) (f : A -> M B) :
  keeps R m -> (forall a, keeps R (f a)) -> keeps R (m ≫= f).
Proof.
  intros Hm Hf w. rewrite bind_run. specialize (Hm w).
  destruct (m w) as [[a|e] w1]; cbn [snd] in *; [|exact Hm].
  eapply R_trans; [exact Hm | apply Hf].
Qed.

Lemma keeps_ret {A} (a : A) : keeps R (mret a : M A).
Proof. intros w. apply R_refl. Qed.

Lemma keeps_throw {A} (e : exn) : keeps R (throw e : M A).
Proof. intros w. apply R_refl. Qed.

Lemma keeps_console_log line : keeps R (console_log line).
Proof. intros w. apply R_refl. Qed.

Lemma keeps_console_error line e : keeps R (console_error line e).
Proof. intros w. apply R_refl. Qed.

Lemma keeps_try_catch {A} (body : M A) (handler : exn -> M A) :
  keeps R body -> (forall e, keeps R (handler e)) -> keeps R (try_catch body handler).
Proof.
  intros Hb Hh w. unfold try_catch. specialize (Hb w).
  destruct (body w) as [[a|e] w1]; cbn [snd] in *; [exact Hb|].
  eapply R_trans; [exact Hb | apply Hh].
Qed.

Lemma keeps_for_of {A} (l : list A) (body : A -> M ()) :
  (forall x, x ∈ l -> keeps R (body x)) -> keeps R (for_of l body).
Proof.
  induction l as [|x l IH]; intros Hb; cbn [for_of]; [apply keeps_ret|].
  apply keeps_bind; [apply Hb; left | intros _; apply IH].
  intros y Hy. apply Hb. right. exact Hy.
Qed.

Lemma keeps_query env ds n f sorted :
  keeps R (notionFetch env (QueryDataSource ds n f sorted)).
Proof. intros w. rewrite (proj1 (query_read env ds n f sorted w)). apply R_refl. Qed.

Section Row.
Context (pageId : jsstring).
Hypothesis R_patch : forall c t st, worker_patch pageId c -> R st (serve c t st).2.

Lemma keeps_updatePage env props :
  props.*1 ⊆ worker_props -> keeps R (updatePage env pageId props).
Proof.
  intros Hsub w. unfold updatePage.
  destruct (worker_fetch_store env (UpdatePage pageId props) w) as [-> | [t ->]];
    [apply R_refl | apply R_patch].
  exists props. split; [reflexivity | exact Hsub].
Qed.

Lemma keeps_processEvent env page ds :
  page_id page = pageId -> keeps R (processEvent env page ds).
Proof.
  intros Hid. unfold processEvent. rewrite Hid.
  assert (Hd : forall t, keeps R (updatePage env pageId (needs_review t);; mret ())).
  { intros t. apply keeps_bind; [apply keeps_updatePage, needs_review_props|].
    intros _. apply keeps_ret. }
  apply keeps_bind; [apply keeps_updatePage, in_progress_props|]. intros _.
  destruct (truthy_string _); [|apply Hd].
  apply keeps_bind; [apply keeps_query|]. intros q.
  destruct (1 <? length (results_of q))%nat; [|apply Hd].
  destruct (_ && _); [|apply Hd].
  apply keeps_bind; [apply keeps_updatePage, deduped_props|].
  intros _. apply keeps_ret.
Qed.

Lemma keeps_main_row env ds page :
  page_id page = pageId -> keeps R (main_row env ds page).
Proof.
  intros Hid. unfold main_row. apply keeps_try_catch.
  - apply keeps_bind; [apply keeps_processEvent, Hid|]. intros _. apply keeps_console_log.
  - intros err. apply keeps_bind; [apply keeps_console_error|]. intros _.
    apply keeps_try_catch; [|intros _; apply keeps_ret].
    rewrite Hid. apply keeps_bind; [apply keeps_updatePage, failed_props|].
    intros _. apply keeps_ret.
Qed.
End Row.

(** A run keeps what the patches to the rows of its batch keep. *)
Lemma main_keeps env DB_ID w :
  (forall page c t st,
     page ∈ new_batch (rows (store w)) ->
     worker_patch (page_id page) c -> R st (serve c t st).2) ->
  R (store w) (store (main env DB_ID w).2).
Proof.
  intros Hpatch. unfold main. rewrite bind_run.
  pose proof (proj1 (getDataSourceId_read env DB_ID w)) as Hst1.
  destruct (getDataSourceId env DB_ID w) as [[ds|e] w1]; cbn [snd] in *;
    [|rewrite Hst1; apply R_refl].
  rewrite bind_run. unfold queryNewEvents.
  pose proof (proj1 (query_read env ds 25 (SelectEquals (lit "Status") (lit "New")) true w1))
    as Hst2.
  pose proof (query_results env ds 25 (SelectEquals (lit "Status") (lit "New")) true w1)
    as Hres.
  destruct (notionFetch env _ w1) as [[q|e] w2]; cbn [snd] in *;
    [|rewrite Hst2, Hst1; apply R_refl].
  specialize (Hres q w2 eq_refl). rewrite Hst1 in Hres.
  fold (new_batch (rows (store w))) in Hres.
  rewrite bind_run. cbn [console_log modify].
  match goal with |- context [for_of _ _ ?x] => set (w3 := x) end.
  replace (store w) with (store w3) at 1 by (subst w3; cbn [store with_console]; congruence).
  apply keeps_for_of. intros page Hpage.
  apply (keeps_main_row (page_id page)); [|reflexivity].
  intros c t st. apply Hpatch. rewrite <- Hres. exact Hpage.
Qed.

End Frame.

Lemma touched_only_refl p : touched_only p p.
Proof. repeat split. Qed.

Lemma touched_only_trans p q r : touched_only p q -> touched_only q r -> touched_only p r.
Proof.
  intros (H1 & H2 & H3) (H4 & H5 & H6). unfold touched_only.
  split; [congruence|]. split; [congruence|].
  intros k Hk. rewrite H6, H3 by exact Hk. reflexivity.
Qed.

Lemma rows_kept_refl st : rows_kept st st.
Proof.
  repeat split. apply Forall2_same_length_lookup_2; [reflexivity|].
  intros i x y Hx Hy. rewrite Hx in Hy. injection Hy as <-. apply touched_only_refl.
Qed.

Lemma rows_kept_trans st1 st2 st3 : rows_kept st1 st2 -> rows_kept st2 st3 -> rows_kept st1 st3.
Proof.
  intros (H1 & H2 & H3 & H4) (H5 & H6 & H7 & H8). unfold rows_kept.
  split; [congruence|]. split; [congruence|]. split; [congruence|].
  clear H1 H2 H3 H5 H6 H7. revert H8. generalize (rows st3).
  induction H4 as [|a b l1 l2 Hab _ IH]; intros l3 H23; inversion H23; subst; constructor.
  - eapply touched_only_trans; eassumption.
  - apply IH. assumption.
Qed.

Lemma patch_touched_only props p :
  props.*1 ⊆ worker_props -> touched_only p (patch_page props p).
Proof.
  intros Hsub. split; [reflexivity|]. split; [reflexivity|].
  intros k Hk. cbn [patch_page properties].
  apply lookup_union_r, not_elem_of_list_to_map_1.
  intros Hin. apply Hk, Hsub, Hin.
Qed.

Lemma serve_patch_kept `{Platform} pageId c t st :
  worker_patch pageId c -> rows_kept st (serve c t st).2.
Proof.
  intros (props & -> & Hsub). cbn [serve].
  destruct (list_find _ (rows st)) as [[i p]|] eqn:Hfind; [|apply rows_kept_refl].
  cbn [snd]. repeat split; cbn.
  apply list_find_Some in Hfind as (Hi & _ & _).
  eapply Forall2_insert_self; [apply touched_only_refl | exact Hi|].
  apply patch_touched_only, Hsub.
Qed.

Lemma keeps_main `{Platform} env DB_ID : keeps rows_kept (main env DB_ID).
Proof.
  intros w. apply main_keeps; [apply rows_kept_refl | apply rows_kept_trans|].
  intros page c t st _. apply serve_patch_kept.
Qed.

(** X18. Whatever the network and the limiter do, a run of the worker keeps
    every row of the queue, in the same order, with the same id and creation
    time; it creates no row, and the only properties whose values it may
    change are Status, Needs human review and Scipio log. *)
Theorem worker_writes_three_properties_only `{Platform} (env : Env) (w : World) :
  let st := store w in
  let st' := store (script env w).2 in
  database st' = database st
  /\ data_sources st' = data_sources st
  /\ next_row st' = next_row st
  /\ length (rows st') = length (rows st)
  /\ forall i p,
       rows st !! i = Some p ->
       exists q,
         rows st' !! i = Some q
         /\ page_id q = page_id p
         /\ created_time q = created_time p
         /\ forall k,
              k <> lit "Status" -> k <> lit "Needs human review" -> k <> lit "Scipio log" ->
              properties q !! k = properties p !! k.
Proof.
  cbn zeta.
  assert (Hk : rows_kept (store w) (store (script env w).2)).
  { revert w. change (keeps rows_kept (script env)). unfold script.
    destruct (negb _); [apply keeps_throw, rows_kept_refl|].
    destruct (NOTION_EVENTS_QUEUE_DB_ID env) as [[|c db]|];
      try apply keeps_throw, rows_kept_refl.
    apply keeps_try_catch; [apply rows_kept_trans| |].
    - apply keeps_bind; [apply rows_kept_trans | apply keeps_main|].
      intros _. apply keeps_ret, rows_kept_refl.
    - intros e. apply keeps_bind;
        [apply rows_kept_trans | apply keeps_console_error, rows_kept_refl|].
      intros _. apply keeps_ret, rows_kept_refl. }
  destruct Hk as (H1 & H2 & H3 & H4).
  split; [exact H1|]. split; [exact H2|]. split; [exact H3|].
  split; [symmetry; eapply Forall2_length; exact H4|].
  intros i p Hi.
  destruct (Forall2_lookup_l _ _ _ _ _ H4 Hi) as (q & Hq & Hid & Hct & Hprops).
  exists q. split; [exact Hq|]. split; [exact Hid|]. split; [exact Hct|].
  intros k Hk1 Hk2 Hk3. apply Hprops. unfold worker_props. intros Hin.
  repeat (apply elem_of_cons in Hin as [-> | Hin]; [congruence|]).
  inversion Hin.
Qed.

Lemma worker_writes_three_properties_only_witness :
  let p1 := Examples.queued "p1" "2025-01-01T00:00:01.000Z" "evt_1" in
  let w := Examples.world_of [p1] [None; None; None; Some NetworkError] [] in
  exists q,
    rows (store (@script Examples.platform Examples.env w).2) !! O = Some q
    /\ page_id q = lit "p1"
    /\ properties q !! lit "Event ID" = Some (PRichText [lit "evt_1"])
    /\ properties q !! lit "Status" = Some (PSelect (lit "Error")).
Proof.
  intros p1 w.
  destruct (@worker_writes_three_properties_only Examples.platform Examples.env w)
    as (_ & _ & _ & _ & Hrows).
  destruct (Hrows O p1 eq_refl) as (q & Hq & Hid & _ & Hprops).
  exists q. split; [exact Hq|]. split; [exact Hid|]. split.
  - rewrite Hprops by (vm_compute; discriminate). vm_compute. reflexivity.
  - vm_compute in Hq. injection Hq as <-. vm_compute. reflexivity.
Defined.

Lemma kept_outside_refl ids st : kept_outside ids st st.
Proof.
  apply Forall2_same_length_lookup_2; [reflexivity|].
  intros i x y Hx Hy. rewrite Hx in Hy. injection Hy as <-. auto.
Qed.

Lemma kept_outside_trans ids st1 st2 st3 :
  kept_outside ids st1 st2 -> kept_outside ids st2 st3 -> kept_outside ids st1 st3.
Proof.
  unfold kept_outside. generalize (rows st1) (rows st2) (rows st3). clear.
  intros l1 l2 l3 H12. revert l3.
  induction H12 as [|a b l1 l2 [Hid Hab] _ IH]; intros l3 H23;
    inversion H23 as [|b' c l2' l3' [Hid' Hbc] H23']; subst; constructor.
  - split; [congruence|]. intros Hout. rewrite Hbc, Hab; [reflexivity|exact Hout|].
    rewrite Hid. exact Hout.
  - apply IH. assumption.
Qed.

Lemma serve_patch_outside `{Platform} ids pageId c t st :
  pageId ∈ ids -> worker_patch pageId c -> kept_outside ids st (serve c t st).2.
Proof.
  intros Hin (props & -> & _). cbn [serve].
  destruct (list_find _ (rows st)) as [[i p]|] eqn:Hfind; [|apply kept_outside_refl].
  cbn [snd]. unfold kept_outside. cbn [rows].
  apply list_find_Some in Hfind as (Hi & Hp & _).
  eapply Forall2_insert_self; [auto | exact Hi|].
  split; [reflexivity|]. intros Hout. destruct Hout. rewrite Hp. exact Hin.
Qed.

(** X19. Whatever the network and the limiter do, a run of the worker writes
    to rows of its batch only: on a queue whose page ids are distinct every
    row that the query for New rows does not return, because it is not New or
    because 25 older New rows come first, is left exactly as it is. *)
Theorem rows_outside_the_batch_are_never_written `{Platform} (env : Env)
    (DB_ID : jsstring) (w : World) :
  NoDup (page_id <$> rows (store w)) ->
  let rows' := rows (store (main env DB_ID w).2) in
  forall i p,
    rows (store w) !! i = Some p ->
    p ∉ new_batch (rows (store w)) ->
    rows' !! i = Some p.
Proof.
  intros Hnd rows' i p Hi Hp. subst rows'.
  set (ids := page_id <$> new_batch (rows (store w))).
  assert (Hk : kept_outside ids (store w) (store (main env DB_ID w).2)).
  { apply main_keeps; [apply kept_outside_refl | apply kept_outside_trans|].
    intros page c t st Hpage. apply serve_patch_outside.
    apply list_elem_of_fmap. exists page. split; [reflexivity | exact Hpage]. }
  destruct (Forall2_lookup_l _ _ _ _ _ Hk Hi) as (q & Hq & _ & Hsame).
  rewrite Hq, Hsame; [reflexivity|].
  intros Hin. apply list_elem_of_fmap in Hin as (b & Hid & Hb).
  apply Hp. replace p with b; [exact Hb|].
  assert (Hbin : b ∈ rows (store w)).
  { eapply elem_of_submseteq; [exact Hb | apply run_query_submseteq]. }
  destruct (list_elem_of_lookup_1 _ _ Hbin) as [j Hj].
  assert (i = j).
  { apply (NoDup_lookup _ i j (page_id p) Hnd); rewrite list_lookup_fmap;
      [rewrite Hi|rewrite Hj]; cbn; congruence. }
  subst j. congruence.
Qed.

Lemma rows_outside_the_batch_are_never_written_witness :
  let p0 := patch_page in_progress (Examples.queued "p0" "2025-01-01T00:00:00.000Z" "evt_1") in
  let p1 := Examples.queued "p1" "2025-01-01T00:00:01.000Z" "evt_1" in
  let w := Examples.world_of [p0; p1] [None; None; None; Some NetworkError] [] in
  NoDup (page_id <$> rows (store w))
  /\ rows (store w) !! O = Some p0
  /\ (p0 ∉ new_batch (rows (store w)))
  /\ rows (store (@main Examples.platform Examples.env (lit "db1") w).2) !! O = Some p0.
Proof.
  intros p0 p1 w.
  assert (Hnd : NoDup (page_id <$> rows (store w))).
  { apply (bool_decide_unpack _). vm_compute. exact I. }
  assert (Hout : p0 ∉ new_batch (rows (store w))).
  { assert (Hb : new_batch (rows (store w)) = [p1]) by (vm_compute; reflexivity).
    rewrite Hb. intros Hin. apply elem_of_cons in Hin as [Heq|Hin]; [|inversion Hin].
    apply (f_equal page_id) in Heq. vm_compute in Heq. discriminate Heq. }
  split; [exact Hnd|]. split; [reflexivity|]. split; [exact Hout|].
  exact (@rows_outside_the_batch_are_never_written Examples.platform Examples.env
           (lit "db1") w Hnd 0%nat p0 eq_refl Hout).
Defined.

End WorkerInvariantProps.

(* ===================================================================== *)
(** ** The worker: how a run ends *)
(* ===================================================================== *)

Module WorkerRunProps.
Import JS Model Worker Spec WorkerSpec WorkerRunSpec JSFacts WorldFacts WorkerFacts
  WorkerInvariantProps.

(** [main] throws only in its first two calls, and has changed nothing then. *)
Lemma main_ends `{Platform} env DB_ID w :
  (main env DB_ID w).1 = Ok ()
  \/ exists e,
       (main env DB_ID w).1 = Throw e
       /\ store (main env DB_ID w).2 = store w
       /\ console (main env DB_ID w).2 = console w
       /\ (length (calls (main env DB_ID w).2) <= length (calls w) + 2)%nat.
Proof.
  unfold main. rewrite bind_run.
  destruct (getDataSourceId_read env DB_ID w) as [Hst1 (Hc1 & _ & Hk1 & _)].
  destruct (getDataSourceId env DB_ID w) as [[ds|e] w1]; cbn [snd] in *.
  2:{ right. exists e. cbn [fst snd]. rewrite Hc1, length_app. cbn [length].
      split; [reflexivity|]. split; [exact Hst1|]. split; [exact Hk1 | lia]. }
  rewrite bind_run.
  unfold queryNewEvents.
  destruct (query_read env ds 25 (SelectEquals (lit "Status") (lit "New")) true w1)
    as [Hst2 (Hc2 & _ & Hk2 & _)].
  destruct (notionFetch env _ w1) as [[q|e] w2]; cbn [snd] in *.
  2:{ right. exists e. cbn [fst snd]. rewrite Hc2, Hc1, !length_app. cbn [length].
      split; [reflexivity|]. split; [congruence|]. split; [congruence | lia]. }
  left. rewrite bind_run. unfold console_log at 1, modify at 1.
  apply for_of_returns. intros page w'. apply main_row_returns.
Qed.

(** X20. How the worker script ends. Without an API key or a queue database
    id it throws at load time, before any call. Otherwise it never throws:
    the exit code is 0 when the run got its batch, whatever happened to the
    rows after that; it is 1 only when one of the first two calls failed (the
    data source lookup or the query for New rows), and then no row was
    touched and the error was printed. *)
Theorem worker_exit_code `{Platform} (env : Env) (w : World) :
  (truthy_opt (NOTION_API_KEY env) = false ->
     script env w = (Throw (Error (lit "Missing NOTION_API_KEY")), w))
  /\ (truthy_opt (NOTION_API_KEY env) = true ->
      truthy_opt (NOTION_EVENTS_QUEUE_DB_ID env) = false ->
      script env w = (Throw (Error (lit "Missing NOTION_EVENTS_QUEUE_DB_ID")), w))
  /\ (forall DB_ID,
        truthy_opt (NOTION_API_KEY env) = true ->
        NOTION_EVENTS_QUEUE_DB_ID env = Some DB_ID -> DB_ID <> [] ->
        let run := script env w in
        (run = (Ok 0, (main env DB_ID w).2) /\ (main env DB_ID w).1 = Ok ())
        \/ (exists e,
              run.1 = Ok 1
              /\ (main env DB_ID w).1 = Throw e
              /\ console run.2 = console w ++ [ConsoleError [] e]
              /\ store run.2 = store w
              /\ (length (calls run.2) <= length (calls w) + 2)%nat)).
Proof.
  split; [|split].
  - intros Hkey. unfold script. rewrite Hkey. reflexivity.
  - intros Hkey Hdb. unfold script. rewrite Hkey. cbn [negb].
    destruct (NOTION_EVENTS_QUEUE_DB_ID env) as [[|c db]|]; try reflexivity. discriminate.
  - intros DB_ID Hkey Hdb Hne. cbn zeta. unfold script. rewrite Hkey, Hdb. cbn [negb].
    destruct DB_ID as [|c db]; [congruence|].
    unfold try_catch. rewrite bind_run.
    destruct (main_ends env (c :: db) w) as [Hok | (e & He & Hst & Hcon & Hcalls)].
    + left. destruct (main env (c :: db) w) as [[[]|e] w1]; [|discriminate].
      split; reflexivity.
    + right. exists e.
      destruct (main env (c :: db) w) as [[[]|e'] w1]; [discriminate|].
      cbn [fst snd] in *. injection He as ->.
      rewrite bind_run. unfold console_error, modify, mret, M_ret.
      cbn [fst snd console store calls with_console].
      split; [reflexivity|]. split; [reflexivity|].
      split; [congruence|]. split; [exact Hst | exact Hcalls].
Qed.

Lemma worker_exit_code_witness :
  let down := Examples.world_of [] [None; Some NetworkError] [] in
  let up := Examples.world_of [] [] [] in
  truthy_opt (NOTION_API_KEY Examples.env) = true
  /\ NOTION_EVENTS_QUEUE_DB_ID Examples.env = Some (lit "db1")
  /\ (@script Examples.platform Examples.env down).1 = Ok 1
  /\ console (@script Examples.platform Examples.env down).2
     = [ConsoleError [] (TypeError (lit "fetch failed"))]
  /\ (@script Examples.platform Examples.env up).1 = Ok 0.
Proof.
  cbn zeta.
  split; [reflexivity|]. split; [reflexivity|].
  destruct (proj2 (proj2 (@worker_exit_code Examples.platform Examples.env
                            (Examples.world_of [] [None; Some NetworkError] [])))
              (lit "db1") ltac:(reflexivity) ltac:(reflexivity)
              ltac:(vm_compute; discriminate))
    as [[_ Hok] | (e & Hcode & He & Hcon & _)].
  - vm_compute in Hok. discriminate Hok.
  - split; [exact Hcode|].
    split; [|vm_compute; reflexivity].
    rewrite Hcon. vm_compute in He. injection He as <-. reflexivity.
Defined.

End WorkerRunProps.

(* ===================================================================== *)
(** ** The worker: rows of one event created at the same time *)
(* ===================================================================== *)

Module WorkerTieProps.
Import JS Model Worker Spec WorkerSpec WorkerRunSpec JSFacts OrderFacts WorldFacts
  WorkerFacts WorkerDedupFacts WorkerDedupProps.

Lemma localeCompare_le_trans a b c :
  localeCompare a b <> Gt -> localeCompare b c <> Gt -> localeCompare a c <> Gt.
Proof.
  intros Hab Hbc.
  destruct (localeCompare a b) eqn:H1; [| |congruence].
  - apply localeCompare_eq in H1 as ->. exact Hbc.
  - destruct (localeCompare b c) eqn:H2; [| |congruence].
    + apply localeCompare_eq in H2 as <-. rewrite H1. discriminate.
    + rewrite (localeCompare_trans a b c H1 H2). discriminate.
Qed.

(** The sort is stable: of the elements that compare least, the one listed
    first ends up first. *)
Lemma sort_head_stable {A} (cmp : A -> A -> comparison) (k : A) l1 l2 :
  (forall r, r ∈ l1 -> cmp r k = Gt) ->
  (forall r, r ∈ l2 -> cmp k r <> Gt) ->
  head (sort cmp (l1 ++ k :: l2)) = Some k.
Proof.
  intros Hgt Hle. induction l1 as [|x l1 IH].
  - cbn [app sort foldr]. fold (sort cmp l2).
    destruct (sort cmp l2) as [|y s] eqn:Hs; [reflexivity|].
    assert (Hy : y ∈ l2) by (rewrite <- (sort_perm cmp l2), Hs; left).
    cbn [sort_insert]. specialize (Hle y Hy).
    destruct (cmp k y); [reflexivity | reflexivity | congruence].
  - cbn [app sort foldr]. fold (sort cmp (l1 ++ k :: l2)).
    assert (IH' : head (sort cmp (l1 ++ k :: l2)) = Some k)
      by (apply IH; intros r Hr; apply Hgt; right; exact Hr).
    destruct (sort cmp (l1 ++ k :: l2)) as [|y s]; [discriminate|].
    cbn in IH'. injection IH' as ->. cbn [sort_insert].
    rewrite (Hgt x ltac:(left)). reflexivity.
Qed.

Lemma first_earliest_head k l :
  first_earliest k l -> head (sort by_created_time l) = Some k.
Proof.
  intros (before & after & -> & Hb & Ha). apply sort_head_stable; [|exact Ha].
  intros r Hr. unfold by_created_time in *.
  rewrite localeCompare_antisym, (Hb r Hr). reflexivity.
Qed.

Lemma first_earliest_elem k l : first_earliest k l -> k ∈ l.
Proof. intros (before & after & -> & _). apply elem_of_app. right. left. Qed.

Lemma exists_first_earliest l : l <> [] -> exists k, first_earliest k l.
Proof.
  induction l as [|x l IH]; intros Hne; [congruence|].
  destruct l as [|y l'].
  - exists x, [], []. split; [reflexivity|]. split; intros r Hr; inversion Hr.
  - destruct (IH ltac:(discriminate)) as (k & before & after & Hl & Hb & Ha).
    destruct (by_created_time x k) eqn:Hxk.
    + exists x, [], (y :: l'). split; [reflexivity|]. split; [intros r Hr; inversion Hr|].
      intros r Hr. rewrite Hl in Hr. unfold by_created_time in *.
      apply localeCompare_eq in Hxk. rewrite Hxk.
      apply elem_of_app in Hr as [Hr|Hr]; [rewrite (Hb r Hr); discriminate|].
      apply elem_of_cons in Hr as [->|Hr]; [rewrite localeCompare_refl; discriminate|].
      apply Ha, Hr.
    + exists x, [], (y :: l'). split; [reflexivity|]. split; [intros r Hr; inversion Hr|].
      intros r Hr. rewrite Hl in Hr. unfold by_created_time in *.
      apply (localeCompare_le_trans _ (created_time k)); [rewrite Hxk; discriminate|].
      apply elem_of_app in Hr as [Hr|Hr]; [rewrite (Hb r Hr); discriminate|].
      apply elem_of_cons in Hr as [->|Hr]; [rewrite localeCompare_refl; discriminate|].
      apply Ha, Hr.
    + exists k, (x :: before), after. split; [rewrite Hl; reflexivity|].
      split; [|exact Ha]. intros r Hr.
      apply elem_of_cons in Hr as [->|Hr]; [|apply Hb, Hr].
      unfold by_created_time in *. rewrite localeCompare_antisym, Hxk. reflexivity.
Qed.

(** X21. Rows of one event are collapsed to one also when some were created
    at the same time, as the store's clock has it, and when there are more
    than ten of them. The dedup query returns the first ten listed and the
    sort is stable, so the keeper is the first listed of the earliest of
    these ten. After one run with the network up, of the queued rows of the
    event, two or more and all in the batch, the keeper alone ends Needs
    human review and every other one ends Deduped with a log that names the
    keeper. *)
Theorem ties_go_to_the_first_listed `{Platform} (env : Env) (DB_ID ds : jsstring)
    (w : World) (e : jsstring) :
  queue_up w DB_ID ds ->
  NoDup (page_id <$> rows (store w)) ->
  let pages := rows (store w) in
  let group := event_rows e pages in
  let rows' := rows (store (main env DB_ID w).2) in
  e <> [] -> trim e = e ->
  (2 <= length group)%nat ->
  (forall p, p ∈ group -> p ∈ new_batch pages /\ page_id p <> []) ->
  exists k,
    first_earliest k (take 10 group)
    /\ forall p, p ∈ group ->
         exists row',
           find_row (page_id p) rows' = Some row'
           /\ (p = k ->
               status_of row' = Some (PSelect (lit "Needs human review"))
               /\ review_flag_of row' = Some (PCheckbox true))
           /\ (p <> k ->
               status_of row' = Some (PSelect (lit "Deduped"))
               /\ review_flag_of row' = Some (PCheckbox false)
               /\ log_of row'
                  = Some (PRichText [lit "Worker: deduped (keeper=" ++ page_id k
                                     ++ lit ") for eventId=" ++ e])).
Proof.
  intros Hq Hnd pages group rows' He Ht Hlen Hall.
  destruct (main_pass env DB_ID ds w Hq Hnd) as (w' & Hrun & Hin & _).
  subst rows'. rewrite Hrun. cbn [snd]. fold pages in Hin.
  assert (Hdups : dedup_rows e pages = take 10 group) by reflexivity.
  assert (Hlen' : (2 <= length (take 10 group))%nat) by (rewrite length_take; lia).
  destruct (exists_first_earliest (take 10 group)) as [k Hk];
    [destruct (take 10 group); cbn in Hlen'; [lia|discriminate]|].
  exists k. split; [exact Hk|]. intros p Hp.
  assert (Hread : forall q, q ∈ group -> getRichText q (lit "Event ID") = e).
  { intros q Hqg. apply event_rows_elem in Hqg as [_ Hm].
    apply getRichText_event; assumption. }
  assert (Hmem : forall q, q ∈ group -> q ∈ pages).
  { intros q Hqg. apply event_rows_elem in Hqg as [Hqg _]. exact Hqg. }
  assert (Hkin : k ∈ group) by (eapply subseteq_take, first_earliest_elem, Hk).
  destruct (Hall p Hp) as [Hbatch Hpne].
  assert (Hv : verdict pages p
               = if bool_decide (page_id k = page_id p)
                 then needs_review (event_type p)
                 else deduped (page_id k) e).
  { unfold verdict. rewrite (Hread p Hp), Hdups, (first_earliest_head k _ Hk).
    cbn [fmap option_fmap option_map default from_option id].
    rewrite (truthy_string_ne e He), (truthy_string_ne _ (proj2 (Hall k Hkin))).
    replace (1 <? length (take 10 group))%nat with true
      by (symmetry; apply Nat.ltb_lt; lia).
    destruct (bool_decide (page_id k = page_id p)); reflexivity. }
  eexists. split; [apply Hin, Hbatch|]. rewrite Hv. split.
  - intros ->. rewrite bool_decide_eq_true_2 by reflexivity.
    pose proof (needs_review_row (event_type k) (patch_page in_progress k)) as Hr.
    cbv zeta in Hr. tauto.
  - intros Hpk.
    assert (Hids : page_id k <> page_id p).
    { intros Heq. apply Hpk.
      pose proof (find_row_self pages p Hnd (Hmem p Hp)) as Hfp.
      pose proof (find_row_self pages k Hnd (Hmem k Hkin)) as Hfk.
      rewrite Heq in Hfk. congruence. }
    rewrite bool_decide_eq_false_2 by exact Hids.
    apply deduped_row.
Qed.

Lemma ties_go_to_the_first_listed_witness :
  let p1 := Examples.queued "p1" "2025-01-01T00:01:00.000Z" "evt_1" in
  let p2 := Examples.queued "p2" "2025-01-01T00:00:00.000Z" "evt_1" in
  let p3 := Examples.queued "p3" "2025-01-01T00:00:00.000Z" "evt_1" in
  let w := Examples.world_of [p1; p2; p3] [] [] in
  let run := @main Examples.platform Examples.env (lit "db1") w in
  queue_up w (lit "db1") (lit "ds1")
  /\ NoDup (page_id <$> rows (store w))
  /\ exists k,
       first_earliest k [p1; p2; p3]
       /\ forall p, p ∈ [p1; p2; p3] ->
            exists row',
              find_row (page_id p) (rows (store run.2)) = Some row'
              /\ (p = k -> status_of row' = Some (PSelect (lit "Needs human review")))
              /\ (p <> k -> status_of row' = Some (PSelect (lit "Deduped"))).
Proof.
  intros p1 p2 p3 w run.
  assert (Hq : queue_up w (lit "db1") (lit "ds1")).
  { repeat split; try reflexivity; try discriminate. constructor. }
  assert (Hnd : NoDup (page_id <$> rows (store w))).
  { apply (bool_decide_unpack _). vm_compute. exact I. }
  split; [exact Hq|]. split; [exact Hnd|].
  destruct (@ties_go_to_the_first_listed Examples.platform Examples.env
              (lit "db1") (lit "ds1") w (lit "evt_1") Hq Hnd)
    as (k & Hk & Hrows).
  - discriminate.
  - vm_compute. reflexivity.
  - vm_compute. lia.
  - intros p Hp.
    assert (Hg : event_rows (lit "evt_1") (rows (store w)) = [p1; p2; p3])
      by (vm_compute; reflexivity).
    assert (Hb : new_batch (rows (store w)) = [p2; p3; p1])
      by (vm_compute; reflexivity).
    rewrite Hg in Hp. rewrite Hb.
    repeat (apply elem_of_cons in Hp as [->|Hp];
            [split; [repeat first [apply list_elem_of_here | apply list_elem_of_further]
                    | vm_compute; discriminate]|]).
    inversion Hp.
  - assert (Hg : event_rows (lit "evt_1") (rows (store w)) = [p1; p2; p3])
      by (vm_compute; reflexivity).
    rewrite Hg in Hk, Hrows.
    exists k. split; [exact Hk|]. intros p Hp.
    destruct (Hrows p Hp) as (row' & Hfind & Hkeep & Hdup).
    exists row'. split; [exact Hfind|]. split.
    + intros Heq. apply Hkeep, Heq.
    + intros Hne. apply Hdup, Hne.
Defined.

Example two_rows_created_in_the_same_minute :
  let p1 := Examples.queued "p1" "2025-01-01T00:01:00.000Z" "evt_1" in
  let p2 := Examples.queued "p2" "2025-01-01T00:00:00.000Z" "evt_1" in
  let p3 := Examples.queued "p3" "2025-01-01T00:00:00.000Z" "evt_1" in
  let run :=
    @main Examples.platform Examples.env (lit "db1")
      (Examples.world_of [p1; p2; p3] [] []) in
  (fun p => (page_id p, status_of p)) <$> rows (store run.2)
  = [ (lit "p1", Some (PSelect (lit "Deduped")));
      (lit "p2", Some (PSelect (lit "Needs human review")));
      (lit "p3", Some (PSelect (lit "Deduped"))) ].
Proof. vm_compute. reflexivity. Qed.

End WorkerTieProps.

(* ===================================================================== *)
(** ** The worker: a run after a run *)
(* ===================================================================== *)

Module WorkerRerunProps.
Import JS Model Worker Spec WorkerSpec WorkerRunSpec JSFacts OrderFacts WorldFacts
  WorkerFacts WorkerDedupFacts WorkerDedupProps WorkerInvariantProps.

(** A run with the network up, with what it leaves for the next one. *)
Lemma main_clean `{Platform} env DB_ID ds w :
  queue_up w DB_ID ds ->
  NoDup (page_id <$> rows (store w)) ->
  exists w',
    main env DB_ID w = (Ok (), w')
    /\ no_faults w'
    /\ (forall page,
          page ∈ new_batch (rows (store w)) ->
          find_row (page_id page) (rows (store w'))
          = Some (patch_page (verdict (rows (store w)) page) (patch_page in_progress page)))
    /\ (forall pageId,
          pageId ∉ page_id <$> new_batch (rows (store w)) ->
          find_row pageId (rows (store w')) = find_row pageId (rows (store w))).
Proof.
  intros Hq Hnd. pose proof Hq as (Hdb & Hds & Hne & Hnf).
  unfold main.
  destruct (getDataSourceId_ok env w DB_ID ds Hq) as (w1 & Hrun1 & Hst1 & Hc1).
  rewrite (bind_ok _ _ _ _ _ Hrun1).
  assert (Hnf1 : no_faults w1) by (eapply no_faults_called; eassumption).
  assert (Hds1 : head (data_sources (store w1)) = Some ds) by (rewrite Hst1; exact Hds).
  destruct (query_served env ds 25 (SelectEquals (lit "Status") (lit "New")) true w1
              Hds1 (no_faults_go w1 Hnf1)) as (w2 & Hrun2 & Hst2 & Hc2).
  unfold queryNewEvents. rewrite (bind_ok _ _ _ _ _ Hrun2). cbn [results_of].
  rewrite Hst1. fold (new_batch (rows (store w))).
  rewrite bind_run. cbn [console_log modify].
  match goal with |- context [for_of _ _ ?x] => set (w3 := x) end.
  assert (Hst3 : store w3 = store w) by (subst w3; cbn [store with_console]; congruence).
  assert (Hnf3 : no_faults w3).
  { pose proof (no_faults_called _ _ _ Hc2 Hnf1) as Hnf2. exact Hnf2. }
  destruct (for_of_pass env ds (new_batch (rows (store w))) w3)
    as (w' & Hrun & Hnf' & _ & Hin & Hout).
  - rewrite Hst3. exact Hds.
  - exact Hnf3.
  - apply (submseteq_NoDup_fmap page_id _ (rows (store w))); [|exact Hnd].
    apply run_query_submseteq.
  - intros page Hpage. rewrite Hst3. exists page. apply find_row_self; [exact Hnd|].
    eapply elem_of_submseteq; [exact Hpage|apply run_query_submseteq].
  - exists w'. split; [exact Hrun|]. split; [exact Hnf'|].
    rewrite Hst3 in Hin, Hout. split; [|exact Hout].
    intros page Hpage. apply Hin; [exact Hpage|].
    apply find_row_self; [exact Hnd|].
    eapply elem_of_submseteq; [exact Hpage|apply run_query_submseteq].
Qed.

(** A run that finds no New row reads twice and writes nothing. *)
Lemma main_empty_batch `{Platform} env DB_ID ds w :
  queue_up w DB_ID ds ->
  new_batch (rows (store w)) = [] ->
  exists w',
    main env DB_ID w = (Ok (), w')
    /\ store w' = store w
    /\ calls w'
       = calls w ++ [ GetDatabase DB_ID;
                      QueryDataSource ds 25 (SelectEquals (lit "Status") (lit "New")) true ]
    /\ console w' = console w ++ [ConsoleLog (lit "Found 0 new events")].
Proof.
  intros Hq Hb. pose proof Hq as (Hdb & Hds & Hne & Hnf).
  unfold main.
  destruct (getDataSourceId_ok env w DB_ID ds Hq) as (w1 & Hrun1 & Hst1 & Hc1).
  rewrite (bind_ok _ _ _ _ _ Hrun1).
  assert (Hnf1 : no_faults w1) by (eapply no_faults_called; eassumption).
  assert (Hds1 : head (data_sources (store w1)) = Some ds) by (rewrite Hst1; exact Hds).
  destruct (query_served env ds 25 (SelectEquals (lit "Status") (lit "New")) true w1
              Hds1 (no_faults_go w1 Hnf1)) as (w2 & Hrun2 & Hst2 & Hc2).
  unfold queryNewEvents. rewrite (bind_ok _ _ _ _ _ Hrun2). cbn [results_of].
  rewrite Hst1. fold (new_batch (rows (store w))). rewrite Hb.
  rewrite bind_run. cbn [console_log modify for_of length].
  eexists. split; [reflexivity|]. cbn [store calls console with_console].
  destruct Hc1 as (Hc1 & _ & Hk1 & _). destruct Hc2 as (Hc2 & _ & Hk2 & _).
  split; [congruence|]. split.
  - rewrite Hc2, Hc1, <- app_assoc. reflexivity.
  - rewrite Hk2, Hk1. reflexivity.
Qed.

Lemma verdict_not_new l page q : is_new (patch_page (verdict l page) q) = false.
Proof.
  unfold is_new, verdict. cbn [page_matches].
  destruct (_ && _).
  - destruct (deduped_row (default [] (page_id <$> head (sort by_created_time
                 (dedup_rows (getRichText page (lit "Event ID")) l))))
                (getRichText page (lit "Event ID")) q) as [Hs _].
    unfold status_of in Hs. rewrite Hs. reflexivity.
  - destruct (needs_review_row (event_type page) q) as [Hs _].
    unfold status_of in Hs. rewrite Hs. reflexivity.
Qed.

Lemma run_query_elem n f sorted l r :
  r ∈ run_query n f sorted l -> r ∈ l /\ page_matches f r = true.
Proof.
  unfold run_query. intros Hr.
  assert (Hf : r ∈ List.filter (page_matches f) l).
  { apply (subseteq_take n) in Hr. destruct sorted; [|exact Hr].
    rewrite (sort_perm by_created_time) in Hr. exact Hr. }
  apply list_elem_of_In, List.filter_In in Hf as [Hin Hm].
  split; [apply list_elem_of_In, Hin | exact Hm].
Qed.

Lemma rows_kept_ids st st' : rows_kept st st' -> page_id <$> rows st' = page_id <$> rows st.
Proof.
  intros (_ & _ & _ & HF). induction HF as [|p q l l' (Hid & _) _ IH]; [reflexivity|].
  cbn. rewrite Hid, IH. reflexivity.
Qed.

Lemma filter_none {A} (f : A -> bool) l :
  (forall x, x ∈ l -> f x = false) -> List.filter f l = [].
Proof.
  induction l as [|x l IH]; intros Hall; [reflexivity|]. cbn.
  rewrite (Hall x ltac:(left)). apply IH. intros y Hy. apply Hall. right. exact Hy.
Qed.

(** X22. After a run with the network up no row of its batch is New any
    more, so the next run does not take it up again. When the queue held 25
    New rows at most, the next run finds none: it sends its two reads, logs
    that it found 0 new events and leaves the store as it is. *)
Theorem next_run_skips_processed_rows `{Platform} (env : Env) (DB_ID ds : jsstring)
    (w : World) :
  queue_up w DB_ID ds ->
  NoDup (page_id <$> rows (store w)) ->
  let first := main env DB_ID w in
  let second := main env DB_ID first.2 in
  first.1 = Ok ()
  /\ (forall page,
        page ∈ new_batch (rows (store w)) ->
        page_id page ∉ page_id <$> new_batch (rows (store first.2)))
  /\ ((length (List.filter is_new (rows (store w))) <= 25)%nat ->
      new_batch (rows (store first.2)) = []
      /\ second.1 = Ok ()
      /\ store second.2 = store first.2
      /\ calls second.2
         = calls first.2
           ++ [ GetDatabase DB_ID;
                QueryDataSource ds 25 (SelectEquals (lit "Status") (lit "New")) true ]
      /\ console second.2
         = console first.2 ++ [ConsoleLog (lit "Found 0 new events")]).
Proof.
  intros Hq Hnd. cbn zeta.
  pose proof (keeps_main env DB_ID w) as Hkept.
  destruct (main_clean env DB_ID ds w Hq Hnd) as (w' & Hrun & Hnf' & Hin & Hout).
  rewrite Hrun in *. cbn [fst snd] in *.
  pose proof (rows_kept_ids _ _ Hkept) as Hids.
  assert (Hnd' : NoDup (page_id <$> rows (store w'))) by (rewrite Hids; exact Hnd).
  assert (Hdone : forall page r',
            page ∈ new_batch (rows (store w)) -> r' ∈ rows (store w') ->
            page_id r' = page_id page -> is_new r' = false).
  { intros page r' Hpage Hr' Hid.
    pose proof (find_row_self _ r' Hnd' Hr') as Hf.
    rewrite Hid, (Hin page Hpage) in Hf. injection Hf as <-. apply verdict_not_new. }
  split; [reflexivity|]. split.
  - intros page Hpage Hagain.
    apply list_elem_of_fmap in Hagain as (r' & Hid & Hr').
    apply run_query_elem in Hr' as [Hr' Hnew]. change (is_new r' = true) in Hnew.
    rewrite (Hdone page r' Hpage Hr' (eq_sym Hid)) in Hnew. discriminate.
  - intros Hlen.
    assert (Hnone : List.filter is_new (rows (store w')) = []).
    { apply filter_none. intros r' Hr'.
      destruct (list_elem_of_lookup_1 _ _ Hr') as [i Hi].
      destruct Hkept as (_ & _ & _ & HF).
      destruct (Forall2_lookup_r _ _ _ _ _ HF Hi) as (r & Hr & Hid & _).
      destruct (decide (page_id r ∈ page_id <$> new_batch (rows (store w)))) as [Hb|Hb].
      - apply list_elem_of_fmap in Hb as (page & Hpid & Hpage).
        apply (Hdone page r' Hpage Hr'). congruence.
      - assert (Hrin : r ∈ rows (store w)) by (eapply list_elem_of_lookup_2; exact Hr).
        pose proof (find_row_self _ r' Hnd' Hr') as Hf'.
        rewrite Hid, (Hout _ Hb), (find_row_self _ r Hnd Hrin) in Hf'.
        injection Hf' as <-.
        destruct (is_new r) eqn:Hnew; [|reflexivity].
        destruct Hb. apply list_elem_of_fmap. exists r. split; [reflexivity|].
        unfold new_batch, run_query. rewrite take_ge.
        + rewrite (sort_perm by_created_time).
          apply list_elem_of_In, List.filter_In. split; [apply list_elem_of_In, Hrin|].
          exact Hnew.
        + rewrite sort_length. exact Hlen. }
    assert (Hbatch : new_batch (rows (store w')) = []).
    { unfold new_batch, run_query.
      change (List.filter (page_matches (SelectEquals (lit "Status") (lit "New")))
                (rows (store w')))
        with (List.filter is_new (rows (store w'))).
      rewrite Hnone. reflexivity. }
    assert (Hq' : queue_up w' DB_ID ds).
    { destruct Hq as (Hdb & Hds & Hne & _). destruct Hkept as (Hd & Hs & _).
      unfold queue_up. rewrite Hd, Hs. auto. }
    destruct (main_empty_batch env DB_ID ds w' Hq' Hbatch) as (w'' & -> & Hst & Hc & Hk).
    cbn [fst snd]. auto.
Qed.

Lemma next_run_skips_processed_rows_witness :
  let p1 := Examples.queued "p1" "2025-01-01T00:00:01.000Z" "evt_1" in
  let p2 := Examples.queued "p2" "2025-01-01T00:00:02.000Z" "evt_1" in
  let p3 := Examples.queued "p3" "2025-01-01T00:00:03.000Z" "evt_2" in
  let w := Examples.world_of [p3; p1; p2] [] [] in
  let first := @main Examples.platform Examples.env (lit "db1") w in
  let second := @main Examples.platform Examples.env (lit "db1") first.2 in
  queue_up w (lit "db1") (lit "ds1")
  /\ NoDup (page_id <$> rows (store w))
  /\ (length (List.filter is_new (rows (store w))) <= 25)%nat
  /\ new_batch (rows (store w)) = [p1; p2; p3]
  /\ new_batch (rows (store first.2)) = []
  /\ store second.2 = store first.2.
Proof.
  intros p1 p2 p3 w first second.
  assert (Hq : queue_up w (lit "db1") (lit "ds1")).
  { repeat split; try reflexivity; try discriminate. constructor. }
  assert (Hnd : NoDup (page_id <$> rows (store w))).
  { apply (bool_decide_unpack _). vm_compute. exact I. }
  assert (Hlen : (length (List.filter is_new (rows (store w))) <= 25)%nat).
  { vm_compute. lia. }
  split; [exact Hq|]. split; [exact Hnd|]. split; [exact Hlen|].
  split; [vm_compute; reflexivity|].
  destruct (@next_run_skips_processed_rows Examples.platform Examples.env
              (lit "db1") (lit "ds1") w Hq Hnd) as (_ & _ & Hnext).
  destruct (Hnext Hlen) as (Hbatch & _ & Hst & _).
  split; [exact Hbatch | exact Hst].
Defined.

End WorkerRerunProps.

(* ===================================================================== *)
(** ** The worker: reading a row *)
(* ===================================================================== *)

Module WorkerReadProps.
Import JS Model Worker Spec WorkerSpec JSFacts TrimFacts.

(** X23. [getRichText] is the empty string when the property is missing, is
    not rich text or has no segment; otherwise it is the segments joined and
    trimmed. So it never starts or ends with white space, and for a row that
    the store's filter [rich_text equals e] selects it is [e] trimmed: the
    worker looks an event up under the trimmed id. *)
Theorem getRichText_is_the_trimmed_text (page : Page) (propName : jsstring) :
  let text := getRichText page propName in
  (forall segments,
     properties page !! propName = Some (PRichText segments) ->
     text = trim (concat segments))
  /\ ((forall segments, properties page !! propName <> Some (PRichText segments)) ->
      text = [])
  /\ trim text = text
  /\ (forall c, head text = Some c -> is_space c = false)
  /\ (forall c, last text = Some c -> is_space c = false)
  /\ (forall e, page_matches (RichTextEquals propName e) page = true -> text = trim e).
Proof.
  cbn zeta.
  assert (Hrt : forall segments,
            properties page !! propName = Some (PRichText segments) ->
            getRichText page propName = trim (concat segments)).
  { intros segments Hp. unfold getRichText. rewrite Hp.
    destruct segments; reflexivity. }
  assert (Hno : (forall segments, properties page !! propName <> Some (PRichText segments)) ->
                getRichText page propName = []).
  { intros Hp. unfold getRichText.
    destruct (properties page !! propName) as [[| segments | | | |]|]; try reflexivity.
    destruct (Hp segments). reflexivity. }
  assert (Hcases : getRichText page propName = []
                   \/ exists s, getRichText page propName = trim s).
  { unfold getRichText.
    destruct (properties page !! propName) as [[| [|s segments] | | | |]|]; auto.
    right. eexists. reflexivity. }
  split; [exact Hrt|]. split; [exact Hno|]. split; [|split; [|split]].
  - destruct Hcases as [-> | [s ->]]; [reflexivity | apply trim_idem].
  - intros c. destruct Hcases as [-> | [s ->]]; [discriminate | apply trim_head].
  - intros c. destruct Hcases as [-> | [s ->]]; [discriminate | apply trim_last].
  - intros e Hm. cbn [page_matches] in Hm.
    destruct (properties page !! propName) as [[| segments | | | |]|] eqn:Hp;
      try discriminate.
    apply bool_decide_eq_true_1 in Hm. rewrite <- Hm. apply Hrt. reflexivity.
Qed.

Lemma getRichText_is_the_trimmed_text_witness :
  let page :=
    {| page_id := lit "p1"; created_time := lit "2025-01-01T00:00:01.000Z";
       properties := {[ lit "Event ID" := PRichText [lit " evt"; lit "_1 "] ]} |} in
  page_matches (RichTextEquals (lit "Event ID") (lit " evt_1 ")) page = true
  /\ getRichText page (lit "Event ID") = lit "evt_1"
  /\ getRichText page (lit "Type") = [].
Proof.
  cbn zeta.
  assert (Hm : page_matches (RichTextEquals (lit "Event ID") (lit " evt_1 "))
                 {| page_id := lit "p1"; created_time := lit "2025-01-01T00:00:01.000Z";
                    properties := {[ lit "Event ID" := PRichText [lit " evt"; lit "_1 "] ]} |}
               = true) by (vm_compute; reflexivity).
  split; [exact Hm|]. split.
  - rewrite (proj2 (proj2 (proj2 (proj2 (proj2
               (getRichText_is_the_trimmed_text _ (lit "Event ID")))))) _ Hm).
    vm_compute. reflexivity.
  - apply (proj1 (proj2 (getRichText_is_the_trimmed_text _ (lit "Type")))).
    intros segments. vm_compute. discriminate.
Defined.

End WorkerReadProps.

(* ===================================================================== *)
(** ** From the webhook to the triage queue *)
(* ===================================================================== *)

Module PipelineProps.
Import JS Crypto Model Http Webhook WebhookSpec Spec WorkerSpec WorkerRunSpec JSFacts
  OrderFacts WorldFacts IdempotenceProps WorkerFacts WorkerDedupFacts WorkerDedupProps
  WorkerInvariantProps.

Lemma touched_only_filter (f : Page -> bool) l l' :
  (forall p q, touched_only p q -> f p = f q) ->
  Forall2 touched_only l l' ->
  Forall2 touched_only (List.filter f l) (List.filter f l').
Proof.
  intros Hf HF. induction HF as [|p q l l' Hpq _ IH]; [constructor|].
  cbn. rewrite <- (Hf p q Hpq). destruct (f p); [constructor; assumption | exact IH].
Qed.

Lemma touched_only_event e p q :
  touched_only p q ->
  page_matches (RichTextEquals (lit "Event ID") e) p
  = page_matches (RichTextEquals (lit "Event ID") e) q.
Proof.
  intros (_ & _ & Hprops). cbn [page_matches]. rewrite Hprops; [reflexivity|].
  unfold worker_props. intros Hin.
  repeat (apply elem_of_cons in Hin as [Heq | Hin]; [vm_compute in Heq; discriminate Heq|]).
  inversion Hin.
Qed.

Lemma new_row_in_batch pages p :
  is_new p = true ->
  (length (List.filter is_new pages) < 25)%nat ->
  p ∈ new_batch (pages ++ [p]).
Proof.
  intros Hnew Hlen. unfold new_batch, run_query.
  change (page_matches (SelectEquals (lit "Status") (lit "New"))) with is_new.
  rewrite List.filter_app. cbn [List.filter]. rewrite Hnew.
  rewrite take_ge by (rewrite sort_length, length_app; cbn [length]; lia).
  rewrite (sort_perm by_created_time). apply elem_of_app. right. left.
Qed.

(** X24. An event that is delivered twice is queued once and triaged once.
    On a queue that does not hold the event, with the network up, the first
    signed delivery files a row and the second one files nothing; a run of the
    worker then finds that row alone under the event id, so it does not mark
    it Deduped: the row ends Needs human review with the flag set, and it is
    still the only row of the event. The new row is assumed to get an id of
    its own, and the queue to hold fewer than 25 New rows, so that the row is
    in the batch. *)
Theorem event_delivered_twice_is_triaged_once `{Platform} (env : Env) (w : World)
    (db ds e : jsstring) (req1 req2 : Request) :
  queue_ready env w db ds ->
  delivers env req1 e -> delivers env req2 e ->
  trim e = e ->
  event_rows e (rows (store w)) = [] ->
  (length (List.filter is_new (rows (store w))) < 25)%nat ->
  let w1 := (POST env req1 w).2 in
  let w2 := (POST env req2 w1).2 in
  let run := Worker.main env db w2 in
  NoDup (page_id <$> rows (store w1)) ->
  run.1 = Ok ()
  /\ exists p row,
       rows (store w2) = rows (store w) ++ [p]
       /\ event_rows e (rows (store run.2)) = [row]
       /\ page_id row = page_id p
       /\ status_of row = Some (PSelect (lit "Needs human review"))
       /\ review_flag_of row = Some (PCheckbox true).
Proof.
  intros Hq Hd1 Hd2 Ht Hnone Hlen w1 w2 run Hnd.
  pose proof Hd1 as (_ & _ & _ & Hene).
  destruct (POST_first_seen env req1 w db ds e Hd1 Hq Hnone)
    as (w1' & props & p & Hrun1 & Hc1 & Hdb1 & Hds1 & Hrows1 & Hev & Hstatus & _).
  assert (Hw1 : w1 = w1') by (subst w1; rewrite Hrun1; reflexivity).
  clearbody w1. subst w1'.
  assert (Hq1 : queue_ready env w1 db ds)
    by (eapply queue_ready_called; eassumption).
  assert (Hgroup : event_rows e (rows (store w1)) = [p]).
  { rewrite Hrows1, event_rows_app, Hnone. apply event_rows_created, Hev. }
  destruct (POST_duplicate env req2 w1 db ds e Hd2 Hq1)
    as (w2' & Hrun2 & Hst2 & Hc2); [rewrite Hgroup; discriminate|].
  assert (Hw2 : w2 = w2') by (subst w2; rewrite Hrun2; reflexivity).
  clearbody w2. subst w2'.
  assert (Hq2 : queue_ready env w2 db ds)
    by (eapply queue_ready_called; [exact Hq1 | exact Hc2 | rewrite Hst2..]; reflexivity).
  assert (Hup : queue_up w2 db ds).
  { destruct Hq2 as (_ & _ & _ & Hdb & Hds & Hne & Hnf). repeat split; assumption. }
  rewrite <- Hst2 in Hnd, Hrows1, Hgroup.
  destruct (main_pass env db ds w2 Hup Hnd) as (w3 & Hrun & Hin & _).
  pose proof (keeps_main env db w2) as (_ & _ & _ & Hkept).
  subst run. rewrite Hrun in *. cbn [fst snd] in *.
  split; [reflexivity|].
  assert (Hnew : is_new p = true).
  { unfold is_new. cbn [page_matches]. unfold status_of in Hstatus. rewrite Hstatus.
    apply bool_decide_eq_true_2. reflexivity. }
  assert (Hbatch : p ∈ new_batch (rows (store w2))).
  { rewrite Hrows1. apply new_row_in_batch; assumption. }
  assert (Hmatch : page_matches (RichTextEquals (lit "Event ID") e) p = true).
  { assert (Hp : p ∈ event_rows e (rows (store w2))) by (rewrite Hgroup; left).
    apply event_rows_elem in Hp as [_ Hp]. exact Hp. }
  assert (Hverdict : verdict (rows (store w2)) p = Worker.needs_review (event_type p)).
  { apply verdict_alone. right.
    rewrite (getRichText_event e p Hene Ht Hmatch).
    unfold dedup_rows, run_query. fold (event_rows e (rows (store w2))).
    rewrite Hgroup. cbn. lia. }
  pose proof (Hin p Hbatch) as Hfind. rewrite Hverdict in Hfind.
  pose proof (touched_only_filter _ _ _ (touched_only_event e) Hkept) as Hev'.
  fold (event_rows e (rows (store w2))) in Hev'.
  fold (event_rows e (rows (store w3))) in Hev'.
  rewrite Hgroup in Hev'.
  inversion Hev' as [|p' row l l' Hpq Hnil Heq1 Heq2]; subst.
  inversion Hnil; subst.
  exists p, row. split; [exact Hrows1|]. split; [reflexivity|].
  destruct Hpq as (Hid & _).
  split; [exact Hid|].
  assert (Hrow : row ∈ rows (store w3)).
  { assert (Hr : row ∈ event_rows e (rows (store w3))).
    { match goal with Hx : [row] = _ |- _ => rewrite <- Hx end. left. }
    apply event_rows_elem in Hr as [Hr _]. exact Hr. }
  assert (Hnd3 : NoDup (page_id <$> rows (store w3))).
  { assert (Hids : page_id <$> rows (store w3) = page_id <$> rows (store w2)).
    { clear -Hkept. induction Hkept as [|a b l l' (Hab & _) _ IH]; [reflexivity|].
      cbn. rewrite Hab, IH. reflexivity. }
    rewrite Hids. exact Hnd. }
  pose proof (find_row_self _ row Hnd3 Hrow) as Hself.
  rewrite Hid, Hfind in Hself. injection Hself as <-.
  destruct (needs_review_row (event_type p) (patch_page Worker.in_progress p))
    as (Hs & Hr & _).
  split; assumption.
Qed.

Lemma event_delivered_twice_is_triaged_once_witness :
  let req :=
    Examples.request Examples.body_evt1
      (Some (hmacSha256Hex (lit "key") Examples.body_evt1)) in
  let w1 := (@POST Examples.platform Examples.env req Examples.world).2 in
  let w2 := (@POST Examples.platform Examples.env req w1).2 in
  let run := @Worker.main Examples.platform Examples.env (lit "db1") w2 in
  queue_ready Examples.env Examples.world (lit "db1") (lit "ds1")
  /\ @delivers Examples.platform Examples.env req (lit "evt_1")
  /\ NoDup (page_id <$> rows (store w1))
  /\ run.1 = Ok ()
  /\ exists row,
       event_rows (lit "evt_1") (rows (store run.2)) = [row]
       /\ status_of row = Some (PSelect (lit "Needs human review")).
Proof.
  intros req w1 w2 run.
  assert (Hq : queue_ready Examples.env Examples.world (lit "db1") (lit "ds1")).
  { repeat split; try reflexivity; try discriminate. constructor. }
  assert (Hd : @delivers Examples.platform Examples.env req (lit "evt_1")).
  { split; [vm_compute; reflexivity|]. split; [|split; [|discriminate]].
    - exists (lit "key"). repeat split; try reflexivity. discriminate.
    - exists Examples.json_evt1. split; [vm_compute; reflexivity|].
      split; [discriminate | vm_compute; reflexivity]. }
  assert (Hnd : NoDup (page_id <$> rows (store w1))).
  { apply (bool_decide_unpack _). vm_compute. exact I. }
  split; [exact Hq|]. split; [exact Hd|]. split; [exact Hnd|].
  destruct (@event_delivered_twice_is_triaged_once Examples.platform Examples.env
              Examples.world (lit "db1") (lit "ds1") (lit "evt_1") req req Hq Hd Hd
              ltac:(vm_compute; reflexivity) ltac:(vm_compute; reflexivity)
              ltac:(vm_compute; lia) Hnd)
    as (Hok & p & row & _ & Hrows & _ & Hstatus & _).
  split; [exact Hok|]. exists row. split; [exact Hrows | exact Hstatus].
Defined.

End PipelineProps.

(* ===================================================================== *)
(** ** The worker: what a run prints *)
(* ===================================================================== *)

Module WorkerReportProps.
Import JS Model Worker Spec WorkerSpec WorkerRunSpec JSFacts WorldFacts WorkerFacts
  WorkerInvariantProps WorkerDedupProps.

Lemma notionFetch_quiet `{Platform} env c w : console (notionFetch env c w).2 = console w.
Proof. destruct (notionFetch_called env c w) as (_ & _ & Hk & _). exact Hk. Qed.

Lemma updatePage_quiet `{Platform} env pageId props w :
  console ((updatePage env pageId props;; mret ()) w).2 = console w.
Proof.
  rewrite bind_run. pose proof (notionFetch_quiet env (UpdatePage pageId props) w) as Hq.
  unfold updatePage. destruct (notionFetch env _ w) as [[r|e] w1]; exact Hq.
Qed.

Lemma processEvent_quiet `{Platform} env page ds w :
  console (processEvent env page ds w).2 = console w.
Proof.
  unfold processEvent. rewrite bind_run.
  pose proof (notionFetch_quiet env (UpdatePage (page_id page) in_progress) w) as H1.
  unfold updatePage at 1.
  destruct (notionFetch env _ w) as [[r|e] w1]; cbn [snd] in H1; [|exact H1].
  rewrite <- H1.
  destruct (truthy_string _); [|apply updatePage_quiet].
  rewrite bind_run. unfold findByEventId.
  match goal with |- context [notionFetch env ?c w1] =>
    pose proof (notionFetch_quiet env c w1) as H2;
    destruct (notionFetch env c w1) as [[q|e] w2]; cbn [snd] in H2; [|exact H2]
  end.
  rewrite <- H2.
  destruct (1 <? length (results_of q))%nat; [|apply updatePage_quiet].
  destruct (_ && _); apply updatePage_quiet.
Qed.

(** A patch that went through has been applied to the row. *)
Lemma updatePage_done `{Platform} env pageId props w r w' :
  updatePage env pageId props w = (Ok r, w') ->
  exists row,
    find_row pageId (rows (store w)) = Some row
    /\ find_row pageId (rows (store w')) = Some (patch_page props row).
Proof.
  unfold updatePage. intros Hrun.
  destruct (notionFetch_spec env (UpdatePage pageId props) w) as (t & w1 & _ & Hm).
  assert (Hs : (serve (UpdatePage pageId props) t (store w)).1 = inr r
               /\ store w' = (serve (UpdatePage pageId props) t (store w)).2).
  { destruct (head (faults w)) as [[f|]|]; destruct Hm as [Hst Hm];
      rewrite Hm in Hrun; try discriminate;
      destruct (serve _ t (store w)).1 as [f|r'] eqn:Hs; try discriminate;
      injection Hrun as <- <-; auto. }
  destruct Hs as [Hs Hst]. cbn [serve] in Hs, Hst.
  destruct (list_find _ (rows (store w))) as [[i row]|] eqn:Hfind; [|discriminate].
  exists row. unfold find_row at 1. rewrite Hfind. split; [reflexivity|].
  rewrite Hst. cbn [snd rows]. unfold find_row.
  rewrite (list_find_insert_same _ _ i row (patch_page props row) Hfind).
  - reflexivity.
  - cbn. apply list_find_Some in Hfind as (_ & Hid & _). exact Hid.
Qed.

(** A row that [processEvent] got through has got its verdict. *)
Lemma processEvent_done `{Platform} env page ds w w' :
  processEvent env page ds w = (Ok (), w') ->
  exists row',
    find_row (page_id page) (rows (store w')) = Some row'
    /\ (status_of row' = Some (PSelect (lit "Needs human review"))
        /\ review_flag_of row' = Some (PCheckbox true)
        \/ status_of row' = Some (PSelect (lit "Deduped"))
           /\ review_flag_of row' = Some (PCheckbox false)).
Proof.
  assert (Hlast : forall props w1,
            (updatePage env (page_id page) props;; mret ()) w1 = (Ok (), w') ->
            exists row, find_row (page_id page) (rows (store w'))
                        = Some (patch_page props row)).
  { intros props w1. rewrite bind_run.
    destruct (updatePage env (page_id page) props w1) as [[r|e] w2] eqn:Hup;
      [|discriminate].
    intros [= <-]. destruct (updatePage_done _ _ _ _ _ _ Hup) as (row & _ & Hf).
    exists row. exact Hf. }
  assert (Hreview : forall t w1,
            (updatePage env (page_id page) (needs_review t);; mret ()) w1 = (Ok (), w') ->
            exists row',
              find_row (page_id page) (rows (store w')) = Some row'
              /\ (status_of row' = Some (PSelect (lit "Needs human review"))
                  /\ review_flag_of row' = Some (PCheckbox true)
                  \/ status_of row' = Some (PSelect (lit "Deduped"))
                     /\ review_flag_of row' = Some (PCheckbox false))).
  { intros t w1 Hrun. destruct (Hlast _ _ Hrun) as (row & Hf).
    eexists. split; [exact Hf|]. left.
    destruct (needs_review_row t row) as (Hs & Hr & _). auto. }
  unfold processEvent. rewrite bind_run.
  destruct (updatePage env (page_id page) in_progress w) as [[r|e] w1]; [|discriminate].
  destruct (truthy_string _); [|apply Hreview].
  rewrite bind_run.
  destruct (findByEventId env ds _ w1) as [[q|e] w2]; [|discriminate].
  destruct (1 <? length (results_of q))%nat; [|apply Hreview].
  destruct (_ && _); [|apply Hreview].
  intros Hrun. destruct (Hlast _ _ Hrun) as (row & Hf).
  eexists. split; [exact Hf|]. right.
  match type of Hf with context [deduped ?k ?e] =>
    destruct (deduped_row k e row) as (Hs & Hr & _)
  end.
  auto.
Qed.

Lemma main_row_reports `{Platform} env ds page w :
  exists line,
    console (main_row env ds page w).2 = console w ++ [line]
    /\ reported page line
    /\ (line = ConsoleLog (lit "Processed " ++ page_id page) ->
        exists row',
          find_row (page_id page) (rows (store (main_row env ds page w).2)) = Some row'
          /\ (status_of row' = Some (PSelect (lit "Needs human review"))
              /\ review_flag_of row' = Some (PCheckbox true)
              \/ status_of row' = Some (PSelect (lit "Deduped"))
                 /\ review_flag_of row' = Some (PCheckbox false))).
Proof.
  unfold main_row, try_catch. rewrite bind_run.
  pose proof (processEvent_quiet env page ds w) as Hq.
  destruct (processEvent env page ds w) as [[[]|err] w1] eqn:Hpe; cbn [snd] in Hq.
  - exists (ConsoleLog (lit "Processed " ++ page_id page)).
    cbn [console_log modify snd console store with_console]. rewrite Hq.
    split; [reflexivity|]. split; [left; reflexivity|].
    intros _. eapply processEvent_done. exact Hpe.
  - exists (ConsoleError (error_line page) err).
    rewrite bind_run. cbn [console_error modify].
    match goal with
    | |- context [(updatePage env (page_id page) (failed err) ≫= _) ?x] => set (w2 := x)
    end.
    pose proof (updatePage_quiet env (page_id page) (failed err) w2) as Hu.
    destruct ((updatePage env (page_id page) (failed err);; mret ()) w2) as [[[]|e] w3];
      unfold mret, M_ret; cbn [snd] in *; rewrite Hu; subst w2;
      cbn [console with_console]; rewrite Hq;
      (split; [reflexivity|]; split; [right; eexists; reflexivity | discriminate]).
Qed.

Lemma for_of_reports `{Platform} env ds batch : forall w,
  exists lines,
    console (for_of batch (main_row env ds) w).2 = console w ++ lines
    /\ Forall2 reported batch lines.
Proof.
  induction batch as [|page batch IH]; intros w.
  - exists []. split; [cbn; rewrite app_nil_r; reflexivity | constructor].
  - rewrite for_of_cons by apply main_row_returns.
    destruct (main_row_reports env ds page w) as (line & Hline & Hrep & _).
    destruct (IH (main_row env ds page w).2) as (lines & Hlines & Hall).
    exists (line :: lines). split; [|constructor; assumption].
    rewrite Hlines, Hline, <- app_assoc. reflexivity.
Qed.

(** X25. What a run prints. Once the batch is fetched, [main] logs
    [Found <n> new events] and then one line for each row of the batch, in
    the order of the batch and whatever fails: [Processed <id>] on the log,
    or [Error processing <id>:] with the error on the error stream. A row
    reported as processed has got its last patch: right after it is reported
    it is Needs human review with the flag set, or Deduped with the flag
    cleared. *)
Theorem every_row_of_the_batch_is_reported `{Platform} (env : Env) (DB_ID ds : jsstring)
    (page : Page) (w : World) :
  ((main env DB_ID w).1 = Ok () ->
   let batch := new_batch (rows (store w)) in
   exists lines,
     console (main env DB_ID w).2
     = console w
       ++ ConsoleLog (lit "Found " ++ lit (pretty (length batch)) ++ lit " new events")
          :: lines
     /\ Forall2 reported batch lines)
  /\ (exists line,
        console (main_row env ds page w).2 = console w ++ [line]
        /\ reported page line
        /\ (line = ConsoleLog (lit "Processed " ++ page_id page) ->
            exists row',
              find_row (page_id page) (rows (store (main_row env ds page w).2)) = Some row'
              /\ (status_of row' = Some (PSelect (lit "Needs human review"))
                  /\ review_flag_of row' = Some (PCheckbox true)
                  \/ status_of row' = Some (PSelect (lit "Deduped"))
                     /\ review_flag_of row' = Some (PCheckbox false)))).
Proof.
  split; [|apply main_row_reports].
  unfold main. rewrite bind_run.
  destruct (getDataSourceId_read env DB_ID w) as [Hst1 (_ & _ & Hk1 & _)].
  destruct (getDataSourceId env DB_ID w) as [[ds'|e] w1]; [|discriminate].
  cbn [snd] in *. rewrite bind_run. unfold queryNewEvents.
  destruct (query_read env ds' 25 (SelectEquals (lit "Status") (lit "New")) true w1)
    as [Hst2 (_ & _ & Hk2 & _)].
  pose proof (query_results env ds' 25 (SelectEquals (lit "Status") (lit "New")) true w1)
    as Hres.
  destruct (notionFetch env _ w1) as [[q|e] w2]; [|discriminate].
  cbn [snd] in *. specialize (Hres q w2 eq_refl). rewrite Hst1 in Hres.
  fold (new_batch (rows (store w))) in Hres. rewrite Hres.
  intros _. set (batch := new_batch (rows (store w))).
  rewrite bind_run. cbn [console_log modify].
  match goal with |- context [for_of _ _ ?x] => set (w3 := x) end.
  destruct (for_of_reports env ds' batch w3) as (lines & Hlines & Hall).
  exists lines. split; [|exact Hall].
  rewrite Hlines. subst w3. cbn [console with_console].
  rewrite Hk2, Hk1, <- app_assoc. reflexivity.
Qed.

Lemma every_row_of_the_batch_is_reported_witness :
  let p1 := Examples.queued "p1" "2025-01-01T00:00:01.000Z" "evt_1" in
  let p2 := Examples.queued "p2" "2025-01-01T00:00:02.000Z" "evt_2" in
  let w :=
    Examples.world_of [p1; p2]
      [None; None; None; Some (HttpError 500 (lit "boom"))] [] in
  let run := @main Examples.platform Examples.env (lit "db1") w in
  run.1 = Ok ()
  /\ exists lines,
       console run.2 = ConsoleLog (lit "Found 2 new events") :: lines
       /\ Forall2 reported [p1; p2] lines.
Proof.
  intros p1 p2 w run.
  assert (Hok : run.1 = Ok ()) by (vm_compute; reflexivity).
  split; [exact Hok|].
  destruct (proj1 (@every_row_of_the_batch_is_reported Examples.platform Examples.env
                     (lit "db1") (lit "ds1") p1 w) Hok) as (lines & Hlines & Hall).
  exists lines. split; [exact Hlines|].
  assert (Hb : new_batch (rows (store w)) = [p1; p2]) by (vm_compute; reflexivity).
  rewrite Hb in Hall. exact Hall.
Defined.

End WorkerReportProps.

(* ===================================================================== *)
(** ** The rate limiter: its quota and its place before a call *)
(* ===================================================================== *)

Module LimiterUseProps.
Import JS Model Notion Spec WorkerSpec JSFacts WorldFacts RateLimiterProps.
Import QArith_base.

(** X26. [notionFetch] asks the limiter before it sends anything. With a
    counter backend that denies [denials] times before it grants, the call is
    sent once, after the waits [max(250, reset - now)] of the denials: the
    delays are slept, the clock has moved on by their sum, the answers of the
    counter are used up to the grant, and the store serves the call at that
    later time. Without a backend nothing is slept and the counter is not
    asked. *)
Theorem every_call_waits_for_the_limiter `{Platform} (env : Env) (c : Call) (w : World) :
  truthy_opt (NOTION_API_KEY env) = true ->
  next_fetch_goes_through w ->
  let w' := (notionFetch env c w).2 in
  (getRedis env = true ->
   forall denials rest,
     counter w = denials ++ rest ->
     Forall (fun r => success r = false) denials ->
     grants_first rest ->
     let delays := waits (now w) denials in
     sleeps w' = sleeps w ++ delays
     /\ now w' = (now w + sumZ delays)%Z
     /\ counter w' = tail rest
     /\ calls w' = calls w ++ [c]
     /\ store w' = (serve c (now w + sumZ delays)%Z (store w)).2)
  /\ (getRedis env = false ->
      sleeps w' = sleeps w /\ now w' = now w /\ counter w' = counter w
      /\ calls w' = calls w ++ [c]
      /\ store w' = (serve c (now w) (store w)).2).
Proof.
  intros Hkey Hgo. cbn zeta.
  assert (Hfetch : forall g,
            faults g = faults w -> store g = store w ->
            let w' := ((res ← fetch c; check_response res) g).2 in
            sleeps w' = sleeps g /\ now w' = now g /\ counter w' = counter g
            /\ calls w' = calls g ++ [c]
            /\ store w' = (serve c (now g) (store w)).2).
  { intros g Hf Hs. cbn zeta. rewrite bind_run. unfold fetch. rewrite Hf, Hs.
    unfold next_fetch_goes_through in Hgo.
    destruct (head (faults w)) as [[f|]|]; [destruct Hgo| |];
      destruct (serve c (now g) (store w)) as [[f|r] st]; cbn [check_response];
      try destruct f; repeat split. }
  unfold notionFetch. rewrite Hkey. cbn [negb]. split.
  - intros Hcfg denials rest Hc Hden Hgrant.
    assert (Hw : throttleOrWait (getLimiter env notion) (lit "global") w
                 = (Ok (), waited (now w + sumZ (waits (now w) denials))%Z (tail rest)
                                  (sleeps w ++ waits (now w) denials) w)).
    { unfold throttleOrWait.
      rewrite (throttleOrWait_rounds_granted env notion (lit "global") denials rest w
                 (S (length (counter w))) Hcfg Hden Hgrant Hc).
      - reflexivity.
      - rewrite Hc, length_app. lia. }
    rewrite bind_run, Hw.
    destruct (Hfetch (waited (now w + sumZ (waits (now w) denials))%Z (tail rest)
                             (sleeps w ++ waits (now w) denials) w))
      as (H1 & H2 & H3 & H4 & H5); [reflexivity | reflexivity|].
    rewrite H1, H2, H3, H4, H5. repeat split.
  - intros Hcfg.
    assert (Hw : throttleOrWait (getLimiter env notion) (lit "global") w = (Ok (), w)).
    { unfold throttleOrWait. cbn [throttleOrWait_rounds].
      rewrite (getLimiter_unconfigured env notion (lit "global") w Hcfg). reflexivity. }
    rewrite bind_run, Hw. apply Hfetch; reflexivity.
Qed.

Lemma every_call_waits_for_the_limiter_witness :
  let w :=
    Examples.world_of [] []
      [Examples.denied 1100; Examples.denied 2000; Examples.granted 3000] in
  let w' :=
    (@notionFetch Examples.platform Examples.env
       (CreatePage (lit "db1") [(lit "Status", Some (PSelect (lit "New")))]) w).2 in
  truthy_opt (NOTION_API_KEY Examples.env) = true
  /\ next_fetch_goes_through w
  /\ getRedis Examples.env = true
  /\ sleeps w' = [250; 750]%Z
  /\ now w' = 2000%Z
  /\ created_time <$> rows (store w') = [lit "t+2000"].
Proof.
  cbn zeta.
  split; [reflexivity|]. split; [exact I|]. split; [reflexivity|].
  destruct (proj1 (@every_call_waits_for_the_limiter Examples.platform Examples.env
                     (CreatePage (lit "db1") [(lit "Status", Some (PSelect (lit "New")))])
                     (Examples.world_of [] []
                        [Examples.denied 1100; Examples.denied 2000; Examples.granted 3000])
                     ltac:(reflexivity) I)
              ltac:(reflexivity)
              [Examples.denied 1100; Examples.denied 2000] [Examples.granted 3000]
              ltac:(reflexivity) ltac:(repeat constructor) ltac:(reflexivity))
    as (Hsleeps & Hnow & _ & _ & Hstore).
  split; [exact Hsleeps|]. split; [exact Hnow|].
  rewrite Hstore. vm_compute. reflexivity.
Defined.

(** X27. The quota [intEnv] reads. It is the fallback when the variable is
    unset or empty, or when [Number] makes of it [NaN], an infinity or a
    number that is not positive; otherwise it is the setting rounded down.
    So with a positive fallback the quota is never negative, but it is 0 for
    a setting between 0 and 1. *)
Theorem quota_is_the_setting_rounded_down (Number : jsstring -> JSNumber)
    (raw : option jsstring) (fallback : Z) :
  (truthy_opt raw = false -> intEnv Number raw fallback = fallback)
  /\ (forall s, raw = Some s -> s <> [] ->
      match Number s with
      | Finite n =>
          (0 < n -> intEnv Number raw fallback = Qround.Qfloor n
                    /\ (0 <= intEnv Number raw fallback)%Z
                    /\ inject_Z (intEnv Number raw fallback) <= n
                    /\ (intEnv Number raw fallback = 0%Z <-> n < 1))
          /\ (n <= 0 -> intEnv Number raw fallback = fallback)
      | _ => intEnv Number raw fallback = fallback
      end)
  /\ ((0 < fallback)%Z -> (0 <= intEnv Number raw fallback)%Z).
Proof.
  assert (Hfloor : forall n : Q, 0 < n -> (0 <= Qround.Qfloor n)%Z).
  { intros n Hn. change 0%Z with (Qround.Qfloor (inject_Z 0)).
    apply Qround.Qfloor_resp_le, Qlt_le_weak. exact Hn. }
  split; [|split].
  - intros Hraw. unfold intEnv. rewrite Hraw. reflexivity.
  - intros s -> Hs. unfold intEnv. cbn [truthy_opt]. rewrite (truthy_string_ne s Hs).
    cbn [negb default from_option id].
    destruct (Number s) as [|neg|n]; try reflexivity.
    destruct (Qlt_le_dec (inject_Z 0) n) as [Hpos|Hnon]; split.
    + intros _. split; [reflexivity|]. split; [apply Hfloor, Hpos|].
      split; [apply Qround.Qfloor_le|]. split.
      * intros H0. pose proof (Qround.Qlt_floor n) as Hlt. rewrite H0 in Hlt. exact Hlt.
      * intros H1. apply Z.le_antisymm; [|apply Hfloor, Hpos].
        destruct (Z.lt_ge_cases (Qround.Qfloor n) 1) as [Hlt|Hge]; [lia|].
        exfalso. apply (Qlt_irrefl n). apply (Qlt_le_trans _ 1); [exact H1|].
        apply (Qle_trans _ (inject_Z (Qround.Qfloor n))); [|apply Qround.Qfloor_le].
        change (inject_Z 1 <= inject_Z (Qround.Qfloor n)).
        rewrite <- Zle_Qle. exact Hge.
    + intros Hle. exfalso. apply (Qlt_irrefl n). eapply Qle_lt_trans; eassumption.
    + intros Hpos. exfalso. apply (Qlt_irrefl n). eapply Qle_lt_trans; eassumption.
    + intros _. reflexivity.
  - intros Hfb. unfold intEnv. destruct (negb (truthy_opt raw)); [lia|].
    destruct (Number (default [] raw)) as [|neg|n]; try lia.
    destruct (Qlt_le_dec (inject_Z 0) n) as [Hpos|Hnon]; [apply Hfloor, Hpos | lia].
Qed.

Lemma quota_is_the_setting_rounded_down_witness :
  let Number (s : jsstring) :=
    if bool_decide (s = lit "0.5") then Finite (1 # 2)
    else if bool_decide (s = lit "7.9") then Finite (79 # 10)
    else NaN in
  intEnv Number (Some (lit "0.5")) 3 = 0%Z
  /\ intEnv Number (Some (lit "7.9")) 3 = 7%Z
  /\ intEnv Number (Some (lit "fast")) 3 = 3%Z
  /\ intEnv Number None 60 = 60%Z.
Proof.
  intros Number.
  pose proof (proj1 (proj2 (quota_is_the_setting_rounded_down Number
                              (Some (lit "0.5")) 3)) (lit "0.5") eq_refl
                ltac:(vm_compute; discriminate)) as H05.
  pose proof (proj1 (proj2 (quota_is_the_setting_rounded_down Number
                              (Some (lit "7.9")) 3)) (lit "7.9") eq_refl
                ltac:(vm_compute; discriminate)) as H79.
  pose proof (proj1 (proj2 (quota_is_the_setting_rounded_down Number
                              (Some (lit "fast")) 3)) (lit "fast") eq_refl
                ltac:(vm_compute; discriminate)) as Hfast.
  pose proof (proj1 (quota_is_the_setting_rounded_down Number None 60) eq_refl) as Hnone.
  change (Number (lit "0.5")) with (Finite (1 # 2)) in H05.
  change (Number (lit "7.9")) with (Finite (79 # 10)) in H79.
  change (Number (lit "fast")) with NaN in Hfast.
  split; [|split; [|split; [exact Hfast | exact Hnone]]].
  - apply (proj2 (proj2 (proj2 (proj1 H05 ltac:(reflexivity))))). reflexivity.
  - rewrite (proj1 (proj1 H79 ltac:(reflexivity))). reflexivity.
Defined.

(** X28. The worker reads the same variable as the library but does not
    round it: the library's quota for the upstream limiter is the worker's
    rounded down, whatever the setting. So the two agree on a whole number
    and on a setting that is not usable (both take 3), and differ on a
    fraction, where the worker passes the fraction on. *)
Theorem library_quota_is_worker_quota_rounded_down (Number : jsstring -> JSNumber)
    (raw : option jsstring) :
  Number (lit "3") = Finite (inject_Z 3) ->
  Number [] = Finite (inject_Z 0) ->
  intEnv Number raw 3 = Qround.Qfloor (Worker.quota Number raw).
Proof.
  intros H3 H0. unfold intEnv, Worker.quota, Worker.notionRps.
  destruct raw as [[|c s]|]; cbn [truthy_opt truthy_string negb default from_option id].
  - rewrite H0. reflexivity.
  - destruct (Number (c :: s)) as [|neg|n]; try reflexivity.
    destruct (Qlt_le_dec (inject_Z 0) n); reflexivity.
  - rewrite H3. reflexivity.
Qed.

Lemma library_quota_is_worker_quota_rounded_down_witness :
  let Number (s : jsstring) :=
    if bool_decide (s = lit "3") then Finite (inject_Z 3)
    else if bool_decide (s = []) then Finite (inject_Z 0)
    else if bool_decide (s = lit "7.9") then Finite (79 # 10)
    else NaN in
  Number (lit "3") = Finite (inject_Z 3)
  /\ Number [] = Finite (inject_Z 0)
  /\ Worker.quota Number (Some (lit "7.9")) = 79 # 10
  /\ intEnv Number (Some (lit "7.9")) 3 = 7%Z
  /\ intEnv Number (Some []) 3 = 3%Z.
Proof.
  intros Number.
  split; [reflexivity|]. split; [reflexivity|]. split; [reflexivity|].
  split.
  - rewrite (library_quota_is_worker_quota_rounded_down Number (Some (lit "7.9"))
               eq_refl eq_refl).
    reflexivity.
  - rewrite (library_quota_is_worker_quota_rounded_down Number (Some [])
               eq_refl eq_refl).
    reflexivity.
Defined.

End LimiterUseProps.
